(** * The project/task scheduling engine of [core/project_manager.py]

    A shallow embedding of [ProjectManager]: the entity records, the
    lifecycle operations ([create_project], [add_task_to_project],
    [update_task_status], [log_time]), the scheduling analytics
    ([get_project_metrics], [get_task_dependencies], [get_available_tasks],
    [get_critical_path]) and the views over all projects
    ([get_resource_utilization], [get_dashboard_data]), followed by the
    properties the specification states about them and by further
    properties that the code has.

    Modelling choices.
    - Python [float] is kept abstract behind the class [PyFloat]; the
      instance [binary64] is IEEE-754 double precision (what CPython runs),
      the instance [exactQ] is exact rational arithmetic (what the
      specification's "real" hours idealise).
    - [datetime] is the number of microseconds since an epoch; every
      [datetime.now()] consumes the next reading of a clock oracle.
    - [str(uuid.uuid4())] consumes the next value of an identifier oracle.
    - A Python [dict] keeps insertion order, and two analytics depend on
      it, so dictionaries are association lists with Python's update rule.
    - A raised exception returns the state as it is at the [raise].
    - [logger.info] calls have no effect on the manager and are left out.
    - [sum] over floats is the left fold of [+] from [0], as CPython
      computes it up to version 3.11 (later versions compensate the
      rounding errors of a sum of floats).
    - The interpreter's recursion limit is a parameter where the code
      recurses: [recursion_limit] is the number of nested calls of
      [_get_task_chain] that the interpreter allows inside the call at
      hand, and one call more raises [RecursionError].  The frames of
      the calls that do not recurse are taken to be available.
    - The [OverflowError] of an int too large for a float is not
      modelled. *)

From Stdlib Require Import ZArith List String Bool Lia QArith Qcanon DecimalString DecimalNat.
From Stdlib Require Import Floats.SpecFloat.
Import ListNotations.
Local Open Scope string_scope.
Local Open Scope Z_scope.

(** ** Enumerations *)

Inductive ProjectStatus := PLANNING | ACTIVE | ON_HOLD | PS_COMPLETED | PS_CANCELLED.

Inductive TaskStatus := NOT_STARTED | IN_PROGRESS | BLOCKED | COMPLETED | CANCELLED.

Inductive Priority := LOW | MEDIUM | HIGH | CRITICAL.

Definition TaskStatus_eqb (a b : TaskStatus) : bool :=
  match a, b with
  | NOT_STARTED, NOT_STARTED | IN_PROGRESS, IN_PROGRESS | BLOCKED, BLOCKED
  | COMPLETED, COMPLETED | CANCELLED, CANCELLED => true
  | _, _ => false
  end.

(** ** Python floats *)

(** The float operations the module uses.  [f_of_int] is the conversion
    of an int ([0], [100], and the literals [0.0] and [100.0]),
    [f_truediv_int] is [/] on two ints, correctly rounded (the literal
    [0.9] is the quotient of 9 by 10). *)
Class PyFloat := {
  float : Type;
  f_of_int : Z -> float;
  f_truediv_int : Z -> Z -> float;
  f_add : float -> float -> float;
  f_mul : float -> float -> float;
  f_div : float -> float -> float;
  f_ltb : float -> float -> bool;
  f_leb : float -> float -> bool
}.

Definition f_zero `{PyFloat} : float := f_of_int 0.

Definition f_gtb `{PyFloat} (a b : float) : bool := f_ltb b a.

Definition f_geb `{PyFloat} (a b : float) : bool := f_leb b a.

(** [sum(xs)]: a left fold that starts from the int [0]. *)
Definition f_sum `{PyFloat} (xs : list float) : float := fold_left f_add xs f_zero.

(** [min(a, b)] and [max(a, b)] keep the first argument unless the second
    is strictly smaller (greater). *)
Definition f_min `{PyFloat} (a b : float) : float := if f_ltb b a then b else a.

Definition f_max `{PyFloat} (a b : float) : float := if f_gtb b a then b else a.

(** IEEE-754 binary64 with round-to-nearest-even. *)
Definition b64_of_int (z : Z) : spec_float := binary_normalize 53 1024 z 0 false.

(** An int as an unrounded operand, so that the quotient of two ints is
    rounded once, as Python's true division does. *)
Definition b64_raw (z : Z) : spec_float :=
  match z with
  | Z0 => S754_zero false
  | Zpos p => S754_finite false p 0
  | Zneg p => S754_finite true p 0
  end.

#[export] Instance binary64 : PyFloat := {|
  float := spec_float;
  f_of_int := b64_of_int;
  f_truediv_int := fun a b => SFdiv 53 1024 (b64_raw a) (b64_raw b);
  f_add := SFadd 53 1024;
  f_mul := SFmul 53 1024;
  f_div := SFdiv 53 1024;
  f_ltb := SFltb;
  f_leb := SFleb
|}.

(** Exact rational arithmetic. *)
Definition Qc_ltb (a b : Qc) : bool :=
  match (a ?= b)%Qc with Lt => true | _ => false end.

Definition Qc_leb (a b : Qc) : bool :=
  match (a ?= b)%Qc with Gt => false | _ => true end.

#[export] Instance exactQ : PyFloat := {|
  float := Qc;
  f_of_int := fun z => Q2Qc (inject_Z z);
  f_truediv_int := fun a b => (Q2Qc (inject_Z a) / Q2Qc (inject_Z b))%Qc;
  f_add := Qcplus;
  f_mul := Qcmult;
  f_div := Qcdiv;
  f_ltb := Qc_ltb;
  f_leb := Qc_leb
|}.

(** Arithmetic without rounding: addition is associative and commutative
    and the int [0] is neutral. *)
Class ExactAdd (F : PyFloat) : Prop := {
  f_add_assoc : forall a b c : float, f_add a (f_add b c) = f_add (f_add a b) c;
  f_add_comm : forall a b : float, f_add a b = f_add b a;
  f_add_0_l : forall a : float, f_add f_zero a = a
}.

(** On the values in [D] (which contain [0] and are closed under
    addition) the comparison [>] is a strict order in which incomparable
    values are interchangeable. *)
Class OrderedDurations (F : PyFloat) (D : float -> Prop) : Prop := {
  D_zero : D f_zero;
  D_add : forall a b : float, D a -> D b -> D (f_add a b);
  f_gt_trans : forall a b c : float, D a -> D b -> D c ->
    f_gtb a b = true -> f_gtb b c = true -> f_gtb a c = true;
  f_gt_cotrans : forall a b c : float, D a -> D b -> D c ->
    f_gtb a b = true -> f_gtb c b = false -> f_gtb a c = true
}.

(** The binary64 values that are not NaN and not negative: zeros,
    positive finite numbers and plus infinity. *)
Definition b64_nonnegb (x : spec_float) : bool :=
  match x with
  | S754_nan => false
  | S754_zero _ => true
  | S754_infinity s | S754_finite s _ _ => negb s
  end.

(** The position of a non-negative binary64 value in the order: its
    class, then its exponent, then its mantissa. *)
Definition b64_key (x : spec_float) : Z * Z * Z :=
  match x with
  | S754_finite _ m e => (1, e, Zpos m)
  | S754_infinity _ => (2, 0, 0)
  | _ => (0, 0, 0)
  end.

Definition key_lt (k1 k2 : Z * Z * Z) : Prop :=
  let '(c1, e1, m1) := k1 in
  let '(c2, e2, m2) := k2 in
  c1 < c2 \/ (c1 = c2 /\ (e1 < e2 \/ (e1 = e2 /\ m1 < m2))).

(** ** Dictionaries *)

(** A [dict] with [str] keys, in insertion order. *)
Definition dict (V : Type) : Type := list (string * V).

Fixpoint dict_get {V} (d : dict V) (k : string) : option V :=
  match d with
  | [] => None
  | (k', v) :: d' => if String.eqb k k' then Some v else dict_get d' k
  end.

Definition dict_mem {V} (d : dict V) (k : string) : bool :=
  match dict_get d k with Some _ => true | None => false end.

(** [d[k] = v]: an existing key keeps its position, a new key goes last. *)
Fixpoint dict_set {V} (d : dict V) (k : string) (v : V) : dict V :=
  match d with
  | [] => [(k, v)]
  | (k', v') :: d' =>
      if String.eqb k k' then (k', v) :: d' else (k', v') :: dict_set d' k v
  end.

Definition dict_keys {V} (d : dict V) : list string := map fst d.

Definition dict_values {V} (d : dict V) : list V := map snd d.

(** [x in xs] for a list or a set of strings. *)
Definition str_in (x : string) (xs : list string) : bool :=
  existsb (String.eqb x) xs.

(** ** Entities *)

(** A [datetime], in microseconds. *)
Definition datetime : Type := Z.

Section Entities.
Context {F : PyFloat}.

(** [ProjectTask]. *)
Record ProjectTask := {
  task_id : string;
  task_title : string;
  task_description : string;
  task_status : TaskStatus;
  task_priority : Priority;
  task_assigned_agents : list string;
  task_dependencies : list string;
  task_estimated_hours : float;
  task_actual_hours : float;
  task_start_date : option datetime;
  task_due_date : option datetime;
  task_completion_date : option datetime;
  task_tags : list string;
  task_notes : string;
  task_created_at : datetime;
  task_updated_at : datetime
}.

(** [Project]. *)
Record Project := {
  project_id : string;
  project_name : string;
  project_description : string;
  project_status : ProjectStatus;
  project_priority : Priority;
  project_owner : string;
  project_tasks : dict ProjectTask;
  project_start_date : option datetime;
  project_due_date : option datetime;
  project_completion_date : option datetime;
  project_budget_hours : float;
  project_spent_hours : float;
  project_tags : list string;
  project_created_at : datetime;
  project_updated_at : datetime
}.

(** [ResourceAllocation]. *)
Record ResourceAllocation := {
  ra_agent_id : string;
  ra_project_id : string;
  ra_task_id : string;
  ra_allocated_hours : float;
  ra_start_date : datetime;
  ra_end_date : datetime;
  ra_utilization_percentage : float
}.

(** [ProjectMetrics]. *)
Record ProjectMetrics := {
  pm_project_id : string;
  completion_percentage : float;
  tasks_completed : Z;
  tasks_total : Z;
  hours_spent : float;
  hours_estimated : float;
  days_remaining : Z;
  is_on_schedule : bool;
  blocked_tasks : Z;
  overdue_tasks : Z
}.

(** Attribute assignments on a task. *)
Definition task_with_status (s : TaskStatus) (t : ProjectTask) : ProjectTask :=
  {| task_id := task_id t; task_title := task_title t;
     task_description := task_description t; task_status := s;
     task_priority := task_priority t;
     task_assigned_agents := task_assigned_agents t;
     task_dependencies := task_dependencies t;
     task_estimated_hours := task_estimated_hours t;
     task_actual_hours := task_actual_hours t;
     task_start_date := task_start_date t; task_due_date := task_due_date t;
     task_completion_date := task_completion_date t;
     task_tags := task_tags t; task_notes := task_notes t;
     task_created_at := task_created_at t; task_updated_at := task_updated_at t |}.

Definition task_with_updated_at (d : datetime) (t : ProjectTask) : ProjectTask :=
  {| task_id := task_id t; task_title := task_title t;
     task_description := task_description t; task_status := task_status t;
     task_priority := task_priority t;
     task_assigned_agents := task_assigned_agents t;
     task_dependencies := task_dependencies t;
     task_estimated_hours := task_estimated_hours t;
     task_actual_hours := task_actual_hours t;
     task_start_date := task_start_date t; task_due_date := task_due_date t;
     task_completion_date := task_completion_date t;
     task_tags := task_tags t; task_notes := task_notes t;
     task_created_at := task_created_at t; task_updated_at := d |}.

Definition task_with_completion_date (d : option datetime) (t : ProjectTask) : ProjectTask :=
  {| task_id := task_id t; task_title := task_title t;
     task_description := task_description t; task_status := task_status t;
     task_priority := task_priority t;
     task_assigned_agents := task_assigned_agents t;
     task_dependencies := task_dependencies t;
     task_estimated_hours := task_estimated_hours t;
     task_actual_hours := task_actual_hours t;
     task_start_date := task_start_date t; task_due_date := task_due_date t;
     task_completion_date := d;
     task_tags := task_tags t; task_notes := task_notes t;
     task_created_at := task_created_at t; task_updated_at := task_updated_at t |}.

Definition task_with_actual_hours (h : float) (t : ProjectTask) : ProjectTask :=
  {| task_id := task_id t; task_title := task_title t;
     task_description := task_description t; task_status := task_status t;
     task_priority := task_priority t;
     task_assigned_agents := task_assigned_agents t;
     task_dependencies := task_dependencies t;
     task_estimated_hours := task_estimated_hours t;
     task_actual_hours := h;
     task_start_date := task_start_date t; task_due_date := task_due_date t;
     task_completion_date := task_completion_date t;
     task_tags := task_tags t; task_notes := task_notes t;
     task_created_at := task_created_at t; task_updated_at := task_updated_at t |}.

(** Attribute assignments on a project. *)
Definition project_with_tasks (ts : dict ProjectTask) (p : Project) : Project :=
  {| project_id := project_id p; project_name := project_name p;
     project_description := project_description p;
     project_status := project_status p; project_priority := project_priority p;
     project_owner := project_owner p; project_tasks := ts;
     project_start_date := project_start_date p;
     project_due_date := project_due_date p;
     project_completion_date := project_completion_date p;
     project_budget_hours := project_budget_hours p;
     project_spent_hours := project_spent_hours p;
     project_tags := project_tags p; project_created_at := project_created_at p;
     project_updated_at := project_updated_at p |}.

Definition project_with_status (s : ProjectStatus) (p : Project) : Project :=
  {| project_id := project_id p; project_name := project_name p;
     project_description := project_description p;
     project_status := s; project_priority := project_priority p;
     project_owner := project_owner p; project_tasks := project_tasks p;
     project_start_date := project_start_date p;
     project_due_date := project_due_date p;
     project_completion_date := project_completion_date p;
     project_budget_hours := project_budget_hours p;
     project_spent_hours := project_spent_hours p;
     project_tags := project_tags p; project_created_at := project_created_at p;
     project_updated_at := project_updated_at p |}.

Definition project_with_completion_date (d : option datetime) (p : Project) : Project :=
  {| project_id := project_id p; project_name := project_name p;
     project_description := project_description p;
     project_status := project_status p; project_priority := project_priority p;
     project_owner := project_owner p; project_tasks := project_tasks p;
     project_start_date := project_start_date p;
     project_due_date := project_due_date p;
     project_completion_date := d;
     project_budget_hours := project_budget_hours p;
     project_spent_hours := project_spent_hours p;
     project_tags := project_tags p; project_created_at := project_created_at p;
     project_updated_at := project_updated_at p |}.

Definition project_with_spent_hours (h : float) (p : Project) : Project :=
  {| project_id := project_id p; project_name := project_name p;
     project_description := project_description p;
     project_status := project_status p; project_priority := project_priority p;
     project_owner := project_owner p; project_tasks := project_tasks p;
     project_start_date := project_start_date p;
     project_due_date := project_due_date p;
     project_completion_date := project_completion_date p;
     project_budget_hours := project_budget_hours p;
     project_spent_hours := h;
     project_tags := project_tags p; project_created_at := project_created_at p;
     project_updated_at := project_updated_at p |}.

Definition project_with_updated_at (d : datetime) (p : Project) : Project :=
  {| project_id := project_id p; project_name := project_name p;
     project_description := project_description p;
     project_status := project_status p; project_priority := project_priority p;
     project_owner := project_owner p; project_tasks := project_tasks p;
     project_start_date := project_start_date p;
     project_due_date := project_due_date p;
     project_completion_date := project_completion_date p;
     project_budget_hours := project_budget_hours p;
     project_spent_hours := project_spent_hours p;
     project_tags := project_tags p; project_created_at := project_created_at p;
     project_updated_at := d |}.

(** ** The manager and its environment *)

(** [ProjectManager]: the two attributes set by [__init__]. *)
Record ProjectManager := {
  projects : dict Project;
  resource_allocations : list ResourceAllocation
}.

(** The manager together with the number of identifiers and of clock
    readings consumed so far. *)
Record World := {
  self : ProjectManager;
  uuid_calls : nat;
  clock_calls : nat
}.

(** [ProjectManager()]. *)
Definition init : World :=
  {| self := {| projects := []; resource_allocations := [] |};
     uuid_calls := 0; clock_calls := 0 |}.

(** Exceptions.  [ValueError] carries its message; [KeyError] and
    [AttributeError] are what a failed subscript or attribute access
    would raise, [RecursionError] what too deep a recursion would. *)
Inductive exn :=
| ValueError (msg : string)
| KeyError (key : string)
| AttributeError (msg : string)
| RecursionError.

Inductive result (A : Type) :=
| Ok (a : A)
| Raise (e : exn).

(** A method body: from the world to an outcome and the world it leaves. *)
Definition M (A : Type) : Type := World -> result A * World.

Definition ret {A} (a : A) : M A := fun w => (Ok _ a, w).

Definition bind {A B} (m : M A) (k : A -> M B) : M B :=
  fun w => match m w with
           | (Ok _ a, w') => k a w'
           | (Raise _ e, w') => (Raise _ e, w')
           end.

Definition raise {A} (e : exn) : M A := fun w => (Raise _ e, w).

Definition get_self : M ProjectManager := fun w => (Ok _ (self w), w).

Definition set_projects (ps : dict Project) : M unit :=
  fun w => (Ok _ tt,
            {| self := {| projects := ps;
                          resource_allocations := resource_allocations (self w) |};
               uuid_calls := uuid_calls w; clock_calls := clock_calls w |}).

(** The world after one more clock reading, after one more identifier,
    and after [self.projects[project_id] = p]. *)
Definition tick (w : World) : World :=
  {| self := self w; uuid_calls := uuid_calls w; clock_calls := S (clock_calls w) |}.

Definition next_uuid (w : World) : World :=
  {| self := self w; uuid_calls := S (uuid_calls w); clock_calls := clock_calls w |}.

Definition with_project (w : World) (project_id : string) (p : Project) : World :=
  {| self := {| projects := dict_set (projects (self w)) project_id p;
                resource_allocations := resource_allocations (self w) |};
     uuid_calls := uuid_calls w; clock_calls := clock_calls w |}.

End Entities.

Arguments ProjectTask {F}.
Arguments Project {F}.
Arguments ResourceAllocation {F}.
Arguments ProjectMetrics {F}.
Arguments ProjectManager {F}.
Arguments World {F}.
Arguments M {F} A.
Arguments Ok {A} a.
Arguments Raise {A} e.

Declare Scope py_scope.
Delimit Scope py_scope with py.
Notation "x <- m ;; k" := (bind m (fun x => k))
  (at level 61, m at next level, right associativity) : py_scope.
Notation "m ;; k" := (bind m (fun _ => k))
  (at level 61, right associativity) : py_scope.
Local Open Scope py_scope.

(** ** Operations *)

Section Operations.
Context {F : PyFloat}.

(** The identifier oracle: [uuid4 n] is the string that the [n]-th call
    of [str(uuid.uuid4())] returns. *)
Variable uuid4 : nat -> string.

(** The clock oracle: [clock n] is what the [n]-th call of
    [datetime.now()] returns. *)
Variable clock : nat -> datetime.

(** The room on the interpreter's stack: the number of nested calls of
    [_get_task_chain] that the recursion limit allows inside the call of
    [get_critical_path] at hand (with CPython's default limit of 1000,
    some hundreds, depending on the depth of the caller). *)
Variable recursion_limit : nat.

Definition uuid4_str : M string :=
  fun w => (Ok (uuid4 (uuid_calls w)), next_uuid w).

Definition datetime_now : M datetime :=
  fun w => (Ok (clock (clock_calls w)), tick w).

(** [project_id not in self.projects]. *)
Definition project_missing (project_id : string) : M bool :=
  pm <- get_self ;; ret (negb (dict_mem (projects pm) project_id)).

(** [self.projects[project_id]]. *)
Definition projects_at (project_id : string) : M Project :=
  pm <- get_self ;;
  match dict_get (projects pm) project_id with
  | Some p => ret p
  | None => raise (KeyError project_id)
  end.

(** [self.projects[project_id].tasks[task_id]]. *)
Definition tasks_at (project_id task_id : string) : M ProjectTask :=
  p <- projects_at project_id ;;
  match dict_get (project_tasks p) task_id with
  | Some t => ret t
  | None => raise (KeyError task_id)
  end.

(** [task_id not in self.projects[project_id].tasks]. *)
Definition task_missing (project_id task_id : string) : M bool :=
  p <- projects_at project_id ;;
  ret (negb (dict_mem (project_tasks p) task_id)).

(** An attribute assignment on the object [self.projects[project_id]]:
    the dictionary entry is the object, so the entry changes in place. *)
Definition assign_project (project_id : string) (f : Project -> Project) : M unit :=
  p <- projects_at project_id ;;
  pm <- get_self ;;
  set_projects (dict_set (projects pm) project_id (f p)).

(** An attribute assignment on the object
    [task = self.projects[project_id].tasks[task_id]]. *)
Definition assign_task (project_id task_id : string)
  (f : ProjectTask -> ProjectTask) : M unit :=
  t <- tasks_at project_id task_id ;;
  assign_project project_id
    (fun p => project_with_tasks (dict_set (project_tasks p) task_id (f t)) p).

(** [xs or []] for an optional list argument. *)
Definition or_empty {A} (xs : option (list A)) : list A :=
  match xs with Some l => l | None => [] end.

Definition project_not_found (project_id : string) : exn :=
  ValueError ("Project " ++ project_id ++ " not found").

Definition task_not_found_in (task_id project_id : string) : exn :=
  ValueError ("Task " ++ task_id ++ " not found in project " ++ project_id).

Definition task_not_found (task_id : string) : exn :=
  ValueError ("Task " ++ task_id ++ " not found").

(** The [Project(...)] constructor call of [create_project], with the
    dataclass defaults for the fields it does not pass. *)
Definition new_project (project_id name description owner : string)
  (priority : Priority) (start_date due_date : option datetime)
  (budget_hours : float) (created_at updated_at : datetime) : Project :=
  {| project_id := project_id; project_name := name;
     project_description := description; project_status := PLANNING;
     project_priority := priority; project_owner := owner;
     project_tasks := []; project_start_date := start_date;
     project_due_date := due_date; project_completion_date := None;
     project_budget_hours := budget_hours; project_spent_hours := f_zero;
     project_tags := []; project_created_at := created_at;
     project_updated_at := updated_at |}.

(** The [ProjectTask(...)] constructor call of [add_task_to_project]. *)
Definition new_task (task_id title description : string)
  (priority : Priority) (estimated_hours : float)
  (dependencies assigned_agents : option (list string))
  (due_date : option datetime) (tags : option (list string))
  (created_at updated_at : datetime) : ProjectTask :=
  {| task_id := task_id; task_title := title;
     task_description := description; task_status := NOT_STARTED;
     task_priority := priority;
     task_assigned_agents := or_empty assigned_agents;
     task_dependencies := or_empty dependencies;
     task_estimated_hours := estimated_hours; task_actual_hours := f_zero;
     task_start_date := None; task_due_date := due_date;
     task_completion_date := None; task_tags := or_empty tags;
     task_notes := ""; task_created_at := created_at;
     task_updated_at := updated_at |}.

(** [ProjectManager.create_project].  The two [default_factory] stamps
    are read in field order. *)
Definition create_project (name description owner : string)
  (priority : Priority) (start_date due_date : option datetime)
  (budget_hours : float) : M string :=
  project_id <- uuid4_str ;;
  created_at <- datetime_now ;;
  updated_at <- datetime_now ;;
  let project :=
    new_project project_id name description owner priority start_date due_date
      budget_hours created_at updated_at in
  pm <- get_self ;;
  set_projects (dict_set (projects pm) project_id project) ;;
  ret project_id.

(** [ProjectManager.add_task_to_project]. *)
Definition add_task_to_project (project_id title description : string)
  (priority : Priority) (estimated_hours : float)
  (dependencies assigned_agents : option (list string))
  (due_date : option datetime) (tags : option (list string)) : M string :=
  missing <- project_missing project_id ;;
  if missing then raise (project_not_found project_id) else
  task_id <- uuid4_str ;;
  created_at <- datetime_now ;;
  updated_at <- datetime_now ;;
  let task :=
    new_task task_id title description priority estimated_hours dependencies
      assigned_agents due_date tags created_at updated_at in
  assign_project project_id
    (fun p => project_with_tasks (dict_set (project_tasks p) task_id task) p) ;;
  now <- datetime_now ;;
  assign_project project_id (project_with_updated_at now) ;;
  ret task_id.

(** [ProjectManager._all_tasks_completed]. *)
Definition _all_tasks_completed (project_id : string) : M bool :=
  project <- projects_at project_id ;;
  match project_tasks project with
  | [] => ret false
  | _ :: _ =>
      ret (forallb (fun task => TaskStatus_eqb (task_status task) COMPLETED)
             (dict_values (project_tasks project)))
  end.

(** [ProjectManager.update_task_status]. *)
Definition update_task_status (project_id task_id : string)
  (status : TaskStatus) : M unit :=
  missing <- project_missing project_id ;;
  if missing then raise (project_not_found project_id) else
  missing <- task_missing project_id task_id ;;
  if missing then raise (task_not_found_in task_id project_id) else
  task <- tasks_at project_id task_id ;;
  let old_status := task_status task in
  assign_task project_id task_id (task_with_status status) ;;
  now <- datetime_now ;;
  assign_task project_id task_id (task_with_updated_at now) ;;
  (if TaskStatus_eqb status COMPLETED && negb (TaskStatus_eqb old_status COMPLETED)
   then now <- datetime_now ;;
        assign_task project_id task_id (task_with_completion_date (Some now))
   else ret tt) ;;
  all_completed <- _all_tasks_completed project_id ;;
  if all_completed
  then assign_project project_id (project_with_status PS_COMPLETED) ;;
       now <- datetime_now ;;
       assign_project project_id (project_with_completion_date (Some now))
  else ret tt.

(** [ProjectManager.log_time]. *)
Definition log_time (project_id task_id : string) (hours : float) : M unit :=
  missing <- project_missing project_id ;;
  if missing then raise (project_not_found project_id) else
  missing <- task_missing project_id task_id ;;
  if missing then raise (task_not_found_in task_id project_id) else
  assign_task project_id task_id
    (fun task => task_with_actual_hours (f_add (task_actual_hours task) hours) task) ;;
  now <- datetime_now ;;
  assign_task project_id task_id (task_with_updated_at now) ;;
  assign_project project_id
    (fun p => project_with_spent_hours (f_add (project_spent_hours p) hours) p) ;;
  now <- datetime_now ;;
  assign_project project_id (project_with_updated_at now).

(** [len([t for t in tasks if t.status == s])]. *)
Definition count_status (s : TaskStatus) (tasks : list ProjectTask) : Z :=
  Z.of_nat (List.length (filter (fun t => TaskStatus_eqb (task_status t) s) tasks)).

(** The overdue comprehension: [datetime.now()] is read once for every
    task that has a due date. *)
Fixpoint count_overdue (tasks : list ProjectTask) : M Z :=
  match tasks with
  | [] => ret 0
  | t :: rest =>
      overdue <- match task_due_date t with
                 | None => ret false
                 | Some due =>
                     now <- datetime_now ;;
                     ret ((due <? now) && negb (TaskStatus_eqb (task_status t) COMPLETED))
                 end ;;
      n <- count_overdue rest ;;
      ret (if overdue then 1 + n else n)
  end.

(** [timedelta.total_seconds()] of the difference [a - b]. *)
Definition total_seconds (a b : datetime) : float := f_truediv_int (a - b) 1000000.

(** [timedelta.days] of the difference [a - b]. *)
Definition days_between (a b : datetime) : Z := (a - b) / 86400000000.

(** [ProjectManager._calculate_expected_progress]. *)
Definition _calculate_expected_progress (project : Project) : M float :=
  match project_start_date project, project_due_date project with
  | Some start_date, Some due_date =>
      now <- datetime_now ;;
      let total_duration := total_seconds due_date start_date in
      let elapsed_duration := total_seconds now start_date in
      if f_leb total_duration f_zero then ret (f_of_int 100) else
      let expected_progress :=
        f_min (f_of_int 100)
          (f_mul (f_div elapsed_duration total_duration) (f_of_int 100)) in
      ret (f_max f_zero expected_progress)
  | _, _ => ret f_zero
  end.

(** [ProjectManager.get_project_metrics]. *)
Definition get_project_metrics (project_id : string) : M ProjectMetrics :=
  missing <- project_missing project_id ;;
  if missing then raise (project_not_found project_id) else
  project <- projects_at project_id ;;
  let tasks := dict_values (project_tasks project) in
  match tasks with
  | [] =>
      ret {| pm_project_id := project_id; completion_percentage := f_zero;
             tasks_completed := 0; tasks_total := 0;
             hours_spent := project_spent_hours project;
             hours_estimated := project_budget_hours project;
             days_remaining := 0; is_on_schedule := true;
             blocked_tasks := 0; overdue_tasks := 0 |}
  | _ :: _ =>
      let tasks_completed := count_status COMPLETED tasks in
      let tasks_total := Z.of_nat (List.length tasks) in
      let completion_percentage :=
        if 0 <? tasks_total
        then f_mul (f_truediv_int tasks_completed tasks_total) (f_of_int 100)
        else f_zero in
      let blocked_tasks := count_status BLOCKED tasks in
      overdue_tasks <- count_overdue tasks ;;
      days_remaining <- match project_due_date project with
                        | Some due => now <- datetime_now ;;
                                      ret (Z.max 0 (days_between due now))
                        | None => ret 0
                        end ;;
      is_on_schedule <-
        match project_due_date project with
        | Some _ =>
            if f_ltb completion_percentage (f_of_int 100)
            then expected_progress <- _calculate_expected_progress project ;;
                 ret (f_geb completion_percentage
                        (f_mul expected_progress (f_truediv_int 9 10)))
            else ret true
        | None => ret true
        end ;;
      ret {| pm_project_id := project_id;
             completion_percentage := completion_percentage;
             tasks_completed := tasks_completed; tasks_total := tasks_total;
             hours_spent := project_spent_hours project;
             hours_estimated := project_budget_hours project;
             days_remaining := days_remaining; is_on_schedule := is_on_schedule;
             blocked_tasks := blocked_tasks; overdue_tasks := overdue_tasks |}
  end.

(** The loop of [get_task_dependencies]: dangling ids are skipped. *)
Fixpoint collect_dependencies (tasks : dict ProjectTask) (dep_ids : list string)
  : list ProjectTask :=
  match dep_ids with
  | [] => []
  | dep_id :: rest =>
      match dict_get tasks dep_id with
      | Some d => d :: collect_dependencies tasks rest
      | None => collect_dependencies tasks rest
      end
  end.

(** [ProjectManager.get_task_dependencies]. *)
Definition get_task_dependencies (project_id task_id : string) : M (list ProjectTask) :=
  missing <- project_missing project_id ;;
  if missing then raise (project_not_found project_id) else
  missing <- task_missing project_id task_id ;;
  if missing then raise (task_not_found task_id) else
  task <- tasks_at project_id task_id ;;
  p <- projects_at project_id ;;
  ret (collect_dependencies (project_tasks p) (task_dependencies task)).

(** [project.tasks.get(dep_id, {}).status == TaskStatus.COMPLETED]: the
    default [{}] has no attribute [status]. *)
Definition dependency_completed (tasks : dict ProjectTask) (dep_id : string) : M bool :=
  match dict_get tasks dep_id with
  | Some d => ret (TaskStatus_eqb (task_status d) COMPLETED)
  | None => raise (AttributeError "'dict' object has no attribute 'status'")
  end.

(** [all(... for dep_id in task.dependencies if dep_id in project.tasks)],
    which stops at the first [False]. *)
Fixpoint dependencies_completed (tasks : dict ProjectTask) (dep_ids : list string)
  : M bool :=
  match dep_ids with
  | [] => ret true
  | dep_id :: rest =>
      if dict_mem tasks dep_id
      then completed <- dependency_completed tasks dep_id ;;
           if completed then dependencies_completed tasks rest else ret false
      else dependencies_completed tasks rest
  end.

(** The loop of [get_available_tasks] over [project.tasks.values()]. *)
Fixpoint available_loop (tasks : dict ProjectTask) (todo : list ProjectTask)
  : M (list ProjectTask) :=
  match todo with
  | [] => ret []
  | task :: rest =>
      if TaskStatus_eqb (task_status task) NOT_STARTED
      then ok <- dependencies_completed tasks (task_dependencies task) ;;
           available <- available_loop tasks rest ;;
           ret (if ok then task :: available else available)
      else available_loop tasks rest
  end.

(** [ProjectManager.get_available_tasks]. *)
Definition get_available_tasks (project_id : string) : M (list ProjectTask) :=
  missing <- project_missing project_id ;;
  if missing then raise (project_not_found project_id) else
  project <- projects_at project_id ;;
  available_loop (project_tasks project) (dict_values (project_tasks project)).

(** [sum(t.estimated_hours for t in chain)]. *)
Definition chain_duration (chain : list ProjectTask) : float :=
  f_sum (map task_estimated_hours chain).

(** The selection loop that [get_critical_path] and [_get_task_chain]
    share: starting from the empty chain and the duration [0], a chain
    replaces the kept one when its duration is strictly greater. *)
Definition longest_step (acc : list ProjectTask * float) (chain : list ProjectTask)
  : list ProjectTask * float :=
  if f_gtb (chain_duration chain) (snd acc)
  then (chain, chain_duration chain)
  else acc.

Definition longest_of (chains : list (list ProjectTask)) : list ProjectTask :=
  fst (fold_left longest_step chains ([], f_zero)).

(** The chains of a loop, stopping at the first exception. *)
Fixpoint sequence {A} (rs : list (result A)) : result (list A) :=
  match rs with
  | [] => Ok []
  | Ok a :: rest =>
      match sequence rest with
      | Ok l => Ok (a :: l)
      | Raise e => Raise e
      end
  | Raise e :: _ => Raise e
  end.

(** [dep_task.id], where a parameter named [task_id] is in scope. *)
Local Abbreviation id_of := task_id (only parsing).

(** [ProjectManager._get_task_chain].  The recursion is on [depth], the
    number of nested calls still allowed; running out of it is
    [RecursionError].  [visited.add] followed by [visited.copy()] hands
    every recursive call the same extended set. *)
Fixpoint _get_task_chain (depth : nat) (project : Project) (task_id : string)
  (visited : list string) : result (list ProjectTask) :=
  match depth with
  | O => Raise RecursionError
  | S depth' =>
      if str_in task_id visited || negb (dict_mem (project_tasks project) task_id)
      then Ok []
      else
        let visited := task_id :: visited in
        match dict_get (project_tasks project) task_id with
        | None => Raise (KeyError task_id)
        | Some task =>
            let dependent_tasks :=
              filter (fun t => str_in task_id (task_dependencies t))
                (dict_values (project_tasks project)) in
            match sequence
                    (map (fun dep_task =>
                            _get_task_chain depth' project (id_of dep_task) visited)
                       dependent_tasks) with
            | Ok dep_chains => Ok (task :: longest_of dep_chains)
            | Raise e => Raise e
            end
        end
  end.

(** [ProjectManager.get_critical_path].  The chain of a start task is
    built with the nesting depth that the recursion limit allows. *)
Definition get_critical_path (project_id : string) : M (list ProjectTask) :=
  missing <- project_missing project_id ;;
  if missing then raise (project_not_found project_id) else
  project <- projects_at project_id ;;
  let tasks := dict_values (project_tasks project) in
  let start_tasks :=
    filter (fun t => match task_dependencies t with [] => true | _ => false end) tasks in
  match start_tasks with
  | [] => ret []
  | _ :: _ =>
      match sequence
              (map (fun start_task =>
                      _get_task_chain recursion_limit project (task_id start_task) [])
                 start_tasks) with
      | Ok chains => ret (longest_of chains)
      | Raise e => raise e
      end
  end.

End Operations.

Arguments create_project {F} uuid4 clock.
Arguments add_task_to_project {F} uuid4 clock.
Arguments update_task_status {F} clock.
Arguments log_time {F} clock.
Arguments get_project_metrics {F} clock.

(** ** The views over all projects *)

Definition ProjectStatus_eqb (a b : ProjectStatus) : bool :=
  match a, b with
  | PLANNING, PLANNING | ACTIVE, ACTIVE | ON_HOLD, ON_HOLD
  | PS_COMPLETED, PS_COMPLETED | PS_CANCELLED, PS_CANCELLED => true
  | _, _ => false
  end.

(** [status.value] of a [TaskStatus]. *)
Definition TaskStatus_value (s : TaskStatus) : string :=
  match s with
  | NOT_STARTED => "not_started"
  | IN_PROGRESS => "in_progress"
  | BLOCKED => "blocked"
  | COMPLETED => "completed"
  | CANCELLED => "cancelled"
  end.

(** [sum] over ints. *)
Definition int_sum (xs : list Z) : Z := fold_left Z.add xs 0.

Section Views.
Context {F : PyFloat}.
Variable clock : nat -> datetime.

(** The nesting depth that the recursion limit allows to
    [_get_task_chain] inside the calls of [get_critical_path] that
    [get_dashboard_data] makes. *)
Variable recursion_limit : nat.

(** The dictionary that [get_resource_utilization] appends to an agent's
    ['tasks'] list. *)
Record TaskEntry := {
  entry_project_id : string;
  entry_task_id : string;
  entry_task_title : string;
  entry_hours : float;
  entry_status : string
}.

(** The dictionary stored under an agent id: ['total_hours'],
    ['projects'] and ['tasks']. *)
Record AgentUtilization := {
  au_total_hours : float;
  au_projects : list string;
  au_tasks : list TaskEntry
}.

Definition au_with_total_hours (h : float) (e : AgentUtilization) : AgentUtilization :=
  {| au_total_hours := h; au_projects := au_projects e; au_tasks := au_tasks e |}.

Definition au_with_projects (ps : list string) (e : AgentUtilization) : AgentUtilization :=
  {| au_total_hours := au_total_hours e; au_projects := ps; au_tasks := au_tasks e |}.

Definition au_with_tasks (ts : list TaskEntry) (e : AgentUtilization) : AgentUtilization :=
  {| au_total_hours := au_total_hours e; au_projects := au_projects e; au_tasks := ts |}.

(** [utilization[agent_id]]. *)
Definition utilization_at (utilization : dict AgentUtilization) (agent_id : string)
  : M AgentUtilization :=
  match dict_get utilization agent_id with
  | Some e => ret e
  | None => raise (KeyError agent_id)
  end.

(** The entry appended for [task] of [project]. *)
Definition task_entry (project : Project) (task : ProjectTask) : TaskEntry :=
  {| entry_project_id := project_id project; entry_task_id := task_id task;
     entry_task_title := task_title task; entry_hours := task_estimated_hours task;
     entry_status := TaskStatus_value (task_status task) |}.

(** The body of the innermost loop of [get_resource_utilization]; the
    local dictionary [utilization] is passed along. *)
Definition utilization_visit (project : Project) (task : ProjectTask)
  (utilization : dict AgentUtilization) (agent_id : string)
  : M (dict AgentUtilization) :=
  let utilization :=
    if negb (dict_mem utilization agent_id)
    then dict_set utilization agent_id
           {| au_total_hours := f_zero; au_projects := []; au_tasks := [] |}
    else utilization in
  e <- utilization_at utilization agent_id ;;
  let utilization :=
    dict_set utilization agent_id
      (au_with_total_hours (f_add (au_total_hours e) (task_estimated_hours task)) e) in
  e <- utilization_at utilization agent_id ;;
  let utilization :=
    if negb (str_in (project_id project) (au_projects e))
    then dict_set utilization agent_id
           (au_with_projects (au_projects e ++ [project_id project]) e)
    else utilization in
  e <- utilization_at utilization agent_id ;;
  ret (dict_set utilization agent_id
         (au_with_tasks (au_tasks e ++ [task_entry project task]) e)).

(** [for agent_id in task.assigned_agents]. *)
Fixpoint utilization_agents (project : Project) (task : ProjectTask)
  (agent_ids : list string) (utilization : dict AgentUtilization)
  : M (dict AgentUtilization) :=
  match agent_ids with
  | [] => ret utilization
  | agent_id :: rest =>
      utilization <- utilization_visit project task utilization agent_id ;;
      utilization_agents project task rest utilization
  end.

(** [for task in project.tasks.values()]. *)
Fixpoint utilization_tasks (project : Project) (tasks : list ProjectTask)
  (utilization : dict AgentUtilization) : M (dict AgentUtilization) :=
  match tasks with
  | [] => ret utilization
  | task :: rest =>
      utilization <-
        utilization_agents project task (task_assigned_agents task) utilization ;;
      utilization_tasks project rest utilization
  end.

(** [for project in self.projects.values()]. *)
Fixpoint utilization_projects (todo : list Project)
  (utilization : dict AgentUtilization) : M (dict AgentUtilization) :=
  match todo with
  | [] => ret utilization
  | project :: rest =>
      utilization <-
        utilization_tasks project (dict_values (project_tasks project)) utilization ;;
      utilization_projects rest utilization
  end.

(** [ProjectManager.get_resource_utilization]. *)
Definition get_resource_utilization : M (dict AgentUtilization) :=
  pm <- get_self ;;
  utilization_projects (dict_values (projects pm)) [].

(** One element of the dashboard's ['projects'] list.  [asdict] copies a
    dataclass into dictionaries field by field; the copy is the record. *)
Record ProjectData := {
  pd_project : Project;
  pd_metrics : ProjectMetrics;
  pd_available_tasks : Z;
  pd_critical_path_length : Z;
  pd_next_tasks : list ProjectTask
}.

(** The dashboard's ['summary']. *)
Record Summary := {
  total_projects : Z;
  active_projects : Z;
  completed_projects : Z;
  total_tasks : Z;
  completed_tasks : Z;
  completion_rate : float
}.

(** What [get_dashboard_data] returns. *)
Record DashboardData := {
  dd_projects : list ProjectData;
  dd_summary : Summary;
  dd_resource_utilization : dict AgentUtilization
}.

(** The first loop of [get_dashboard_data]; the three analytics are
    called with [project.id]. *)
Fixpoint dashboard_projects (todo : list Project) : M (list ProjectData) :=
  match todo with
  | [] => ret []
  | project :: rest =>
      metrics <- get_project_metrics clock (project_id project) ;;
      available_tasks <- get_available_tasks (project_id project) ;;
      critical_path <- get_critical_path recursion_limit (project_id project) ;;
      projects_data <- dashboard_projects rest ;;
      ret ({| pd_project := project; pd_metrics := metrics;
              pd_available_tasks := Z.of_nat (List.length available_tasks);
              pd_critical_path_length := Z.of_nat (List.length critical_path);
              pd_next_tasks := firstn 3 available_tasks |} :: projects_data)
  end.

(** [ProjectManager.get_dashboard_data]. *)
Definition get_dashboard_data : M DashboardData :=
  pm <- get_self ;;
  projects_data <- dashboard_projects (dict_values (projects pm)) ;;
  pm <- get_self ;;
  let ps := dict_values (projects pm) in
  let total_projects := Z.of_nat (List.length (projects pm)) in
  let active_projects :=
    Z.of_nat (List.length (filter (fun p => ProjectStatus_eqb (project_status p) ACTIVE) ps)) in
  let completed_projects :=
    Z.of_nat (List.length
                (filter (fun p => ProjectStatus_eqb (project_status p) PS_COMPLETED) ps)) in
  let total_tasks := int_sum (map (fun p => Z.of_nat (List.length (project_tasks p))) ps) in
  let completed_tasks :=
    int_sum (map (fun p => count_status COMPLETED (dict_values (project_tasks p))) ps) in
  resource_utilization <- get_resource_utilization ;;
  ret {| dd_projects := projects_data;
         dd_summary :=
           {| total_projects := total_projects; active_projects := active_projects;
              completed_projects := completed_projects; total_tasks := total_tasks;
              completed_tasks := completed_tasks;
              completion_rate :=
                if 0 <? total_tasks
                then f_mul (f_truediv_int completed_tasks total_tasks) (f_of_int 100)
                else f_zero |};
         dd_resource_utilization := resource_utilization |}.

End Views.

Arguments TaskEntry {F}.
Arguments AgentUtilization {F}.
Arguments ProjectData {F}.
Arguments Summary {F}.
Arguments DashboardData {F}.
Arguments get_dashboard_data {F} clock recursion_limit.

(** ** Observations and call sequences *)

Section Traces.
Context {F : PyFloat}.
Variable uuid4 : nat -> string.
Variable clock : nat -> datetime.

(** [self.projects.get(project_id)]. *)
Definition find_project (w : World) (project_id : string) : option Project :=
  dict_get (projects (self w)) project_id.

(** The task [task_id] of the project [project_id], if both exist. *)
Definition find_task (w : World) (project_id task_id : string) : option ProjectTask :=
  match find_project w project_id with
  | Some p => dict_get (project_tasks p) task_id
  | None => None
  end.

(** A call of one of the four mutating operations, with its arguments. *)
Inductive Op :=
| CreateProject (name description owner : string) (priority : Priority)
    (start_date due_date : option datetime) (budget_hours : float)
| AddTaskToProject (project_id title description : string) (priority : Priority)
    (estimated_hours : float) (dependencies assigned_agents : option (list string))
    (due_date : option datetime) (tags : option (list string))
| UpdateTaskStatus (project_id task_id : string) (status : TaskStatus)
| LogTime (project_id task_id : string) (hours : float).

(** The world after a call, whether it returned or raised. *)
Definition exec (op : Op) (w : World) : World :=
  match op with
  | CreateProject n d o pr sd dd b => snd (create_project uuid4 clock n d o pr sd dd b w)
  | AddTaskToProject p t d pr e deps ags dd tg =>
      snd (add_task_to_project uuid4 clock p t d pr e deps ags dd tg w)
  | UpdateTaskStatus p t s => snd (update_task_status clock p t s w)
  | LogTime p t h => snd (log_time clock p t h w)
  end.

Definition run (ops : list Op) (w : World) : World :=
  fold_left (fun w op => exec op w) ops w.

Definition is_log_time (op : Op) : bool :=
  match op with LogTime _ _ _ => true | _ => false end.

(** A sequence of [update_task_status] calls. *)
Definition run_updates (us : list (string * string * TaskStatus)) (w : World) : World :=
  fold_left (fun w u => snd (update_task_status clock (fst (fst u)) (snd (fst u)) (snd u) w))
    us w.

(** [n] further calls [update_task_status(p, t, COMPLETED)]. *)
Definition complete_again (project_id task_id : string) (n : nat) (w : World) : World :=
  Nat.iter n (fun w => snd (update_task_status clock project_id task_id COMPLETED w)) w.

(** The identifiers handed out so far. *)
Definition issued (w : World) (id : string) : Prop :=
  exists k, (k < uuid_calls w)%nat /\ id = uuid4 k.

End Traces.

Arguments Op {F}.

(** ** The operations' effects in one step *)

Section Effects.
Context {F : PyFloat}.
Variable uuid4 : nat -> string.
Variable clock : nat -> datetime.

Definition set_clock_calls (n : nat) (w : World) : World :=
  {| self := self w; uuid_calls := uuid_calls w; clock_calls := n |}.

(** The update moves a task that was not COMPLETED into COMPLETED. *)
Definition entering_completed (status : TaskStatus) (t : ProjectTask) : bool :=
  TaskStatus_eqb status COMPLETED && negb (TaskStatus_eqb (task_status t) COMPLETED).

(** The task after [update_task_status] when [c] clock readings had been
    taken before the call. *)
Definition updated_task (c : nat) (status : TaskStatus) (t : ProjectTask) : ProjectTask :=
  let t' := task_with_updated_at (clock c) (task_with_status status t) in
  if entering_completed status t
  then task_with_completion_date (Some (clock (S c))) t'
  else t'.

Definition all_completed (tasks : dict ProjectTask) : bool :=
  forallb (fun task => TaskStatus_eqb (task_status task) COMPLETED) (dict_values tasks).

(** The world after a successful [update_task_status] on task [t] of
    project [p]. *)
Definition update_effect (w : World) (project_id task_id : string)
  (status : TaskStatus) (p : Project) (t : ProjectTask) : World :=
  let c := clock_calls w in
  let c' := if entering_completed status t then S (S c) else S c in
  let tasks' := dict_set (project_tasks p) task_id (updated_task c status t) in
  if all_completed tasks'
  then with_project (set_clock_calls (S c') w) project_id
         (project_with_completion_date (Some (clock c'))
            (project_with_status PS_COMPLETED (project_with_tasks tasks' p)))
  else with_project (set_clock_calls c' w) project_id (project_with_tasks tasks' p).

(** The task and the world after a successful [log_time]. *)
Definition logged_task (c : nat) (hours : float) (t : ProjectTask) : ProjectTask :=
  task_with_updated_at (clock c)
    (task_with_actual_hours (f_add (task_actual_hours t) hours) t).

Definition log_effect (w : World) (project_id task_id : string) (hours : float)
  (p : Project) (t : ProjectTask) : World :=
  let c := clock_calls w in
  with_project (set_clock_calls (S (S c)) w) project_id
    (project_with_updated_at (clock (S c))
       (project_with_spent_hours (f_add (project_spent_hours p) hours)
          (project_with_tasks
             (dict_set (project_tasks p) task_id (logged_task c hours t)) p))).

(** The world after [create_project]. *)
Definition create_effect (w : World) (name description owner : string)
  (priority : Priority) (start_date due_date : option datetime)
  (budget_hours : float) : World :=
  let c := clock_calls w in
  with_project (set_clock_calls (S (S c)) (next_uuid w)) (uuid4 (uuid_calls w))
    (new_project (uuid4 (uuid_calls w)) name description owner priority
       start_date due_date budget_hours (clock c) (clock (S c))).

(** The world after a successful [add_task_to_project] on project [p]. *)
Definition add_effect (w : World) (project_id title description : string)
  (priority : Priority) (estimated_hours : float)
  (dependencies assigned_agents : option (list string))
  (due_date : option datetime) (tags : option (list string)) (p : Project) : World :=
  let c := clock_calls w in
  let task_id := uuid4 (uuid_calls w) in
  with_project (set_clock_calls (S (S (S c))) (next_uuid w)) project_id
    (project_with_updated_at (clock (S (S c)))
       (project_with_tasks
          (dict_set (project_tasks p) task_id
             (new_task task_id title description priority estimated_hours
                dependencies assigned_agents due_date tags (clock c) (clock (S c))))
          p)).

End Effects.

(** ** Steps *)

Section Steps.
Context {F : PyFloat}.
Variable uuid4 : nat -> string.
Variable clock : nat -> datetime.

(** What one call of a mutating operation does to the world: nothing
    when it raises, otherwise the operation's effect. *)
Inductive step (w : World) : World -> Prop :=
| step_raise : step w w
| step_create n d o pr sd dd b :
    step w (create_effect uuid4 clock w n d o pr sd dd b)
| step_add pid ti d pr e deps ags dd tg p :
    find_project w pid = Some p ->
    step w (add_effect uuid4 clock w pid ti d pr e deps ags dd tg p)
| step_update pid tid st p t :
    find_project w pid = Some p -> dict_get (project_tasks p) tid = Some t ->
    step w (update_effect clock w pid tid st p t)
| step_log pid tid h p t :
    find_project w pid = Some p -> dict_get (project_tasks p) tid = Some t ->
    step w (log_effect clock w pid tid h p t).

(** A property of every task of every project. *)
Definition every_task (P : ProjectTask -> Prop) (w : World) : Prop :=
  forall pid p tid t,
    In (pid, p) (projects (self w)) -> In (tid, t) (project_tasks p) -> P t.

(** A property of every project, which may mention the world. *)
Definition every_project (Q : World -> Project -> Prop) (w : World) : Prop :=
  forall pid p, In (pid, p) (projects (self w)) -> Q w p.

(** A COMPLETED task has a completion_date. *)
Definition completed_has_date (t : ProjectTask) : Prop :=
  task_status t = COMPLETED -> task_completion_date t <> None.

(** The project's hours balance and its task ids were issued by the
    identifier oracle. *)
Definition balanced_and_issued (w : World) (p : Project) : Prop :=
  project_spent_hours p = f_sum (map task_actual_hours (dict_values (project_tasks p)))
  /\ forall tid, In tid (dict_keys (project_tasks p)) -> issued uuid4 w tid.

End Steps.

(** ** The specification's notions *)

Section SpecNotions.
Context {F : PyFloat}.

(** [spent_hours == sum of actual_hours over the project's tasks]. *)
Definition hours_balanced (p : Project) : Prop :=
  project_spent_hours p = f_sum (map task_actual_hours (dict_values (project_tasks p))).

(** "every owned task has status COMPLETED". *)
Definition every_task_completed (p : Project) : Prop :=
  forall t, In t (dict_values (project_tasks p)) -> task_status t = COMPLETED.

(** A dependency id is satisfied when it is absent from the project or
    refers to a COMPLETED task. *)
Definition dependency_satisfied (tasks : dict ProjectTask) (dep_id : string) : bool :=
  match dict_get tasks dep_id with
  | None => true
  | Some d => TaskStatus_eqb (task_status d) COMPLETED
  end.

(** An available task: NOT_STARTED with every dependency satisfied. *)
Definition is_available (tasks : dict ProjectTask) (t : ProjectTask) : bool :=
  TaskStatus_eqb (task_status t) NOT_STARTED
  && forallb (dependency_satisfied tasks) (task_dependencies t).

(** What the selection loop is to return on [chains]: nothing when no
    chain has a positive duration; otherwise the first chain whose
    duration no other chain exceeds. *)
Definition selected (chains : list (list ProjectTask)) (r : list ProjectTask) : Prop :=
  (r = [] /\ forall c, In c chains -> f_gtb (chain_duration c) f_zero = false)
  \/ (exists before after,
        chains = (before ++ r :: after)%list
        /\ f_gtb (chain_duration r) f_zero = true
        /\ (forall c, In c before -> f_gtb (chain_duration r) (chain_duration c) = true)
        /\ (forall c, In c after -> f_gtb (chain_duration c) (chain_duration r) = false)).

(** What the selection loop holds after the chains [done]. *)
Definition holds_after (done : list (list ProjectTask))
  (acc : list ProjectTask * float) : Prop :=
  (fst acc = [] /\ snd acc = f_zero
   /\ forall c, In c done -> f_gtb (chain_duration c) f_zero = false)
  \/ (exists before after,
        done = (before ++ fst acc :: after)%list
        /\ snd acc = chain_duration (fst acc)
        /\ f_gtb (chain_duration (fst acc)) f_zero = true
        /\ (forall c, In c before ->
              f_gtb (chain_duration (fst acc)) (chain_duration c) = true)
        /\ (forall c, In c after ->
              f_gtb (chain_duration c) (chain_duration (fst acc)) = false)).

(** The tasks that list [task_id] among their dependencies, in
    dictionary order. *)
Definition dependents (p : Project) (task_id : string) : list ProjectTask :=
  filter (fun t => str_in task_id (task_dependencies t)) (dict_values (project_tasks p)).

(** The chain of forward dependents from [task_id] given the ids already
    on the path: empty at a visited or unknown id, otherwise the task
    followed by the selected one among its dependents' chains. *)
#[warnings="-register-all"] Inductive chain_from (p : Project) : string -> list string -> list ProjectTask -> Prop :=
| chain_stop tid visited :
    str_in tid visited = true \/ dict_get (project_tasks p) tid = None ->
    chain_from p tid visited []
| chain_extend tid visited task sub_chains best :
    str_in tid visited = false ->
    dict_get (project_tasks p) tid = Some task ->
    Forall2 (fun d c => chain_from p (task_id d) (tid :: visited) c)
      (dependents p tid) sub_chains ->
    selected sub_chains best ->
    chain_from p tid visited (task :: best).

(** The tasks without dependencies, in dictionary order. *)
Definition start_tasks (p : Project) : list ProjectTask :=
  filter (fun t => match task_dependencies t with [] => true | _ => false end)
    (dict_values (project_tasks p)).

(** The number of task keys of [tasks] that are not in [visited]. *)
Definition unvisited (tasks : dict ProjectTask) (visited : list string) : nat :=
  List.length (filter (fun k => negb (str_in k visited)) (dict_keys tasks)).

End SpecNotions.

(** ** Notions for the invariants and the views *)

(** The two comparisons agree and put [0] and [100] in this order. *)
Class PercentOrder (F : PyFloat) : Prop := {
  f_lt_le : forall a b : float, f_ltb a b = true -> f_leb a b = true;
  f_le_0_0 : f_leb f_zero f_zero = true;
  f_le_0_100 : f_leb f_zero (f_of_int 100) = true;
  f_le_100_100 : f_leb (f_of_int 100) (f_of_int 100) = true
}.

Section MoreNotions.
Context {F : PyFloat}.
Variable uuid4 : nat -> string.
Variable clock : nat -> datetime.
Variable recursion_limit : nat.

(** The tasks of [p] are filed under their own ids, each key once. *)
Definition tasks_keyed (p : Project) : Prop :=
  NoDup (dict_keys (project_tasks p))
  /\ forall k t, In (k, t) (project_tasks p) -> task_id t = k.

(** The projects are filed under their own ids, each key once, and so
    are their tasks. *)
Definition well_keyed (w : World) : Prop :=
  NoDup (dict_keys (projects (self w)))
  /\ forall k p, In (k, p) (projects (self w)) -> project_id p = k /\ tasks_keyed p.

(** Every key of a project or of a task was handed out by the
    identifier oracle. *)
Definition keys_issued (w : World) : Prop :=
  (forall k, In k (dict_keys (projects (self w))) -> issued uuid4 w k)
  /\ forall pid p, In (pid, p) (projects (self w)) ->
       forall k, In k (dict_keys (project_tasks p)) -> issued uuid4 w k.

(** A project is PLANNING without a completion_date, or COMPLETED with
    one and with at least one task. *)
Definition lifecycle_consistent (p : Project) : Prop :=
  (project_status p = PLANNING /\ project_completion_date p = None)
  \/ (project_status p = PS_COMPLETED /\ project_completion_date p <> None
      /\ project_tasks p <> []).

(** The allocation list is empty and every project is consistent. *)
Definition lifecycle_invariant (w : World) : Prop :=
  resource_allocations (self w) = []
  /\ forall pid p, In (pid, p) (projects (self w)) -> lifecycle_consistent p.

(** [w'] is [w] after some clock readings. *)
Definition only_clock_read (w w' : World) : Prop :=
  self w' = self w /\ uuid_calls w' = uuid_calls w
  /\ (clock_calls w <= clock_calls w')%nat.

(** The attributes of a task that no operation assigns after the
    constructor call. *)
Definition task_static (t : ProjectTask) :=
  (task_id t, task_title t, task_description t, task_priority t,
   task_assigned_agents t, task_dependencies t, task_estimated_hours t,
   task_start_date t, task_due_date t, task_tags t, task_notes t, task_created_at t).

(** The attributes of a project that no operation assigns after the
    constructor call. *)
Definition project_static (p : Project) :=
  (project_id p, project_name p, project_description p, project_priority p,
   project_owner p, project_start_date p, project_due_date p,
   project_budget_hours p, project_tags p, project_created_at p).

(** [p'] is a later state of the project [p]: the constructor's
    attributes are the same, a COMPLETED project is still COMPLETED, and
    every task is still there with its constructor's attributes. *)
Definition project_persists (p p' : Project) : Prop :=
  project_static p' = project_static p
  /\ (project_status p = PS_COMPLETED -> project_status p' = PS_COMPLETED)
  /\ forall tid t,
       dict_get (project_tasks p) tid = Some t ->
       exists t', dict_get (project_tasks p') tid = Some t'
                  /\ task_static t' = task_static t.

(** [d] is one of the clock readings taken so far, the [i]-th or a
    later one. *)
Definition stamped_since (w : World) (i : nat) (d : datetime) : Prop :=
  exists k, (i <= k < clock_calls w)%nat /\ d = clock k.

(** The task's created_at is a clock reading, and its updated_at and its
    completion_date, if set, are that reading or later ones. *)
Definition task_stamps (w : World) (t : ProjectTask) : Prop :=
  exists i, task_created_at t = clock i
            /\ stamped_since w i (task_updated_at t)
            /\ forall d, task_completion_date t = Some d -> stamped_since w i d.

(** The same for a project and for each of its tasks. *)
Definition project_stamps (w : World) (p : Project) : Prop :=
  (exists i, project_created_at p = clock i
             /\ stamped_since w i (project_updated_at p)
             /\ forall d, project_completion_date p = Some d -> stamped_since w i d)
  /\ forall k t, In (k, t) (project_tasks p) -> task_stamps w t.

(** Each task of the chain after the first lists the id of the task
    before it among its dependencies. *)
Fixpoint linked (chain : list ProjectTask) : Prop :=
  match chain with
  | a :: rest =>
      match rest with
      | b :: _ => In (task_id a) (task_dependencies b) /\ linked rest
      | [] => True
      end
  | [] => True
  end.

(** A chain built from the key [tid] with the ids [visited] on the path:
    its tasks are tasks of the project, none has its id in [visited], no
    id occurs twice, the chain is linked, and it starts, if it is not
    empty, with the task filed under [tid]. *)
Definition chain_shape (p : Project) (tid : string) (visited : list string)
  (chain : list ProjectTask) : Prop :=
  (forall t, In t chain ->
     In t (dict_values (project_tasks p)) /\ ~ In (task_id t) visited)
  /\ NoDup (map task_id chain)
  /\ linked chain
  /\ match chain with
     | [] => True
     | t :: _ => dict_get (project_tasks p) tid = Some t
     end.

(** What the dashboard's entry [d] is to report about the project [p]
    of the manager of [w]: the project; its metrics, which are what
    [get_project_metrics] returns for it after some clock readings; the
    number of its available tasks and the first three of them; and the
    length of what [get_critical_path] returns for it. *)
Definition entry_reports (w : World) (p : Project) (d : ProjectData) : Prop :=
  pd_project d = p
  /\ (exists w1 w2,
        only_clock_read w w1
        /\ get_project_metrics clock (project_id p) w1 = (Ok (pd_metrics d), w2))
  /\ pm_project_id (pd_metrics d) = project_id p
  /\ tasks_total (pd_metrics d) = Z.of_nat (List.length (project_tasks p))
  /\ tasks_completed (pd_metrics d)
     = count_status COMPLETED (dict_values (project_tasks p))
  /\ pd_available_tasks d
     = Z.of_nat (List.length (filter (is_available (project_tasks p))
                                (dict_values (project_tasks p))))
  /\ pd_next_tasks d
     = firstn 3 (filter (is_available (project_tasks p)) (dict_values (project_tasks p)))
  /\ (exists path,
        get_critical_path recursion_limit (project_id p) w = (Ok path, w)
        /\ pd_critical_path_length d = Z.of_nat (List.length path)
        /\ (List.length path <= List.length (project_tasks p))%nat).

(** Every project of [w] has fewer tasks than the recursion limit allows
    nested calls. *)
Definition room (w : World) : Prop :=
  forall p, In p (dict_values (projects (self w))) ->
            (List.length (project_tasks p) < recursion_limit)%nat.

(** The summary that the dashboard is to hold for the projects [ps]. *)
Definition dashboard_summary (ps : dict Project) : Summary :=
  let total :=
    int_sum (map (fun p => Z.of_nat (List.length (project_tasks p))) (dict_values ps)) in
  let completed :=
    int_sum (map (fun p => count_status COMPLETED (dict_values (project_tasks p)))
               (dict_values ps)) in
  {| total_projects := Z.of_nat (List.length ps);
     active_projects :=
       Z.of_nat (List.length (filter (fun p => ProjectStatus_eqb (project_status p) ACTIVE)
                                (dict_values ps)));
     completed_projects :=
       Z.of_nat (List.length
                   (filter (fun p => ProjectStatus_eqb (project_status p) PS_COMPLETED)
                      (dict_values ps)));
     total_tasks := total;
     completed_tasks := completed;
     completion_rate :=
       if 0 <? total then f_mul (f_truediv_int completed total) (f_of_int 100)
       else f_zero |}.

(** The entries that [agent_id] is to have: one for every occurrence of
    [agent_id] among the assigned agents of a task, by project and task
    in dictionary order. *)
Definition assigned_to (agent_id : string) (ps : list Project) : list TaskEntry :=
  flat_map
    (fun p =>
       flat_map
         (fun t => map (fun _ => task_entry p t)
                     (filter (String.eqb agent_id) (task_assigned_agents t)))
         (dict_values (project_tasks p)))
    ps.

(** The dictionary of an agent without entries, and what one more entry
    makes of an agent's dictionary. *)
Definition no_entries : AgentUtilization :=
  {| au_total_hours := f_zero; au_projects := []; au_tasks := [] |}.

Definition absorb (e : AgentUtilization) (x : TaskEntry) : AgentUtilization :=
  {| au_total_hours := f_add (au_total_hours e) (entry_hours x);
     au_projects := if str_in (entry_project_id x) (au_projects e)
                    then au_projects e
                    else (au_projects e ++ [entry_project_id x])%list;
     au_tasks := (au_tasks e ++ [x])%list |}.

(** What is stored under an agent after the entries [xs], given what was
    stored before. *)
Definition lookup_after (o : option AgentUtilization) (xs : list TaskEntry)
  : option AgentUtilization :=
  match xs with
  | [] => o
  | _ :: _ => Some (fold_left absorb xs (match o with Some e => e | None => no_entries end))
  end.

End MoreNotions.

(** ** Concrete oracles and scenarios *)

(** Identifiers ["u0"], ["u1"], ... and a clock that advances by one
    microsecond per reading. *)
Definition demo_uuid4 (n : nat) : string :=
  "u" ++ NilEmpty.string_of_uint (Nat.to_uint n).

Definition demo_clock (n : nat) : datetime := Z.of_nat n.

(** The scenarios allow 994 nested calls of [_get_task_chain], which is
    of the order of what CPython's default recursion limit of 1000
    leaves to a call made from a script. *)
Definition demo_recursion_limit : nat := 994.

(** The binary64 value of the decimal literal [n/10]. *)
Definition tenths (n : Z) : @float binary64 := f_truediv_int n 10.

(** A project with one task of [est] estimated hours. *)
Definition one_task_project {F : PyFloat} (title : string) (est : Z) : list Op :=
  [ CreateProject "P" "" "owner" MEDIUM None None (f_of_int 100);
    AddTaskToProject (demo_uuid4 0) title "" MEDIUM (f_of_int est) None None None None ].

(** Project [u0] with tasks T1 = [u1] and T2 = [u2]; 0.1h is logged on
    T1, then 0.2h and 0.3h on T2. *)
Definition fractional_hours : list (@Op binary64) :=
  [ CreateProject "P" "" "owner" MEDIUM None None (f_of_int 100);
    AddTaskToProject "u0" "T1" "" MEDIUM (f_of_int 1) None None None None;
    AddTaskToProject "u0" "T2" "" MEDIUM (f_of_int 1) None None None None;
    LogTime "u0" "u1" (tenths 1);
    LogTime "u0" "u2" (tenths 2);
    LogTime "u0" "u2" (tenths 3) ].

(** Tasks A(2h, no deps), B(3h, dep A), C(5h, dep A) in project [u0]. *)
Definition tasks_A_B_C {F : PyFloat} : list Op :=
  [ CreateProject "P" "" "owner" MEDIUM None None (f_of_int 100);
    AddTaskToProject "u0" "A" "" MEDIUM (f_of_int 2) None None None None;
    AddTaskToProject "u0" "B" "" MEDIUM (f_of_int 3) (Some ["u1"]) None None None;
    AddTaskToProject "u0" "C" "" MEDIUM (f_of_int 5) (Some ["u1"]) None None None ].

(** A dependency line in project [u0]: [n] tasks of 1h, [u1] without
    dependencies and every later task depending on the one before it. *)
Definition dependency_line (n : nat) : list (@Op binary64) :=
  CreateProject "P" "" "owner" MEDIUM None None (f_of_int 100)
  :: map (fun i => AddTaskToProject "u0" "T" "" MEDIUM (f_of_int 1)
                     (match i with O => None | S _ => Some [demo_uuid4 i] end)
                     None None None)
       (seq 0 n).

(** On exact rationals: a project with one task, on which 2h are logged. *)
Definition whole_hours : list (@Op exactQ) :=
  (one_task_project "T1" 5 ++ [LogTime "u0" "u1" (f_of_int 2)])%list.

(** The titles of a returned chain. *)
Definition titles {F : PyFloat} (r : result (list ProjectTask)) : option (list string) :=
  match r with
  | Ok chain => Some (map task_title chain)
  | Raise _ => None
  end.

(** The world with project [u0] and its single task [u1] of 5 hours. *)
Definition one_task_world : @World binary64 :=
  run demo_uuid4 demo_clock (one_task_project "T1" 5) init.

(** The world with the tasks A, B and C, on binary64. *)
Definition abc_world : @World binary64 :=
  run demo_uuid4 demo_clock tasks_A_B_C init.

(** The world after [create_project] with the empty name. *)
Definition empty_name_world : @World binary64 :=
  snd (create_project demo_uuid4 demo_clock "" "" "owner" MEDIUM None None
         (f_of_int 0) init).

(** The world with project [u0] and the tasks A = [u1], B = [u2] and
    C = [u3], where A has been cancelled. *)
Definition cancelled_A_world : @World binary64 :=
  run_updates demo_clock [("u0", "u1", CANCELLED)] abc_world.

(** The world with project [u0] and its single task [u1] of 0 hours. *)
Definition zero_hour_world : @World binary64 :=
  run demo_uuid4 demo_clock (one_task_project "A" 0) init.

(** The project [pid] of the concrete world [W]. *)
Ltac lookup_project W pid p E :=
  let A := fresh "A" in
  assert (A : option_map project_id (find_project W pid) = Some pid)
    by (vm_compute; reflexivity);
  destruct (find_project W pid) as [p|] eqn:E; [clear A|discriminate A].

(** Projections of the records that the assignments build. *)
Ltac proj_simpl :=
  cbn [project_tasks project_spent_hours project_status project_completion_date
       project_with_tasks project_with_spent_hours project_with_updated_at
       project_with_status project_with_completion_date
       task_actual_hours task_status task_completion_date
       task_with_status task_with_updated_at task_with_completion_date
       task_with_actual_hours new_task logged_task].

(** Project [u0] with the tasks A = [u1] (2h, agents ann and bob,
    COMPLETED) and B = [u2] (3h, agent ann, depends on A), and project
    [u3] with the task C = [u4] (5h, agent ann listed twice). *)
Definition staffed : list (@Op binary64) :=
  [ CreateProject "P" "" "owner" MEDIUM None None (f_of_int 100);
    AddTaskToProject "u0" "A" "" MEDIUM (f_of_int 2) None (Some ["ann"; "bob"]) None None;
    AddTaskToProject "u0" "B" "" MEDIUM (f_of_int 3) (Some ["u1"]) (Some ["ann"]) None None;
    CreateProject "Q" "" "owner" MEDIUM None None (f_of_int 10);
    AddTaskToProject "u3" "C" "" MEDIUM (f_of_int 5) None (Some ["ann"; "ann"]) None None;
    UpdateTaskStatus "u0" "u1" COMPLETED ].

Abbreviation staffed_world := (run demo_uuid4 demo_clock staffed (@init binary64)).

(** The single task of project [u0] is completed, so the project is. *)
Definition completed_project : list (@Op binary64) :=
  (one_task_project "T1" 5 ++ [UpdateTaskStatus "u0" "u1" COMPLETED])%list.

Abbreviation completed_world :=
  (run demo_uuid4 demo_clock completed_project (@init binary64)).

(** A project that starts at 0 and is due after 100 microseconds. *)
Definition scheduled_project : @Project binary64 :=
  new_project "u0" "P" "" "owner" MEDIUM (Some 0) (Some 100) (f_of_int 0) 0 1.

(** What is stored under an agent, without the hours. *)
Definition entry_titles {F : PyFloat} (r : result (dict AgentUtilization)) (agent_id : string)
  : option (list string * list string) :=
  match r with
  | Ok u =>
      option_map (fun e => (au_projects e, map entry_task_title (au_tasks e)))
        (dict_get u agent_id)
  | Raise _ => None
  end.

(** * Properties *)

(** ** Dictionaries and the operations' effects *)

Section DictFacts.
Context {V : Type}.
Implicit Types (d : dict V) (k : string) (v : V).

Lemma dict_get_set_same d k v : dict_get (dict_set d k v) k = Some v.
Proof.
  induction d as [|[k' v'] d IH]; cbn.
  - now rewrite String.eqb_refl.
  - destruct (String.eqb k k') eqn:E; cbn; rewrite E; auto.
Qed.

Lemma dict_get_set_other d k k' v :
  k <> k' -> dict_get (dict_set d k v) k' = dict_get d k'.
Proof.
  intros Hne. induction d as [|[k0 v0] d IH]; cbn.
  - destruct (String.eqb_spec k' k); congruence.
  - destruct (String.eqb_spec k k0); cbn.
    + subst. destruct (String.eqb_spec k' k0); congruence.
    + now rewrite IH.
Qed.

Lemma dict_set_set d k v v' : dict_set (dict_set d k v) k v' = dict_set d k v'.
Proof.
  induction d as [|[k0 v0] d IH]; cbn.
  - now rewrite String.eqb_refl.
  - destruct (String.eqb k k0) eqn:E; cbn; rewrite E; congruence.
Qed.

Lemma dict_set_not_nil d k v : dict_set d k v <> [].
Proof. destruct d as [|[k0 v0] d]; cbn; [|destruct (String.eqb k k0)]; discriminate. Qed.

End DictFacts.

Section EffectLemmas.
Context {F : PyFloat}.
Variable uuid4 : nat -> string.
Variable clock : nat -> datetime.

Lemma bind_ok {A B} (m : M A) (k : A -> M B) w a w' :
  m w = (Ok a, w') -> bind m k w = k a w'.
Proof. unfold bind. now intros ->. Qed.

Lemma bind_raise {A B} (m : M A) (k : A -> M B) w e w' :
  m w = (Raise e, w') -> bind m k w = (Raise e, w').
Proof. unfold bind. now intros ->. Qed.

Lemma find_with_project_same w pid p : find_project (with_project w pid p) pid = Some p.
Proof. apply dict_get_set_same. Qed.

Lemma find_with_project_other w pid pid' p :
  pid <> pid' -> find_project (with_project w pid p) pid' = find_project w pid'.
Proof. apply dict_get_set_other. Qed.

Lemma find_tick w pid : find_project (tick w) pid = find_project w pid.
Proof. reflexivity. Qed.

Lemma with_project_twice w pid p p' :
  with_project (with_project w pid p) pid p' = with_project w pid p'.
Proof. unfold with_project; cbn. now rewrite dict_set_set. Qed.

Lemma tick_with_project w pid p : tick (with_project w pid p) = with_project (tick w) pid p.
Proof. reflexivity. Qed.

Lemma project_missing_found w pid p :
  find_project w pid = Some p -> project_missing pid w = (Ok false, w).
Proof. unfold find_project, project_missing, get_self, bind, ret, dict_mem. now intros ->. Qed.

Lemma project_missing_absent w pid :
  find_project w pid = None -> project_missing pid w = (Ok true, w).
Proof. unfold find_project, project_missing, get_self, bind, ret, dict_mem. now intros ->. Qed.

Lemma projects_at_found w pid p :
  find_project w pid = Some p -> projects_at pid w = (Ok p, w).
Proof. unfold find_project, projects_at, get_self, bind, ret. now intros ->. Qed.

Lemma task_missing_found w pid tid p t :
  find_project w pid = Some p -> dict_get (project_tasks p) tid = Some t ->
  task_missing pid tid w = (Ok false, w).
Proof.
  intros Hp Ht. unfold task_missing. rewrite (bind_ok _ _ _ _ _ (projects_at_found _ _ _ Hp)).
  unfold ret, dict_mem. now rewrite Ht.
Qed.

Lemma task_missing_absent w pid tid p :
  find_project w pid = Some p -> dict_get (project_tasks p) tid = None ->
  task_missing pid tid w = (Ok true, w).
Proof.
  intros Hp Ht. unfold task_missing. rewrite (bind_ok _ _ _ _ _ (projects_at_found _ _ _ Hp)).
  unfold ret, dict_mem. now rewrite Ht.
Qed.

Lemma tasks_at_found w pid tid p t :
  find_project w pid = Some p -> dict_get (project_tasks p) tid = Some t ->
  tasks_at pid tid w = (Ok t, w).
Proof.
  intros Hp Ht. unfold tasks_at. rewrite (bind_ok _ _ _ _ _ (projects_at_found _ _ _ Hp)).
  now rewrite Ht.
Qed.

Lemma assign_project_found w pid f p :
  find_project w pid = Some p ->
  assign_project pid f w = (Ok tt, with_project w pid (f p)).
Proof.
  intros Hp. unfold assign_project. rewrite (bind_ok _ _ _ _ _ (projects_at_found _ _ _ Hp)).
  reflexivity.
Qed.

Lemma assign_task_found w pid tid f p t :
  find_project w pid = Some p -> dict_get (project_tasks p) tid = Some t ->
  assign_task pid tid f w
  = (Ok tt, with_project w pid (project_with_tasks (dict_set (project_tasks p) tid (f t)) p)).
Proof.
  intros Hp Ht. unfold assign_task.
  rewrite (bind_ok _ _ _ _ _ (tasks_at_found _ _ _ _ _ Hp Ht)).
  exact (assign_project_found w pid _ p Hp).
Qed.


Lemma datetime_now_eq w : datetime_now clock w = (Ok (clock (clock_calls w)), tick w).
Proof. reflexivity. Qed.

Lemma dict_set_values_not_nil (d : dict ProjectTask) k v : dict_values (dict_set d k v) <> [].
Proof.
  unfold dict_values. intros H. apply map_eq_nil in H. now apply dict_set_not_nil in H.
Qed.

Lemma _all_tasks_completed_found w pid p :
  find_project w pid = Some p -> project_tasks p <> [] ->
  _all_tasks_completed pid w = (Ok (all_completed (project_tasks p)), w).
Proof.
  intros Hp Hne. unfold _all_tasks_completed.
  rewrite (bind_ok _ _ _ _ _ (projects_at_found _ _ _ Hp)).
  destruct (project_tasks p) eqn:E; [congruence|reflexivity].
Qed.

Lemma update_task_status_found w pid tid st p t :
  find_project w pid = Some p ->
  dict_get (project_tasks p) tid = Some t ->
  update_task_status clock pid tid st w = (Ok tt, update_effect clock w pid tid st p t).
Proof.
  intros Hp Ht. unfold update_task_status.
  rewrite (bind_ok _ _ _ _ _ (project_missing_found _ _ _ Hp)).
  rewrite (bind_ok _ _ _ _ _ (task_missing_found _ _ _ _ _ Hp Ht)).
  rewrite (bind_ok _ _ _ _ _ (tasks_at_found _ _ _ _ _ Hp Ht)).
  rewrite (bind_ok _ _ _ _ _ (assign_task_found _ _ _ _ _ _ Hp Ht)).
  rewrite (bind_ok _ _ _ _ _ (datetime_now_eq _)).
  erewrite bind_ok;
    [|eapply assign_task_found; [apply find_with_project_same|apply dict_get_set_same]].
  cbn [project_tasks project_with_tasks]. rewrite dict_set_set.
  rewrite tick_with_project, with_project_twice.
  unfold update_effect, updated_task.
  fold (entering_completed st t).
  destruct (entering_completed st t).
  - erewrite bind_ok;
      [|erewrite bind_ok; [|apply datetime_now_eq];
        eapply assign_task_found; [apply find_with_project_same|apply dict_get_set_same]].
    cbn [project_tasks project_with_tasks]. rewrite dict_set_set.
    rewrite tick_with_project, with_project_twice.
    erewrite bind_ok;
      [|apply _all_tasks_completed_found;
        [apply find_with_project_same|apply dict_set_not_nil]].
    cbn [project_tasks project_with_tasks].
    destruct (all_completed _).
    + erewrite bind_ok; [|apply assign_project_found; apply find_with_project_same].
      rewrite with_project_twice.
      erewrite bind_ok; [|apply datetime_now_eq].
      erewrite assign_project_found; [|apply find_with_project_same].
      rewrite tick_with_project, with_project_twice. reflexivity.
    + reflexivity.
  - erewrite bind_ok; [|reflexivity].
    erewrite bind_ok;
      [|apply _all_tasks_completed_found;
        [apply find_with_project_same|apply dict_set_not_nil]].
    cbn [project_tasks project_with_tasks].
    destruct (all_completed _).
    + erewrite bind_ok; [|apply assign_project_found; apply find_with_project_same].
      rewrite with_project_twice.
      erewrite bind_ok; [|apply datetime_now_eq].
      erewrite assign_project_found; [|apply find_with_project_same].
      rewrite tick_with_project, with_project_twice. reflexivity.
    + reflexivity.
Qed.

Lemma log_time_found w pid tid h p t :
  find_project w pid = Some p ->
  dict_get (project_tasks p) tid = Some t ->
  log_time clock pid tid h w = (Ok tt, log_effect clock w pid tid h p t).
Proof.
  intros Hp Ht. unfold log_time.
  rewrite (bind_ok _ _ _ _ _ (project_missing_found _ _ _ Hp)).
  rewrite (bind_ok _ _ _ _ _ (task_missing_found _ _ _ _ _ Hp Ht)).
  rewrite (bind_ok _ _ _ _ _ (assign_task_found _ _ _ _ _ _ Hp Ht)).
  rewrite (bind_ok _ _ _ _ _ (datetime_now_eq _)).
  erewrite bind_ok;
    [|eapply assign_task_found; [apply find_with_project_same|apply dict_get_set_same]].
  cbn [project_tasks project_with_tasks]. rewrite dict_set_set.
  rewrite tick_with_project, with_project_twice.
  erewrite bind_ok; [|apply assign_project_found; apply find_with_project_same].
  rewrite with_project_twice.
  erewrite bind_ok; [|apply datetime_now_eq].
  erewrite assign_project_found; [|apply find_with_project_same].
  rewrite tick_with_project, with_project_twice. reflexivity.
Qed.

Lemma update_task_status_no_project w pid tid st :
  find_project w pid = None ->
  update_task_status clock pid tid st w = (Raise (project_not_found pid), w).
Proof.
  intros Hp. unfold update_task_status.
  now rewrite (bind_ok _ _ _ _ _ (project_missing_absent _ _ Hp)).
Qed.

Lemma update_task_status_no_task w pid tid st p :
  find_project w pid = Some p -> dict_get (project_tasks p) tid = None ->
  update_task_status clock pid tid st w = (Raise (task_not_found_in tid pid), w).
Proof.
  intros Hp Ht. unfold update_task_status.
  rewrite (bind_ok _ _ _ _ _ (project_missing_found _ _ _ Hp)).
  now rewrite (bind_ok _ _ _ _ _ (task_missing_absent _ _ _ _ Hp Ht)).
Qed.

Lemma log_time_no_project w pid tid h :
  find_project w pid = None ->
  log_time clock pid tid h w = (Raise (project_not_found pid), w).
Proof.
  intros Hp. unfold log_time.
  now rewrite (bind_ok _ _ _ _ _ (project_missing_absent _ _ Hp)).
Qed.

Lemma log_time_no_task w pid tid h p :
  find_project w pid = Some p -> dict_get (project_tasks p) tid = None ->
  log_time clock pid tid h w = (Raise (task_not_found_in tid pid), w).
Proof.
  intros Hp Ht. unfold log_time.
  rewrite (bind_ok _ _ _ _ _ (project_missing_found _ _ _ Hp)).
  now rewrite (bind_ok _ _ _ _ _ (task_missing_absent _ _ _ _ Hp Ht)).
Qed.

Lemma uuid4_str_eq w : uuid4_str uuid4 w = (Ok (uuid4 (uuid_calls w)), next_uuid w).
Proof. reflexivity. Qed.

Lemma create_project_returns w n d o pr sd dd b :
  create_project uuid4 clock n d o pr sd dd b w
  = (Ok (uuid4 (uuid_calls w)), create_effect uuid4 clock w n d o pr sd dd b).
Proof. reflexivity. Qed.

Lemma add_task_to_project_found w pid ti d pr e deps ags dd tg p :
  find_project w pid = Some p ->
  add_task_to_project uuid4 clock pid ti d pr e deps ags dd tg w
  = (Ok (uuid4 (uuid_calls w)), add_effect uuid4 clock w pid ti d pr e deps ags dd tg p).
Proof.
  intros Hp. unfold add_task_to_project.
  rewrite (bind_ok _ _ _ _ _ (project_missing_found _ _ _ Hp)).
  rewrite (bind_ok _ _ _ _ _ (uuid4_str_eq _)).
  rewrite (bind_ok _ _ _ _ _ (datetime_now_eq _)).
  rewrite (bind_ok _ _ _ _ _ (datetime_now_eq _)).
  erewrite bind_ok; [|apply assign_project_found; exact Hp].
  erewrite bind_ok; [|apply datetime_now_eq].
  erewrite bind_ok; [|apply assign_project_found; apply find_with_project_same].
  rewrite tick_with_project, with_project_twice. reflexivity.
Qed.

Lemma add_task_to_project_no_project w pid ti d pr e deps ags dd tg :
  find_project w pid = None ->
  add_task_to_project uuid4 clock pid ti d pr e deps ags dd tg w
  = (Raise (project_not_found pid), w).
Proof.
  intros Hp. unfold add_task_to_project.
  now rewrite (bind_ok _ _ _ _ _ (project_missing_absent _ _ Hp)).
Qed.

End EffectLemmas.

(** ** Analytics on a missing or present project *)

Section Analytics.
Context {F : PyFloat}.
Variable clock : nat -> datetime.
Variable recursion_limit : nat.

Lemma get_project_metrics_no_project w pid :
  find_project w pid = None ->
  get_project_metrics clock pid w = (Raise (project_not_found pid), w).
Proof.
  intros Hp. unfold get_project_metrics.
  now rewrite (bind_ok _ _ _ _ _ (project_missing_absent _ _ Hp)).
Qed.

Lemma get_task_dependencies_no_project w pid tid :
  find_project w pid = None ->
  get_task_dependencies pid tid w = (Raise (project_not_found pid), w).
Proof.
  intros Hp. unfold get_task_dependencies.
  now rewrite (bind_ok _ _ _ _ _ (project_missing_absent _ _ Hp)).
Qed.

Lemma get_task_dependencies_no_task w pid tid p :
  find_project w pid = Some p -> dict_get (project_tasks p) tid = None ->
  get_task_dependencies pid tid w = (Raise (task_not_found tid), w).
Proof.
  intros Hp Ht. unfold get_task_dependencies.
  rewrite (bind_ok _ _ _ _ _ (project_missing_found _ _ _ Hp)).
  now rewrite (bind_ok _ _ _ _ _ (task_missing_absent _ _ _ _ Hp Ht)).
Qed.

Lemma get_available_tasks_no_project w pid :
  find_project w pid = None ->
  get_available_tasks pid w = (Raise (project_not_found pid), w).
Proof.
  intros Hp. unfold get_available_tasks.
  now rewrite (bind_ok _ _ _ _ _ (project_missing_absent _ _ Hp)).
Qed.

Lemma get_critical_path_no_project w pid :
  find_project w pid = None ->
  get_critical_path recursion_limit pid w = (Raise (project_not_found pid), w).
Proof.
  intros Hp. unfold get_critical_path.
  now rewrite (bind_ok _ _ _ _ _ (project_missing_absent _ _ Hp)).
Qed.

(** C8. Every operation that targets a project or a task raises the
    "not found" [ValueError] (the specification's NotFound) when the
    project id, or the task id within an existing project, is unknown;
    [update_task_status] and [log_time] test both ids before their first
    assignment, so the world at the [raise] is the world of the call. *)
Theorem not_found_before_any_mutation (w : World) (project_id : string) :
  (find_project w project_id = None ->
     (forall task_id status,
        update_task_status clock project_id task_id status w
        = (Raise (project_not_found project_id), w))
     /\ (forall task_id hours,
           log_time clock project_id task_id hours w
           = (Raise (project_not_found project_id), w))
     /\ get_project_metrics clock project_id w = (Raise (project_not_found project_id), w)
     /\ (forall task_id,
           get_task_dependencies project_id task_id w
           = (Raise (project_not_found project_id), w))
     /\ get_available_tasks project_id w = (Raise (project_not_found project_id), w)
     /\ get_critical_path recursion_limit project_id w
        = (Raise (project_not_found project_id), w))
  /\ (forall p task_id,
        find_project w project_id = Some p ->
        dict_get (project_tasks p) task_id = None ->
        (forall status,
           update_task_status clock project_id task_id status w
           = (Raise (task_not_found_in task_id project_id), w))
        /\ (forall hours,
              log_time clock project_id task_id hours w
              = (Raise (task_not_found_in task_id project_id), w))
        /\ get_task_dependencies project_id task_id w
           = (Raise (task_not_found task_id), w)).
Proof.
  split.
  - intros Hp. repeat split; intros.
    + now apply update_task_status_no_project.
    + now apply log_time_no_project.
    + now apply get_project_metrics_no_project.
    + now apply get_task_dependencies_no_project.
    + now apply get_available_tasks_no_project.
    + now apply get_critical_path_no_project.
  - intros p tid Hp Ht. repeat split; intros.
    + now apply update_task_status_no_task with p.
    + now apply log_time_no_task with p.
    + now apply get_task_dependencies_no_task with p.
Qed.

End Analytics.

Lemma not_found_before_any_mutation_witness :
  (find_project (@init binary64) "ghost" = None
   /\ log_time demo_clock "ghost" "u1" (f_of_int 1) (@init binary64)
      = (Raise (project_not_found "ghost"), init))
  /\ (let w := snd (create_project demo_uuid4 demo_clock "P" "" "owner" MEDIUM None None
                      (f_of_int 100) (@init binary64)) in
      exists p, find_project w "u0" = Some p
      /\ dict_get (project_tasks p) "ghost" = None
      /\ update_task_status demo_clock "u0" "ghost" COMPLETED w
         = (Raise (task_not_found_in "ghost" "u0"), w)).
Proof.
  split.
  - split; [reflexivity|].
    apply (not_found_before_any_mutation demo_clock demo_recursion_limit init "ghost").
    reflexivity.
  - cbv zeta. eexists. split; [reflexivity|]. split; [reflexivity|].
    eapply (not_found_before_any_mutation demo_clock demo_recursion_limit _ "u0");
      reflexivity.
Defined.

(** ** More on dictionaries and statuses *)

Lemma TaskStatus_eqb_eq a b : TaskStatus_eqb a b = true <-> a = b.
Proof. destruct a, b; cbn; split; congruence. Qed.

Lemma TaskStatus_eqb_neq a b : TaskStatus_eqb a b = false <-> a <> b.
Proof. destruct a, b; cbn; split; congruence. Qed.

Section DictMore.
Context {V : Type}.
Implicit Types (d : dict V) (k : string) (v : V).

Lemma dict_get_In d k v : dict_get d k = Some v -> In (k, v) d.
Proof.
  induction d as [|[k0 v0] d IH]; cbn; [discriminate|].
  destruct (String.eqb_spec k k0); intros H.
  - injection H as ->. subst. now left.
  - right. auto.
Qed.

Lemma dict_get_In_values d k v : dict_get d k = Some v -> In v (dict_values d).
Proof. intros H. apply dict_get_In in H. now apply (in_map snd) in H. Qed.

Lemma In_dict_set d k v k' v' :
  In (k', v') (dict_set d k v) -> (k' = k /\ v' = v) \/ In (k', v') d.
Proof.
  induction d as [|[k0 v0] d IH]; cbn.
  - intros [H|[]]. injection H as <- <-. now left.
  - destruct (String.eqb_spec k k0); cbn.
    + intros [H|H]; [injection H as <- <-; subst; now left|right; now right].
    + intros [H|H]; [right; now left|].
      destruct (IH H) as [?|?]; [now left|right; now right].
Qed.

Lemma In_values_dict_set d k v v' :
  In v' (dict_values (dict_set d k v)) -> v' = v \/ In v' (dict_values d).
Proof.
  unfold dict_values. rewrite !in_map_iff. intros [[k0 v0] [E H]]. cbn in E. subst v0.
  apply In_dict_set in H as [[_ ->]|H]; [now left|right].
  exists (k0, v'). now split.
Qed.

Lemma dict_set_split d k v :
  dict_get d k = Some v ->
  exists l1 l2, d = (l1 ++ (k, v) :: l2)%list
                /\ forall v', dict_set d k v' = (l1 ++ (k, v') :: l2)%list.
Proof.
  induction d as [|[k0 v0] d IH]; cbn; [discriminate|].
  destruct (String.eqb_spec k k0); intros H.
  - injection H as ->. subst. exists [], d. now split.
  - destruct (IH H) as (l1 & l2 & -> & Hset).
    exists ((k0, v0) :: l1), l2. split; [reflexivity|]. intros v'. cbn. now rewrite Hset.
Qed.

Lemma dict_set_fresh d k v : dict_get d k = None -> dict_set d k v = (d ++ [(k, v)])%list.
Proof.
  induction d as [|[k0 v0] d IH]; cbn; [reflexivity|].
  destruct (String.eqb_spec k k0); [discriminate|]. intros H. now rewrite IH.
Qed.

Lemma dict_get_not_in_keys d k : ~ In k (dict_keys d) -> dict_get d k = None.
Proof.
  induction d as [|[k0 v0] d IH]; cbn; [reflexivity|]. intros H.
  destruct (String.eqb_spec k k0); [subst; tauto|]. apply IH. tauto.
Qed.

Lemma dict_get_in_keys d k v : dict_get d k = Some v -> In k (dict_keys d).
Proof. intros H. apply dict_get_In in H. now apply (in_map fst) in H. Qed.

End DictMore.

(** ** Cascading project completion *)

Section Cascade.
Context {F : PyFloat}.
Variable clock : nat -> datetime.

Lemma all_completed_iff (tasks : dict ProjectTask) :
  all_completed tasks = true
  <-> forall t, In t (dict_values tasks) -> task_status t = COMPLETED.
Proof.
  unfold all_completed. rewrite forallb_forall.
  split; intros H t Ht; apply TaskStatus_eqb_eq; auto.
Qed.

Lemma update_task_status_cases w pid tid st :
  (find_task w pid tid = None
   /\ snd (update_task_status clock pid tid st w) = w
   /\ fst (update_task_status clock pid tid st w) <> Ok tt)
  \/ (exists p t, find_project w pid = Some p /\ dict_get (project_tasks p) tid = Some t
                  /\ update_task_status clock pid tid st w
                     = (Ok tt, update_effect clock w pid tid st p t)).
Proof.
  unfold find_task. destruct (find_project w pid) as [p|] eqn:Hp.
  - destruct (dict_get (project_tasks p) tid) as [t|] eqn:Ht.
    + right. exists p, t. repeat split; trivial. now apply update_task_status_found.
    + left. rewrite (update_task_status_no_task clock _ _ _ _ _ Hp Ht). cbn.
      repeat split; discriminate.
  - left. rewrite (update_task_status_no_project clock _ _ _ _ Hp). cbn.
    repeat split; discriminate.
Qed.

Lemma update_effect_clock w pid tid st p t :
  (clock_calls w < clock_calls (update_effect clock w pid tid st p t))%nat.
Proof.
  unfold update_effect. destruct (entering_completed st t), (all_completed _); cbn; lia.
Qed.


End Cascade.


(** ** Sequences of status updates *)

Section Updates.
Context {F : PyFloat}.
Variable clock : nat -> datetime.

Lemma all_completed_false (tasks : dict ProjectTask) k t :
  dict_get tasks k = Some t -> task_status t <> COMPLETED -> all_completed tasks = false.
Proof.
  intros Hk Hs. destruct (all_completed tasks) eqn:E; [|reflexivity].
  rewrite all_completed_iff in E. apply dict_get_In_values in Hk. now apply E in Hk.
Qed.

Lemma find_task_update_effect_same w pid tid st p t :
  find_task (update_effect clock w pid tid st p t) pid tid
  = Some (updated_task clock (clock_calls w) st t).
Proof.
  unfold find_task, update_effect.
  destruct (all_completed _); rewrite find_with_project_same; cbn; apply dict_get_set_same.
Qed.

Lemma find_task_update_effect_other w pid tid st p t pid' tid' :
  find_project w pid = Some p ->
  (pid, tid) <> (pid', tid') ->
  find_task (update_effect clock w pid tid st p t) pid' tid' = find_task w pid' tid'.
Proof.
  intros Hp Hne. unfold find_task, update_effect.
  destruct (String.eqb_spec pid pid') as [<-|Hpid].
  - rewrite Hp. destruct (all_completed _); rewrite find_with_project_same; cbn;
      apply dict_get_set_other; congruence.
  - destruct (all_completed _); now rewrite find_with_project_other.
Qed.

Lemma updated_task_status c st t : task_status (updated_task clock c st t) = st.
Proof. unfold updated_task. now destruct (entering_completed st t). Qed.

Lemma updated_task_completion_date c st t :
  task_completion_date (updated_task clock c st t)
  = if entering_completed st t then Some (clock (S c)) else task_completion_date t.
Proof. unfold updated_task. now destruct (entering_completed st t). Qed.

(** One update that does not move the task [(pid, tid)] away from
    COMPLETED leaves its completion_date as it is. *)
Lemma update_keeps_completion_date w pid tid t pid' tid' st :
  find_task w pid tid = Some t -> task_status t = COMPLETED ->
  (pid' = pid -> tid' = tid -> st = COMPLETED) ->
  exists t', find_task (snd (update_task_status clock pid' tid' st w)) pid tid = Some t'
             /\ task_status t' = COMPLETED
             /\ task_completion_date t' = task_completion_date t.
Proof.
  intros Ht Hs Hst.
  destruct (update_task_status_cases clock w pid' tid' st)
    as [(_ & -> & _)|(p0 & t0 & Hp0 & Ht0 & ->)]; [now exists t|].
  cbn [snd].
  destruct (String.eqb_spec pid' pid) as [->|Hpid].
  - destruct (String.eqb_spec tid' tid) as [->|Htid].
    + rewrite find_task_update_effect_same. eexists. split; [reflexivity|].
      assert (t0 = t) as ->.
      { unfold find_task in Ht. rewrite Hp0 in Ht. congruence. }
      rewrite updated_task_status, updated_task_completion_date.
      rewrite (Hst eq_refl eq_refl). split; [reflexivity|].
      unfold entering_completed. rewrite Hs. reflexivity.
    + rewrite find_task_update_effect_other by congruence. now exists t.
  - rewrite find_task_update_effect_other by congruence. now exists t.
Qed.

Lemma run_updates_cons pid tid st us w :
  run_updates clock ((pid, tid, st) :: us) w
  = run_updates clock us (snd (update_task_status clock pid tid st w)).
Proof. reflexivity. Qed.

Lemma updates_keep_completion_date us : forall w pid tid t,
  find_task w pid tid = Some t -> task_status t = COMPLETED ->
  (forall u, In u us -> fst (fst u) = pid -> snd (fst u) = tid -> snd u = COMPLETED) ->
  exists t', find_task (run_updates clock us w) pid tid = Some t'
             /\ task_status t' = COMPLETED
             /\ task_completion_date t' = task_completion_date t.
Proof.
  induction us as [|[[pid' tid'] st] us IH]; intros w pid tid t Ht Hs Hus.
  - now exists t.
  - rewrite run_updates_cons.
    destruct (update_keeps_completion_date w pid tid t pid' tid' st Ht Hs)
      as (t1 & Ht1 & Hs1 & Hd1).
    { intros. apply (Hus (pid', tid', st)); [now left|assumption|assumption]. }
    destruct (IH _ pid tid t1 Ht1 Hs1) as (t2 & Ht2 & Hs2 & Hd2).
    { intros u Hu. apply Hus. now right. }
    exists t2. repeat split; congruence.
Qed.

Lemma complete_again_run_updates pid tid n w :
  complete_again clock pid tid n w = run_updates clock (repeat (pid, tid, COMPLETED) n) w.
Proof.
  revert w. induction n as [|n IH]; intros w; [reflexivity|].
  unfold complete_again in *. rewrite Nat.iter_succ_r. cbn [repeat].
  rewrite run_updates_cons. apply IH.
Qed.

(** C7. After [update_task_status(p, t, COMPLETED)], any number of further
    such calls leaves the task's completion_date at the value it has after
    the first call, which, when that call moved the task into COMPLETED,
    is the clock reading stamped by it. *)
Theorem repeated_completion_keeps_date (w : World) (project_id task_id : string) :
  let w1 := snd (update_task_status clock project_id task_id COMPLETED w) in
  (forall n,
     option_map task_completion_date
       (find_task (complete_again clock project_id task_id n w1) project_id task_id)
     = option_map task_completion_date (find_task w1 project_id task_id))
  /\ (forall t,
        find_task w project_id task_id = Some t -> task_status t <> COMPLETED ->
        forall n,
          option_map task_completion_date
            (find_task (complete_again clock project_id task_id n w1) project_id task_id)
          = Some (Some (clock (S (clock_calls w))))).
Proof.
  cbv zeta.
  assert (Hfix : forall n,
     option_map task_completion_date
       (find_task (complete_again clock project_id task_id n
                     (snd (update_task_status clock project_id task_id COMPLETED w)))
          project_id task_id)
     = option_map task_completion_date
         (find_task (snd (update_task_status clock project_id task_id COMPLETED w))
            project_id task_id)).
  { intros n.
    destruct (update_task_status_cases clock w project_id task_id COMPLETED)
      as [(Hnone & Hw & _)|(p & t & Hp & Ht & Hrun)].
    - rewrite Hw. clear Hw. induction n as [|n IH]; [reflexivity|].
      unfold complete_again in *. rewrite Nat.iter_succ_r.
      destruct (update_task_status_cases clock w project_id task_id COMPLETED)
        as [(_ & -> & _)|(p & t & Hp & Ht & _)]; [exact IH|].
      unfold find_task in Hnone. rewrite Hp in Hnone. congruence.
    - rewrite Hrun. cbn [snd]. rewrite complete_again_run_updates.
      destruct (updates_keep_completion_date (repeat (project_id, task_id, COMPLETED) n)
                  (update_effect clock w project_id task_id COMPLETED p t)
                  project_id task_id _ (find_task_update_effect_same _ _ _ _ _ _))
        as (t' & -> & _ & Hd).
      + apply updated_task_status.
      + intros u Hu _ _. apply repeat_spec in Hu. now subst.
      + rewrite find_task_update_effect_same. cbn. now rewrite Hd. }
  split; [exact Hfix|].
  intros t Ht Hs n. rewrite Hfix.
  unfold find_task in Ht. destruct (find_project w project_id) as [p|] eqn:Hp; [|discriminate].
  rewrite (update_task_status_found clock _ _ _ _ _ _ Hp Ht). cbn [snd].
  rewrite find_task_update_effect_same. cbn. rewrite updated_task_completion_date.
  unfold entering_completed. apply TaskStatus_eqb_neq in Hs. now rewrite Hs.
Qed.

(** One update that leaves the CANCELLED task [c] CANCELLED changes
    neither the project's status nor its completion_date. *)
Lemma update_with_cancelled_task w pid c p tc pid' tid' st :
  find_project w pid = Some p ->
  dict_get (project_tasks p) c = Some tc -> task_status tc = CANCELLED ->
  (pid' = pid -> tid' = c -> st = CANCELLED) ->
  exists p' tc',
    find_project (snd (update_task_status clock pid' tid' st w)) pid = Some p'
    /\ dict_get (project_tasks p') c = Some tc' /\ task_status tc' = CANCELLED
    /\ project_status p' = project_status p
    /\ project_completion_date p' = project_completion_date p.
Proof.
  intros Hp Hc Hs Hst.
  destruct (update_task_status_cases clock w pid' tid' st)
    as [(_ & -> & _)|(p0 & t0 & Hp0 & Ht0 & ->)]; [now exists p, tc|].
  cbn [snd]. unfold update_effect.
  destruct (String.eqb_spec pid' pid) as [->|Hpid].
  - assert (p0 = p) as -> by congruence.
    destruct (String.eqb_spec tid' c) as [->|Htid].
    + assert (t0 = tc) as -> by congruence. specialize (Hst eq_refl eq_refl). subst st.
      rewrite (all_completed_false _ c (updated_task clock (clock_calls w) CANCELLED tc));
        [|apply dict_get_set_same|rewrite updated_task_status; discriminate].
      rewrite find_with_project_same. eexists. eexists.
      split; [reflexivity|]. cbn [project_tasks project_with_tasks project_status
        project_completion_date]. rewrite dict_get_set_same.
      split; [reflexivity|]. rewrite updated_task_status. now split.
    + rewrite (all_completed_false _ c tc);
        [|rewrite dict_get_set_other by congruence; exact Hc|congruence].
      rewrite find_with_project_same. eexists. exists tc.
      split; [reflexivity|]. cbn [project_tasks project_with_tasks project_status
        project_completion_date]. rewrite dict_get_set_other by congruence. now split.
  - exists p, tc. destruct (all_completed _); rewrite find_with_project_other by congruence;
      now split.
Qed.

(** C10, as the code has it. While a task of the project stays CANCELLED, that is,
    along every sequence of status updates none of which gives that task
    another status, the project's status and completion_date stay what
    they were: the cascade does not fire. *)
Theorem cancelled_task_blocks_cascade (us : list (string * string * TaskStatus)) :
  forall (w : World) (project_id c : string) (p : Project) (tc : ProjectTask),
  find_project w project_id = Some p ->
  dict_get (project_tasks p) c = Some tc ->
  task_status tc = CANCELLED ->
  (forall u, In u us -> fst (fst u) = project_id -> snd (fst u) = c -> snd u = CANCELLED) ->
  exists p',
    find_project (run_updates clock us w) project_id = Some p'
    /\ project_status p' = project_status p
    /\ project_completion_date p' = project_completion_date p
    /\ exists tc', dict_get (project_tasks p') c = Some tc' /\ task_status tc' = CANCELLED.
Proof.
  induction us as [|[[pid' tid'] st] us IH]; intros w pid c p tc Hp Hc Hs Hus.
  - exists p. repeat split; trivial. now exists tc.
  - rewrite run_updates_cons.
    destruct (update_with_cancelled_task w pid c p tc pid' tid' st Hp Hc Hs)
      as (p1 & tc1 & Hp1 & Hc1 & Hs1 & Hst1 & Hd1).
    { intros. apply (Hus (pid', tid', st)); [now left|assumption|assumption]. }
    destruct (IH _ pid c p1 tc1 Hp1 Hc1 Hs1) as (p2 & Hp2 & Hst2 & Hd2 & Hc2).
    { intros u Hu. apply Hus. now right. }
    exists p2. split; [exact Hp2|]. split; [congruence|]. split; [congruence|exact Hc2].
Qed.

End Updates.

(** ** Invariants of the reachable worlds *)

Section Reachable.
Context {F : PyFloat}.
Variable uuid4 : nat -> string.
Variable clock : nat -> datetime.

Lemma exec_step op w : step uuid4 clock w (exec uuid4 clock op w).
Proof.
  destruct op as [n d o pr sd dd b|pid ti d pr e deps ags dd tg|pid tid st|pid tid h];
    cbn [exec].
  - rewrite create_project_returns. apply step_create.
  - destruct (find_project w pid) as [p|] eqn:Hp.
    + rewrite (add_task_to_project_found uuid4 clock _ _ _ _ _ _ _ _ _ _ _ Hp).
      now apply step_add.
    + rewrite (add_task_to_project_no_project uuid4 clock _ _ _ _ _ _ _ _ _ _ Hp).
      apply step_raise.
  - destruct (update_task_status_cases clock w pid tid st)
      as [(_ & -> & _)|(p & t & Hp & Ht & ->)]; [apply step_raise|now apply step_update].
  - destruct (find_project w pid) as [p|] eqn:Hp.
    + destruct (dict_get (project_tasks p) tid) as [t|] eqn:Ht.
      * rewrite (log_time_found clock _ _ _ _ _ _ Hp Ht). now apply step_log.
      * rewrite (log_time_no_task clock _ _ _ _ _ Hp Ht). apply step_raise.
    + rewrite (log_time_no_project clock _ _ _ _ Hp). apply step_raise.
Qed.

Lemma run_invariant (I : World -> Prop) :
  (forall w w', I w -> step uuid4 clock w w' -> I w') ->
  forall ops w, I w -> I (run uuid4 clock ops w).
Proof.
  intros Hstep ops. induction ops as [|op ops IH]; intros w Hw; [exact Hw|].
  cbn. apply IH. apply (Hstep w); [exact Hw|apply exec_step].
Qed.

Lemma In_with_project (w : World) pid p pid' p' :
  In (pid', p') (projects (self (with_project w pid p))) ->
  (pid' = pid /\ p' = p) \/ In (pid', p') (projects (self w)).
Proof. apply In_dict_set. Qed.

Lemma find_project_In (w : World) pid p :
  find_project w pid = Some p -> In (pid, p) (projects (self w)).
Proof. apply dict_get_In. Qed.

(** A step keeps a property of all tasks that new tasks have and that
    an update and a time log preserve. *)
Lemma every_task_step (P : ProjectTask -> Prop) :
  (forall id ti d pr e deps ags dd tg c u, P (new_task id ti d pr e deps ags dd tg c u)) ->
  (forall c st t, P t -> P (updated_task clock c st t)) ->
  (forall c h t, P t -> P (logged_task clock c h t)) ->
  forall w w', every_task P w -> step uuid4 clock w w' -> every_task P w'.
Proof.
  intros Hnew Hupd Hlog w w' Hw Hstep pid' p' tid' t' Hin Hin'.
  destruct Hstep as [|n d o pr sd dd b|pid ti d pr e deps ags dd tg p Hp
                    |pid tid st p t Hp Ht|pid tid h p t Hp Ht].
  - eauto.
  - apply In_with_project in Hin as [[-> ->]|Hin]; [destruct Hin'|]. eapply Hw; eauto.
  - apply In_with_project in Hin as [[-> ->]|Hin]; [|eapply Hw; eauto].
    cbn in Hin'. apply In_dict_set in Hin' as [[_ ->]|Hin']; [apply Hnew|].
    eapply Hw; eauto using find_project_In.
  - assert (Hgen : forall ts, In (tid', t') (dict_set (project_tasks p) tid ts) ->
                              P ts -> P t').
    { intros ts Hts Pts. apply In_dict_set in Hts as [[_ ->]|Hts]; [exact Pts|].
      eapply Hw; eauto using find_project_In. }
    assert (Pt : P t) by (eapply Hw; eauto using find_project_In, dict_get_In).
    unfold update_effect in Hin. destruct (all_completed _);
      (apply In_with_project in Hin as [[-> ->]|Hin]; [|eapply Hw; eauto]);
      cbn in Hin'; eapply Hgen; eauto.
  - apply In_with_project in Hin as [[-> ->]|Hin]; [|eapply Hw; eauto].
    cbn in Hin'. apply In_dict_set in Hin' as [[_ ->]|Hin'].
    + apply Hlog. eapply Hw; eauto using find_project_In, dict_get_In.
    + eapply Hw; eauto using find_project_In.
Qed.

Lemma every_task_find (P : ProjectTask -> Prop) (w : World) pid tid t :
  every_task P w -> find_task w pid tid = Some t -> P t.
Proof.
  unfold find_task. intros Hw Ht. destruct (find_project w pid) as [p|] eqn:Hp; [|discriminate].
  eapply Hw; eauto using find_project_In, dict_get_In.
Qed.

(** C4, as the code has it. In every world reached from the empty manager a
    COMPLETED task has a completion_date; [update_task_status] sets the
    date to the clock reading it takes when, and only when, it moves the
    task from another status into COMPLETED, and keeps the old date
    otherwise, also when it moves the task out of COMPLETED. *)
Theorem completion_date_of_completed_tasks :
  (forall ops project_id task_id t,
     find_task (run uuid4 clock ops init) project_id task_id = Some t ->
     task_status t = COMPLETED -> task_completion_date t <> None)
  /\ (forall w project_id task_id status p t,
        find_project w project_id = Some p ->
        dict_get (project_tasks p) task_id = Some t ->
        exists t',
          find_task (snd (update_task_status clock project_id task_id status w))
            project_id task_id = Some t'
          /\ task_status t' = status
          /\ task_completion_date t'
             = if TaskStatus_eqb status COMPLETED
                  && negb (TaskStatus_eqb (task_status t) COMPLETED)
               then Some (clock (S (clock_calls w)))
               else task_completion_date t).
Proof.
  split.
  - intros ops pid tid t Ht.
    apply (every_task_find completed_has_date (run uuid4 clock ops init) pid tid t);
      [|exact Ht].
    apply (run_invariant (every_task completed_has_date)).
    + apply every_task_step.
      * intros; intros H; discriminate.
      * intros c st t0 Ht0. unfold completed_has_date.
        rewrite updated_task_status, updated_task_completion_date.
        unfold entering_completed. intros ->. cbn.
        destruct (TaskStatus_eqb (task_status t0) COMPLETED) eqn:E; cbn; [|discriminate].
        apply Ht0. now apply TaskStatus_eqb_eq.
      * intros c h t0 Ht0. exact Ht0.
    + intros ? ? ? ? [].
  - intros w pid tid st p t Hp Ht.
    rewrite (update_task_status_found clock _ _ _ _ _ _ Hp Ht). cbn [snd].
    rewrite find_task_update_effect_same. eexists. split; [reflexivity|].
    split; [apply updated_task_status|apply updated_task_completion_date].
Qed.

End Reachable.

(** ** Logged hours *)

Section ExactSums.
Context {F : PyFloat} {E : ExactAdd F}.

Lemma fold_left_f_add (l : list float) (a : float) :
  fold_left f_add l a = f_add a (f_sum l).
Proof.
  unfold f_sum. revert a. induction l as [|x l IH]; intros a; cbn.
  - now rewrite f_add_comm, f_add_0_l.
  - rewrite (IH (f_add a x)), (IH (f_add f_zero x)), f_add_0_l. symmetry. apply f_add_assoc.
Qed.

Lemma f_sum_cons (x : float) (l : list float) : f_sum (x :: l) = f_add x (f_sum l).
Proof. unfold f_sum at 1. cbn. now rewrite fold_left_f_add, f_add_0_l. Qed.

Lemma f_sum_middle (l1 l2 : list float) (x : float) :
  f_sum (l1 ++ x :: l2) = f_add x (f_sum (l1 ++ l2)).
Proof.
  induction l1 as [|y l1 IH]; cbn [app]; [apply f_sum_cons|].
  rewrite !f_sum_cons, IH, !f_add_assoc. now rewrite (f_add_comm y x).
Qed.

Lemma f_sum_snoc_zero (l : list float) : f_sum (l ++ [f_zero]) = f_sum l.
Proof. now rewrite f_sum_middle, app_nil_r, f_add_0_l. Qed.

End ExactSums.

Section Hours.
Context {F : PyFloat}.
Variable uuid4 : nat -> string.
Variable clock : nat -> datetime.

Lemma issued_next (w w' : World) id :
  (uuid_calls w <= uuid_calls w')%nat -> issued uuid4 w id -> issued uuid4 w' id.
Proof. intros Hle (k & Hk & ->). exists k. split; [lia|reflexivity]. Qed.

Lemma step_uuid_calls w w' : step uuid4 clock w w' -> (uuid_calls w <= uuid_calls w')%nat.
Proof.
  intros [| | | |]; cbn; try lia.
  unfold update_effect. destruct (all_completed _); cbn; lia.
Qed.

Lemma values_dict_set_existing (d : dict ProjectTask) k t t' (g : ProjectTask -> float) :
  dict_get d k = Some t -> g t' = g t ->
  map g (dict_values (dict_set d k t')) = map g (dict_values d).
Proof.
  intros Hk Hg. destruct (dict_set_split d k t Hk) as (l1 & l2 & -> & Hset).
  rewrite Hset. unfold dict_values. rewrite !map_app. cbn. now rewrite Hg.
Qed.

Lemma keys_dict_set_existing {V} (d : dict V) k v v' :
  dict_get d k = Some v -> dict_keys (dict_set d k v') = dict_keys d.
Proof.
  intros Hk. destruct (dict_set_split d k v Hk) as (l1 & l2 & -> & Hset).
  rewrite Hset. unfold dict_keys. now rewrite !map_app.
Qed.

Lemma updated_task_actual_hours c st t :
  task_actual_hours (updated_task clock c st t) = task_actual_hours t.
Proof. unfold updated_task. now destruct (entering_completed st t). Qed.

(** With exact addition and collision-free identifiers every step keeps
    the balance of every project. *)
Lemma balanced_step {E : ExactAdd F} :
  (forall i j, uuid4 i = uuid4 j -> i = j) ->
  forall w w',
    every_project (balanced_and_issued uuid4) w -> step uuid4 clock w w' ->
    every_project (balanced_and_issued uuid4) w'.
Proof.
  intros Hinj w w' Hw Hstep pid' p' Hin.
  assert (Hold : forall q, In (pid', q) (projects (self w)) ->
                           balanced_and_issued uuid4 w' q).
  { intros q Hq. destruct (Hw _ _ Hq) as [Hb Hi]. split; [exact Hb|].
    intros tid Htid. eapply issued_next; [eapply step_uuid_calls; eassumption|auto]. }
  destruct Hstep as [|n d o pr sd dd b|pid ti d pr e deps ags dd tg p Hp
                    |pid tid st p t Hp Ht|pid tid h p t Hp Ht].
  - auto.
  - apply In_with_project in Hin as [[-> ->]|Hin]; [|auto].
    split; [reflexivity|intros tid []].
  - apply In_with_project in Hin as [[-> ->]|Hin]; [|auto].
    destruct (Hw _ _ (find_project_In _ _ _ Hp)) as [Hb Hi].
    assert (Hfresh : dict_get (project_tasks p) (uuid4 (uuid_calls w)) = None).
    { apply dict_get_not_in_keys. intros Hk. apply Hi in Hk as (k & Hlt & Heq).
      apply Hinj in Heq. lia. }
    split; proj_simpl.
    + rewrite (dict_set_fresh _ _ _ Hfresh). unfold dict_values.
      rewrite !map_app. cbn [map snd]. proj_simpl. rewrite f_sum_snoc_zero. exact Hb.
    + rewrite (dict_set_fresh _ _ _ Hfresh). unfold dict_keys. rewrite map_app.
      intros tid Htid. apply in_app_or in Htid as [Htid|[<-|[]]].
      * eapply issued_next; [|apply Hi; exact Htid]. cbn. lia.
      * exists (uuid_calls w). split; [cbn; lia|reflexivity].
  - destruct (Hw _ _ (find_project_In _ _ _ Hp)) as [Hb Hi].
    assert (Hnew : balanced_and_issued uuid4 (update_effect clock w pid tid st p t)
                     (project_with_tasks
                        (dict_set (project_tasks p) tid
                           (updated_task clock (clock_calls w) st t)) p)).
    { split; proj_simpl.
      - rewrite (values_dict_set_existing _ _ t); auto using updated_task_actual_hours.
      - rewrite (keys_dict_set_existing _ _ t) by assumption.
        intros k Hk. eapply issued_next; [|apply Hi; exact Hk].
        unfold update_effect. destruct (all_completed _); cbn; lia. }
    revert Hin Hold Hnew. unfold update_effect. destruct (all_completed _);
      intros Hin Hold Hnew; (apply In_with_project in Hin as [[-> ->]|Hin]; [|auto]);
      exact Hnew.
  - apply In_with_project in Hin as [[-> ->]|Hin]; [|auto].
    destruct (Hw _ _ (find_project_In _ _ _ Hp)) as [Hb Hi].
    split; proj_simpl.
    + destruct (dict_set_split _ _ _ Ht) as (l1 & l2 & Hd & Hset).
      rewrite Hset, Hb, Hd. unfold dict_values. rewrite !map_app. cbn [map snd]. proj_simpl.
      rewrite !f_sum_middle, <- !f_add_assoc.
      now rewrite (f_add_comm (f_sum _) h).
    + rewrite (keys_dict_set_existing _ _ t) by assumption.
      intros k Hk. eapply issued_next; [|apply Hi; exact Hk]. cbn. lia.
Qed.


End Hours.

(** ** Absent validation *)

Section Validation.
Context {F : PyFloat}.
Variable uuid4 : nat -> string.
Variable clock : nat -> datetime.

(** C3, as the code has it. [log_time] does not examine [hours]: on existing ids
    it returns also when [hours] is negative, and then adds the
    negative amount to the task's actual_hours and to the project's
    spent_hours. *)
Theorem log_time_accepts_negative_hours (w : World) (project_id task_id : string)
  (hours : float) (p : Project) (t : ProjectTask) :
  f_ltb hours f_zero = true ->
  find_project w project_id = Some p ->
  dict_get (project_tasks p) task_id = Some t ->
  exists p' t',
    fst (log_time clock project_id task_id hours w) = Ok tt
    /\ find_project (snd (log_time clock project_id task_id hours w)) project_id = Some p'
    /\ dict_get (project_tasks p') task_id = Some t'
    /\ project_spent_hours p' = f_add (project_spent_hours p) hours
    /\ task_actual_hours t' = f_add (task_actual_hours t) hours.
Proof.
  intros _ Hp Ht. rewrite (log_time_found clock _ _ _ _ _ _ Hp Ht). cbn [fst snd].
  unfold log_effect. rewrite find_with_project_same. eexists. eexists.
  split; [reflexivity|]. split; [reflexivity|]. proj_simpl.
  rewrite dict_get_set_same. now repeat split.
Qed.

(** C9, as the code has it. The constructors do not examine the name or the title:
    [create_project] returns for every name, the empty one included, and
    stores a project of that name; [add_task_to_project] on an existing
    project returns for every title and stores a task of that title. Its
    only failure is the unknown project, which creates nothing. *)
Theorem constructors_accept_any_name :
  (forall w name description owner priority start_date due_date budget_hours,
     exists id p,
       create_project uuid4 clock name description owner priority start_date
         due_date budget_hours w
       = (Ok id, create_effect uuid4 clock w name description owner priority
                   start_date due_date budget_hours)
       /\ find_project (create_effect uuid4 clock w name description owner priority
                          start_date due_date budget_hours) id = Some p
       /\ project_name p = name /\ project_status p = PLANNING)
  /\ (forall w project_id title description priority estimated_hours dependencies
             assigned_agents due_date tags p,
        find_project w project_id = Some p ->
        exists id t,
          add_task_to_project uuid4 clock project_id title description priority
            estimated_hours dependencies assigned_agents due_date tags w
          = (Ok id, add_effect uuid4 clock w project_id title description priority
                      estimated_hours dependencies assigned_agents due_date tags p)
          /\ find_task (add_effect uuid4 clock w project_id title description priority
                          estimated_hours dependencies assigned_agents due_date tags p)
               project_id id = Some t
          /\ task_title t = title /\ task_status t = NOT_STARTED)
  /\ (forall w project_id title description priority estimated_hours dependencies
             assigned_agents due_date tags,
        find_project w project_id = None ->
        add_task_to_project uuid4 clock project_id title description priority
          estimated_hours dependencies assigned_agents due_date tags w
        = (Raise (project_not_found project_id), w)).
Proof.
  split; [|split].
  - intros. eexists. eexists. split; [apply create_project_returns|].
    unfold create_effect. rewrite find_with_project_same. now repeat split.
  - intros w pid ti d pr e deps ags dd tg p Hp. eexists. eexists.
    split; [now apply add_task_to_project_found|].
    unfold find_task, add_effect. rewrite find_with_project_same.
    cbn [project_tasks project_with_tasks project_with_updated_at].
    rewrite dict_get_set_same. now repeat split.
  - intros. now apply add_task_to_project_no_project.
Qed.

End Validation.

(** ** Available tasks *)

Section Available.
Context {F : PyFloat}.

Lemma dependencies_completed_eq (tasks : dict ProjectTask) deps (w : World) :
  dependencies_completed tasks deps w
  = (Ok (forallb (dependency_satisfied tasks) deps), w).
Proof.
  induction deps as [|dep deps IH]; [reflexivity|].
  cbn [dependencies_completed forallb]. unfold dict_mem, dependency_satisfied at 1,
    dependency_completed.
  destruct (dict_get tasks dep) as [d|]; [|exact IH].
  unfold bind, ret. destruct (TaskStatus_eqb (task_status d) COMPLETED); [exact IH|reflexivity].
Qed.

Lemma available_loop_eq (tasks : dict ProjectTask) todo (w : World) :
  available_loop tasks todo w = (Ok (filter (is_available tasks) todo), w).
Proof.
  induction todo as [|t todo IH]; [reflexivity|].
  cbn [available_loop filter]. unfold is_available at 1.
  destruct (TaskStatus_eqb (task_status t) NOT_STARTED); [|exact IH].
  rewrite (bind_ok _ _ _ _ _ (dependencies_completed_eq _ _ _)).
  rewrite (bind_ok _ _ _ _ _ IH). reflexivity.
Qed.

Lemma is_available_iff (tasks : dict ProjectTask) (t : ProjectTask) :
  is_available tasks t = true
  <-> task_status t = NOT_STARTED
      /\ forall dep_id, In dep_id (task_dependencies t) ->
           dict_get tasks dep_id = None
           \/ exists d, dict_get tasks dep_id = Some d /\ task_status d = COMPLETED.
Proof.
  unfold is_available. rewrite andb_true_iff, TaskStatus_eqb_eq, forallb_forall.
  split; intros [Hs Hd]; (split; [exact Hs|]); intros dep Hin; specialize (Hd dep Hin);
    unfold dependency_satisfied in *; destruct (dict_get tasks dep) as [d|].
  - right. exists d. split; [reflexivity|now apply TaskStatus_eqb_eq].
  - now left.
  - destruct Hd as [Hd|(d' & Hd & Hs')]; [discriminate|].
    injection Hd as <-. now apply TaskStatus_eqb_eq.
  - reflexivity.
Qed.

(** C5. On an existing project [get_available_tasks] returns, in
    dictionary order, exactly the tasks that are NOT_STARTED and whose
    every dependency id is absent from the project's task map or names
    a COMPLETED task; it changes nothing. *)
Theorem available_tasks_exactly (w : World) (project_id : string) (p : Project) :
  find_project w project_id = Some p ->
  exists available,
    get_available_tasks project_id w = (Ok available, w)
    /\ available = filter (is_available (project_tasks p)) (dict_values (project_tasks p))
    /\ forall t,
         In t available
         <-> In t (dict_values (project_tasks p))
             /\ task_status t = NOT_STARTED
             /\ forall dep_id, In dep_id (task_dependencies t) ->
                  dict_get (project_tasks p) dep_id = None
                  \/ exists d, dict_get (project_tasks p) dep_id = Some d
                               /\ task_status d = COMPLETED.
Proof.
  intros Hp. eexists. split; [|split; [reflexivity|]].
  - unfold get_available_tasks.
    rewrite (bind_ok _ _ _ _ _ (project_missing_found _ _ _ Hp)).
    rewrite (bind_ok _ _ _ _ _ (projects_at_found _ _ _ Hp)).
    apply available_loop_eq.
  - intros t. rewrite filter_In, is_available_iff. tauto.
Qed.

End Available.

(** ** The critical path *)

Section Selection.
Context {F : PyFloat} {D : float -> Prop} {O : OrderedDurations F D}.

Lemma f_sum_in_D (xs : list float) : (forall x, In x xs -> D x) -> D (f_sum xs).
Proof.
  unfold f_sum. generalize (@D_zero F D O). generalize f_zero.
  induction xs as [|x xs IH]; intros a Ha Hxs; [exact Ha|].
  cbn [fold_left]. apply IH.
  - apply D_add; [exact Ha|apply Hxs; now left].
  - intros y Hy. apply Hxs. now right.
Qed.

Lemma longest_step_holds done acc chain :
  (forall c, In c done -> D (chain_duration c)) -> D (chain_duration chain) ->
  holds_after done acc -> holds_after (done ++ [chain]) (longest_step acc chain).
Proof.
  intros Hdone Hchain H. pose proof (@D_zero F D O) as H0. unfold longest_step.
  destruct (f_gtb (chain_duration chain) (snd acc)) eqn:E.
  - right. cbn [fst snd].
    destruct H as [(Hr & Hm & Hnone)|(before & after & Hd & Hm & Hpos & Hb & Ha)].
    + exists done, []. rewrite Hm in E. repeat split; trivial.
      * intros c Hc. apply (f_gt_cotrans _ f_zero); auto.
      * intros c [].
    + assert (Hacc : D (chain_duration (fst acc))).
      { apply Hdone. rewrite Hd. apply in_or_app. right. now left. }
      exists done, []. rewrite Hm in E. repeat split; trivial.
      * now apply (f_gt_trans _ (chain_duration (fst acc))).
      * intros c Hc. pose proof (Hdone c Hc) as Dc.
        rewrite Hd in Hc. apply in_app_or in Hc as [Hc|[<-|Hc]].
        -- apply (f_gt_trans _ (chain_duration (fst acc))); auto.
        -- exact E.
        -- apply (f_gt_cotrans _ (chain_duration (fst acc))); auto.
      * intros c [].
  - destruct H as [(Hr & Hm & Hnone)|(before & after & Hd & Hm & Hpos & Hb & Ha)].
    + left. repeat split; trivial. intros c Hc. apply in_app_or in Hc as [Hc|[<-|[]]]; auto.
      now rewrite Hm in E.
    + right. exists before, (after ++ [chain])%list. repeat split; trivial.
      * rewrite Hd, <- app_assoc. reflexivity.
      * intros c Hc. apply in_app_or in Hc as [Hc|[<-|[]]]; auto. now rewrite Hm in E.
Qed.

Lemma fold_longest_holds chains : forall done acc,
  (forall c, In c (done ++ chains) -> D (chain_duration c)) ->
  holds_after done acc ->
  holds_after (done ++ chains) (fold_left longest_step chains acc).
Proof.
  induction chains as [|c chains IH]; intros done acc HD H; cbn [fold_left].
  - now rewrite app_nil_r.
  - replace (done ++ c :: chains)%list with ((done ++ [c]) ++ chains)%list in *
      by now rewrite <- app_assoc.
    apply IH; [exact HD|]. apply longest_step_holds; [| |exact H].
    + intros c' Hc'. apply HD. apply in_or_app. left. apply in_or_app. now left.
    + apply HD. apply in_or_app. left. apply in_or_app. right. now left.
Qed.

(** The selection loop returns the selected chain. *)
Lemma longest_of_selected chains :
  (forall c, In c chains -> D (chain_duration c)) -> selected chains (longest_of chains).
Proof.
  intros HD. unfold longest_of.
  assert (Hstart : holds_after [] (([] : list ProjectTask), f_zero)).
  { left. repeat split; trivial. intros c []. }
  destruct (fold_longest_holds chains [] ([], f_zero) HD Hstart) as [(Hr & _ & Hnone)|H].
  - left. now split.
  - right. destruct H as (before & after & Hd & _ & Hpos & Hb & Ha).
    exists before, after. now repeat split.
Qed.

End Selection.

Section Chains.
Context {F : PyFloat} {D : float -> Prop} {O : OrderedDurations F D}.

(** The loop keeps the empty chain or one of the chains it is given. *)
Lemma fold_longest_in chains : forall acc,
  fst (fold_left longest_step chains acc) = fst acc
  \/ In (fst (fold_left longest_step chains acc)) chains.
Proof.
  induction chains as [|c chains IH]; intros acc; cbn [fold_left]; [now left|].
  destruct (IH (longest_step acc c)) as [H|H]; [|right; now right].
  rewrite H. unfold longest_step. destruct (f_gtb _ _); [right; now left|now left].
Qed.

Lemma longest_of_in chains : longest_of chains = [] \/ In (longest_of chains) chains.
Proof. apply (fold_longest_in chains ([], f_zero)). Qed.

Lemma selected_nil r : selected [] r -> r = [].
Proof.
  intros [[-> _]|(before & after & Hd & _)]; [reflexivity|].
  destruct before; discriminate.
Qed.

Lemma str_in_iff x xs : str_in x xs = true <-> In x xs.
Proof.
  unfold str_in. rewrite existsb_exists. split.
  - intros (y & Hy & Heq). apply String.eqb_eq in Heq. now subst.
  - intros H. exists x. split; [exact H|apply String.eqb_refl].
Qed.

Lemma filter_length_le {A} (f : A -> bool) l : (List.length (filter f l) <= List.length l)%nat.
Proof. induction l as [|x l IH]; cbn; [lia|]. destruct (f x); cbn; lia. Qed.

Lemma filter_length_lt {A} (f g : A -> bool) l x :
  (forall y, g y = true -> f y = true) ->
  In x l -> f x = true -> g x = false ->
  (List.length (filter g l) < List.length (filter f l))%nat.
Proof.
  intros Hgf. induction l as [|y l IH]; cbn; [intros []|].
  assert (Hle : (List.length (filter g l) <= List.length (filter f l))%nat).
  { clear IH. induction l as [|z l IHl]; cbn; [lia|].
    destruct (g z) eqn:Eg; [rewrite (Hgf z Eg); cbn; lia|].
    destruct (f z); cbn; lia. }
  intros [->|Hin] Hf Hg.
  - rewrite Hf, Hg. cbn. lia.
  - specialize (IH Hin Hf Hg). destruct (g y) eqn:Eg; [rewrite (Hgf y Eg); cbn; lia|].
    destruct (f y); cbn; lia.
Qed.

(** Entering a task that is in the project and not yet on the path
    leaves fewer tasks to visit. *)
Lemma unvisited_decreases (tasks : dict ProjectTask) tid visited task :
  str_in tid visited = false -> dict_get tasks tid = Some task ->
  (unvisited tasks (tid :: visited) < unvisited tasks visited)%nat.
Proof.
  intros Hv Ht. unfold unvisited. apply (filter_length_lt _ _ _ tid).
  - intros y. cbn. destruct (String.eqb y tid); cbn; [discriminate|auto].
  - eapply dict_get_in_keys; eassumption.
  - now rewrite Hv.
  - cbn. now rewrite String.eqb_refl.
Qed.

Lemma unvisited_le (tasks : dict ProjectTask) visited :
  (unvisited tasks visited <= List.length (dict_values tasks))%nat.
Proof.
  unfold unvisited, dict_values, dict_keys.
  rewrite length_map, <- (length_map fst tasks). apply filter_length_le.
Qed.

Lemma sequence_map_ok {A B} (f : A -> result B) (R : A -> B -> Prop) l :
  (forall a, In a l -> exists b, f a = Ok b /\ R a b) ->
  exists bs, sequence (map f l) = Ok bs /\ Forall2 R l bs.
Proof.
  induction l as [|a l IH]; intros H; cbn.
  - exists []. split; [reflexivity|constructor].
  - destruct (H a (or_introl eq_refl)) as (b & -> & Hb).
    destruct IH as (bs & -> & Hbs); [intros; apply H; now right|].
    exists (b :: bs). split; [reflexivity|now constructor].
Qed.

Lemma Forall2_right {A B} (R : A -> B -> Prop) (P : B -> Prop) l bs :
  Forall2 (fun a b => R a b /\ P b) l bs -> Forall2 R l bs /\ forall b, In b bs -> P b.
Proof.
  induction 1 as [|a b l bs [HR HP] _ [IH1 IH2]]; split; try constructor; trivial.
  - intros b [].
  - intros b' [<-|Hb']; auto.
Qed.

(** Lists of tasks of a project whose estimated hours are in [D] have
    their duration in [D]. *)
Lemma chain_duration_in_D (p : Project) chain :
  (forall t, In t (dict_values (project_tasks p)) -> D (task_estimated_hours t)) ->
  (forall t, In t chain -> In t (dict_values (project_tasks p))) ->
  D (chain_duration chain).
Proof.
  intros Hest Hsub. unfold chain_duration. apply f_sum_in_D.
  intros x Hx. apply in_map_iff in Hx as (t & <- & Ht). auto.
Qed.

(** [_get_task_chain] returns when it is allowed more nested calls than
    there are unvisited tasks; what it returns is the chain the
    specification describes, made of tasks of the project. *)
Lemma _get_task_chain_returns (p : Project) :
  (forall t, In t (dict_values (project_tasks p)) -> D (task_estimated_hours t)) ->
  forall depth tid visited,
    (unvisited (project_tasks p) visited < depth)%nat ->
    exists chain, _get_task_chain depth p tid visited = Ok chain
                  /\ chain_from p tid visited chain
                  /\ forall t, In t chain -> In t (dict_values (project_tasks p)).
Proof.
  intros Hest. induction depth as [|depth IH]; intros tid visited Hd; [lia|].
  cbn [_get_task_chain]. unfold dict_mem.
  destruct (str_in tid visited) eqn:Hv; cbn [orb].
  { exists []. split; [reflexivity|]. split; [apply chain_stop; now left|intros t []]. }
  destruct (dict_get (project_tasks p) tid) as [task|] eqn:Ht; cbn [negb].
  2:{ exists []. split; [reflexivity|]. split; [apply chain_stop; now right|intros t []]. }
  destruct (sequence_map_ok
              (fun dep_task => _get_task_chain depth p (task_id dep_task) (tid :: visited))
              (fun d c => chain_from p (task_id d) (tid :: visited) c
                          /\ forall t, In t c -> In t (dict_values (project_tasks p)))
              (dependents p tid)) as (subs & Hseq & Hall).
  { intros d _. apply IH.
    pose proof (unvisited_decreases _ _ _ _ Hv Ht). lia. }
  apply Forall2_right in Hall as [Hall Hsub].
  unfold dependents in Hseq. rewrite Hseq.
  exists (task :: longest_of subs). split; [reflexivity|]. split.
  - eapply chain_extend; eauto. apply (longest_of_selected subs).
    intros c Hc. apply (chain_duration_in_D p); [exact Hest|exact (Hsub c Hc)].
  - intros t [<-|Hin]; [eapply dict_get_In_values; eassumption|].
    destruct (longest_of_in subs) as [E|E]; [rewrite E in Hin; destruct Hin|].
    eapply Hsub; eassumption.
Qed.

Variable recursion_limit : nat.

(** What the code computes.  On an existing project that has fewer tasks
    than the recursion limit allows nested calls, and whose estimated
    hours are comparable (in [D]: on binary64, not NaN and not negative),
    [get_critical_path] returns without changing anything; every start
    task (no dependencies) has its chain of forward dependents, with the
    visited set cutting cycles, and the result is the one the selection
    loop picks among these chains: empty when no chain has a positive
    total of estimated hours, otherwise the first chain whose total no
    other chain exceeds. *)
Lemma critical_path_is_selected_chain (w : World) (project_id : string) (p : Project) :
  find_project w project_id = Some p ->
  (List.length (project_tasks p) < recursion_limit)%nat ->
  (forall t, In t (dict_values (project_tasks p)) -> D (task_estimated_hours t)) ->
  exists chains path,
    get_critical_path recursion_limit project_id w = (Ok path, w)
    /\ Forall2 (fun s c => chain_from p (task_id s) [] c) (start_tasks p) chains
    /\ selected chains path
    /\ (start_tasks p = [] -> path = []).
Proof.
  intros Hp Hroom Hest. unfold get_critical_path.
  rewrite (bind_ok _ _ _ _ _ (project_missing_found _ _ _ Hp)).
  rewrite (bind_ok _ _ _ _ _ (projects_at_found _ _ _ Hp)).
  fold (start_tasks p).
  destruct (sequence_map_ok
              (fun s => _get_task_chain recursion_limit p (task_id s) [])
              (fun s c => chain_from p (task_id s) [] c
                          /\ forall t, In t c -> In t (dict_values (project_tasks p)))
              (start_tasks p)) as (chains & Hseq & Hall).
  { intros s _. apply _get_task_chain_returns; [exact Hest|].
    pose proof (unvisited_le (project_tasks p) []) as Hle.
    unfold dict_values in Hle. rewrite length_map in Hle. lia. }
  apply Forall2_right in Hall as [Hall Hsub].
  destruct (start_tasks p) as [|s ss] eqn:Hs.
  - exists [], []. inversion Hall; subst. repeat split; trivial.
    left. split; [reflexivity|intros c []].
  - rewrite Hseq. exists chains, (longest_of chains). repeat split; trivial.
    + apply (longest_of_selected chains).
      intros c Hc. apply (chain_duration_in_D p); [exact Hest|exact (Hsub c Hc)].
    + discriminate.
Qed.

End Chains.

(** ** The two arithmetics and the concrete oracles *)

Lemma Qc_ltb_lt (a b : Qc) : Qc_ltb a b = true <-> (a < b)%Qc.
Proof.
  unfold Qc_ltb. rewrite Qclt_alt. destruct (a ?= b)%Qc; split; congruence.
Qed.

#[export] Instance exactQ_ExactAdd : ExactAdd exactQ.
Proof.
  split.
  - exact Qcplus_assoc.
  - exact Qcplus_comm.
  - exact Qcplus_0_l.
Qed.

#[export] Instance exactQ_OrderedDurations : OrderedDurations exactQ (fun _ => True).
Proof.
  split; cbn; unfold f_gtb; cbn; trivial.
  - intros a b c _ _ _. rewrite !Qc_ltb_lt. intros H1 H2. now apply (Qclt_trans _ b).
  - intros a b c _ _ _. rewrite !Qc_ltb_lt. intros H1 H2.
    apply (Qcle_lt_trans _ b); [|exact H1].
    apply Qcnot_lt_le. intros H. apply Qc_ltb_lt in H. congruence.
Qed.

(** *** binary64: non-negative values stay non-negative and are ordered *)

Section Rounding.
Variables prec emax : Z.

Lemma shr_1_nonneg mrs : 0 <= shr_m mrs -> 0 <= shr_m (shr_1 mrs).
Proof.
  destruct mrs as [m r s]. cbn. destruct m as [|[p|p|]|[p|p|]]; cbn; lia.
Qed.

Lemma iter_pos_invariant {A} (P : A -> Prop) (f : A -> A) :
  (forall x, P x -> P (f x)) -> forall n x, P x -> P (iter_pos f n x).
Proof.
  intros Hf. induction n as [n IH|n IH|]; intros x Hx; cbn; auto.
Qed.

Lemma shr_fexp_nonneg m e l : 0 <= m -> 0 <= shr_m (fst (shr_fexp prec emax m e l)).
Proof.
  intros Hm. unfold shr_fexp, shr.
  assert (H0 : 0 <= shr_m (shr_record_of_loc m l)) by (destruct l as [|[| |]]; exact Hm).
  destruct (fexp prec emax (Zdigits2 m + e) - e); cbn [fst]; trivial.
  apply (iter_pos_invariant (fun mrs => 0 <= shr_m mrs)); auto using shr_1_nonneg.
Qed.

Lemma round_nearest_even_nonneg m l : 0 <= m -> 0 <= round_nearest_even m l.
Proof.
  intros Hm. destruct l as [|[| |]]; cbn; try lia. destruct (Z.even m); lia.
Qed.

Lemma binary_round_aux_nonneg m e l :
  0 <= m -> b64_nonnegb (binary_round_aux prec emax false m e l) = true.
Proof.
  intros Hm. unfold binary_round_aux.
  pose proof (shr_fexp_nonneg m e l Hm) as H1.
  destruct (shr_fexp prec emax m e l) as [mrs' e']. cbn [fst] in H1.
  pose proof (shr_fexp_nonneg _ e' loc_Exact
                (round_nearest_even_nonneg _ (loc_of_shr_record mrs') H1)) as H2.
  destruct (shr_fexp prec emax _ e' loc_Exact) as [mrs'' e'']. cbn [fst] in H2.
  destruct (shr_m mrs'') as [|p|p]; [reflexivity| |lia].
  destruct (e'' <=? emax - prec); reflexivity.
Qed.

Lemma SFadd_nonneg x y :
  b64_nonnegb x = true -> b64_nonnegb y = true ->
  b64_nonnegb (SFadd prec emax x y) = true.
Proof.
  destruct x as [sx|sx| |sx mx ex], y as [sy|sy| |sy my ey]; cbn [b64_nonnegb SFadd];
    try discriminate; try (intros; assumption || reflexivity).
  - destruct sx, sy; intros; reflexivity.
  - destruct sx, sy; try discriminate; reflexivity.
  - destruct sx, sy; try discriminate. intros _ _.
    cbn [cond_Zopp Z.add binary_normalize]. unfold binary_round.
    destruct (shl_align _ _ _) as [mz ez]. apply binary_round_aux_nonneg. lia.
Qed.

End Rounding.

Lemma SFltb_nonneg x y :
  b64_nonnegb x = true -> b64_nonnegb y = true ->
  (SFltb x y = true <-> key_lt (b64_key x) (b64_key y)).
Proof.
  unfold SFltb.
  destruct x as [sx|sx| |sx mx ex], y as [sy|sy| |sy my ey]; cbn; try discriminate;
    try (destruct sx; try discriminate); try (destruct sy; try discriminate);
    cbn; intros _ _; try (split; [discriminate|lia]); try (split; [lia|reflexivity]).
  rewrite Pos.compare_cont_spec. cbn [Pos.switch_Eq].
  destruct (Z.compare_spec ex ey) as [->|H|H].
  - destruct (Pos.compare_spec mx my) as [->|H|H]; split; try discriminate; try lia; reflexivity.
  - split; [lia|reflexivity].
  - split; [discriminate|lia].
Qed.

Lemma key_lt_trans k1 k2 k3 : key_lt k1 k2 -> key_lt k2 k3 -> key_lt k1 k3.
Proof. destruct k1 as [[c1 e1] m1], k2 as [[c2 e2] m2], k3 as [[c3 e3] m3]. cbn. lia. Qed.

Lemma key_lt_cotrans k1 k2 k3 : key_lt k1 k2 -> ~ key_lt k1 k3 -> key_lt k3 k2.
Proof. destruct k1 as [[c1 e1] m1], k2 as [[c2 e2] m2], k3 as [[c3 e3] m3]. cbn. lia. Qed.

#[export] Instance binary64_OrderedDurations :
  OrderedDurations binary64 (fun x => b64_nonnegb x = true).
Proof.
  split; cbn; unfold f_gtb; cbn.
  - reflexivity.
  - apply SFadd_nonneg.
  - intros a b c Ha Hb Hc. rewrite !SFltb_nonneg by assumption. intros H1 H2.
    now apply (key_lt_trans _ (b64_key b)).
  - intros a b c Ha Hb Hc H1 H2. rewrite SFltb_nonneg in * by assumption.
    apply (key_lt_cotrans (b64_key b)); [exact H1|].
    intros H. apply (SFltb_nonneg b c Hb Hc) in H. congruence.
Qed.

Lemma demo_uuid4_inj i j : demo_uuid4 i = demo_uuid4 j -> i = j.
Proof.
  unfold demo_uuid4. intros H. injection H as H.
  apply Unsigned.to_uint_inj.
  apply (f_equal NilEmpty.uint_of_string) in H. rewrite !NilEmpty.usu in H. congruence.
Qed.


(** ** Where the claims fail on the code *)


(** [log_time(P, T1, -1)] returns, and leaves -1.0 in the task's
    actual_hours and in the project's spent_hours. *)
Lemma negative_hours_are_logged :
  f_ltb (f_of_int (-1)) f_zero = true
  /\ fst (log_time demo_clock "u0" "u1" (f_of_int (-1)) one_task_world) = Ok tt
  /\ option_map task_actual_hours
       (find_task (snd (log_time demo_clock "u0" "u1" (f_of_int (-1)) one_task_world))
          "u0" "u1")
     = Some (S754_finite true 4503599627370496 (-52))
  /\ option_map project_spent_hours
       (find_project (snd (log_time demo_clock "u0" "u1" (f_of_int (-1)) one_task_world))
          "u0")
     = Some (S754_finite true 4503599627370496 (-52)).
Proof. repeat split; vm_compute; reflexivity. Qed.

(** A task completed and then moved back to IN_PROGRESS keeps the
    completion_date of its completion. *)
Lemma downgraded_task_keeps_date :
  option_map (fun t => (task_status t, task_completion_date t))
    (find_task
       (run_updates demo_clock [("u0", "u1", COMPLETED); ("u0", "u1", IN_PROGRESS)]
          one_task_world) "u0" "u1")
  = Some (IN_PROGRESS, Some 6).
Proof. vm_compute. reflexivity. Qed.

(** C6. The code at the failing input.  With a single task A of 0
    estimated hours and no dependencies, A is a start task and the chain
    built from it is [[A]], the only chain and so the one with the
    greatest total; [get_critical_path] returns the empty sequence: the
    selection starts from [max_duration = 0] and replaces on a strictly
    greater duration only.  The same project with a task of 5 hours has
    the critical path [[T1]]. *)
Lemma zero_hour_chain_is_dropped :
  option_map
    (fun p => map (fun s => titles (_get_task_chain demo_recursion_limit p (task_id s) []))
                (start_tasks p))
    (find_project zero_hour_world "u0") = Some [Some ["A"]]
  /\ titles (fst (get_critical_path demo_recursion_limit "u0" zero_hour_world)) = Some []
  /\ titles (fst (get_critical_path demo_recursion_limit "u0" one_task_world))
     = Some ["T1"].
Proof. repeat split; vm_compute; reflexivity. Qed.

(** [create_project] with the empty name and [add_task_to_project] with
    the empty title return and store the project and the task. *)
Lemma empty_name_and_title_are_stored :
  option_map project_name (find_project empty_name_world "u0") = Some ""
  /\ List.length (projects (self empty_name_world)) = 1%nat
  /\ fst (add_task_to_project demo_uuid4 demo_clock "u0" "" "" MEDIUM
            (f_of_int 1) None None None None empty_name_world) = Ok "u1"
  /\ option_map task_title
       (find_task
          (snd (add_task_to_project demo_uuid4 demo_clock "u0" "" "" MEDIUM
                  (f_of_int 1) None None None None empty_name_world)) "u0" "u1")
     = Some "".
Proof. repeat split; vm_compute; reflexivity. Qed.

(** A task set to CANCELLED and then to COMPLETED completes its project:
    the code accepts any status after any status. *)
Lemma cancelled_task_can_be_completed :
  option_map task_status
    (find_task (run_updates demo_clock [("u0", "u1", CANCELLED)] one_task_world) "u0" "u1")
  = Some CANCELLED
  /\ option_map project_status
       (find_project
          (run_updates demo_clock [("u0", "u1", COMPLETED)]
             (run_updates demo_clock [("u0", "u1", CANCELLED)] one_task_world)) "u0")
     = Some PS_COMPLETED.
Proof. split; vm_compute; reflexivity. Qed.

(** Tasks A(2h), B(3h, dep A), C(5h, dep A): the critical path is [A, C]. *)
Example critical_path_A_C :
  titles (fst (get_critical_path demo_recursion_limit "u0" abc_world)) = Some ["A"; "C"].
Proof. vm_compute. reflexivity. Qed.

(** With room for a single call the same project raises
    [RecursionError]: the chain of A needs a nested call for B. *)
Example critical_path_without_room :
  match fst (get_critical_path 1 "u0" abc_world) with
  | Raise RecursionError => true
  | _ => false
  end = true.
Proof. vm_compute. reflexivity. Qed.

(** A dependency line of 1000 tasks, which [create_project] and 1000
    calls of [add_task_to_project] build, needs 1000 nested calls of
    [_get_task_chain]: with room for 994 of them [get_critical_path]
    raises [RecursionError]. *)
Example critical_path_of_a_long_line :
  match fst (get_critical_path demo_recursion_limit "u0"
               (run demo_uuid4 demo_clock (dependency_line 1000) init)) with
  | Raise RecursionError => true
  | _ => false
  end = true.
Proof. vm_compute. reflexivity. Qed.

(** The line of 994 tasks is the longest that fits: its critical path is
    the whole line. *)
Example critical_path_of_the_longest_line :
  option_map (@List.length string)
    (titles (fst (get_critical_path demo_recursion_limit "u0"
                    (run demo_uuid4 demo_clock (dependency_line 994) init))))
  = Some 994%nat
  /\ titles (fst (get_critical_path demo_recursion_limit "u0"
                    (run demo_uuid4 demo_clock (dependency_line 995) init)))
     = None.
Proof. split; vm_compute; reflexivity. Qed.

(** ** The theorems at concrete inputs *)

Lemma find_task_found {F : PyFloat} (w : World) pid tid p :
  find_project w pid = Some p -> find_task w pid tid = dict_get (project_tasks p) tid.
Proof. unfold find_task. now intros ->. Qed.

(** The task [tid] of the project [p] found in the concrete world [W]. *)
Ltac lookup_task W pid tid p E t Et :=
  let A := fresh "A" in
  assert (A : option_map task_id (find_task W pid tid) = Some tid)
    by (vm_compute; reflexivity);
  rewrite (find_task_found _ _ _ _ E) in A;
  destruct (dict_get (project_tasks p) tid) as [t|] eqn:Et; [clear A|discriminate A].



Lemma log_time_accepts_negative_hours_witness :
  exists p t p' t',
    f_ltb (f_of_int (-1)) (@f_zero binary64) = true
    /\ find_project one_task_world "u0" = Some p
    /\ dict_get (project_tasks p) "u1" = Some t
    /\ fst (log_time demo_clock "u0" "u1" (f_of_int (-1)) one_task_world) = Ok tt
    /\ find_project (snd (log_time demo_clock "u0" "u1" (f_of_int (-1)) one_task_world))
         "u0" = Some p'
    /\ dict_get (project_tasks p') "u1" = Some t'
    /\ project_spent_hours p' = f_add (project_spent_hours p) (f_of_int (-1))
    /\ task_actual_hours t' = f_add (task_actual_hours t) (f_of_int (-1)).
Proof.
  assert (Hneg : f_ltb (f_of_int (-1)) (@f_zero binary64) = true)
    by (vm_compute; reflexivity).
  lookup_project one_task_world "u0" p Hp.
  lookup_task one_task_world "u0" "u1" p Hp t Ht.
  destruct (log_time_accepts_negative_hours demo_clock one_task_world "u0" "u1"
              (f_of_int (-1)) p t Hneg Hp Ht) as (p' & t' & H).
  exists p, t, p', t'. split; [exact Hneg|]. split; [reflexivity|].
  split; [exact Ht|]. exact H.
Defined.

Lemma completion_date_of_completed_tasks_witness :
  (exists t,
     find_task
       (run demo_uuid4 demo_clock
          (one_task_project "T1" 5 ++ [UpdateTaskStatus "u0" "u1" COMPLETED])
          (@init binary64)) "u0" "u1" = Some t
     /\ task_status t = COMPLETED
     /\ task_completion_date t <> None)
  /\ (exists p t t',
        find_project one_task_world "u0" = Some p
        /\ dict_get (project_tasks p) "u1" = Some t
        /\ find_task (snd (update_task_status demo_clock "u0" "u1" COMPLETED one_task_world))
             "u0" "u1" = Some t'
        /\ task_status t' = COMPLETED
        /\ task_completion_date t'
           = if TaskStatus_eqb COMPLETED COMPLETED
                && negb (TaskStatus_eqb (task_status t) COMPLETED)
             then Some (demo_clock (S (clock_calls one_task_world)))
             else task_completion_date t).
Proof.
  split.
  - assert (A : option_map task_status
                  (find_task
                     (run demo_uuid4 demo_clock
                        (one_task_project "T1" 5 ++ [UpdateTaskStatus "u0" "u1" COMPLETED])
                        (@init binary64)) "u0" "u1") = Some COMPLETED)
      by (vm_compute; reflexivity).
    destruct (find_task _ "u0" "u1") as [t|] eqn:Ht; [|discriminate A].
    injection A as A. exists t. split; [reflexivity|]. split; [exact A|].
    exact (proj1 (completion_date_of_completed_tasks demo_uuid4 demo_clock)
             _ "u0" "u1" t Ht A).
  - lookup_project one_task_world "u0" p Hp.
    lookup_task one_task_world "u0" "u1" p Hp t Ht.
    destruct (proj2 (completion_date_of_completed_tasks demo_uuid4 demo_clock)
                one_task_world "u0" "u1" COMPLETED p t Hp Ht) as (t' & H).
    exists p, t, t'. split; [reflexivity|]. split; [exact Ht|]. exact H.
Defined.

Lemma available_tasks_exactly_witness :
  exists p available,
    find_project one_task_world "u0" = Some p
    /\ get_available_tasks "u0" one_task_world = (Ok available, one_task_world)
    /\ available = filter (is_available (project_tasks p)) (dict_values (project_tasks p)).
Proof.
  lookup_project one_task_world "u0" p Hp.
  destruct (available_tasks_exactly one_task_world "u0" p Hp) as (available & H1 & H2 & _).
  exists p, available. auto.
Defined.

Lemma critical_path_is_selected_chain_witness :
  exists (p : @Project binary64) chains path,
    find_project abc_world "u0" = Some p
    /\ (forall t : @ProjectTask binary64,
          In t (dict_values (project_tasks p)) ->
          b64_nonnegb (task_estimated_hours t) = true)
    /\ get_critical_path demo_recursion_limit "u0" abc_world = (Ok path, abc_world)
    /\ Forall2 (fun s c => chain_from p (task_id s) [] c) (start_tasks p) chains
    /\ selected chains path.
Proof.
  assert (A : option_map
                (fun p : @Project binary64 =>
                   forallb (fun t : @ProjectTask binary64 =>
                              b64_nonnegb (task_estimated_hours t))
                     (dict_values (project_tasks p)))
                (find_project abc_world "u0") = Some true) by (vm_compute; reflexivity).
  assert (B : option_map (fun p : @Project binary64 => List.length (project_tasks p))
                (find_project abc_world "u0") = Some 3%nat) by (vm_compute; reflexivity).
  lookup_project abc_world "u0" p Hp.
  injection A as A. pose proof (proj1 (forallb_forall _ _) A) as Hest.
  injection B as B.
  assert (Hroom : (List.length (project_tasks p) < demo_recursion_limit)%nat)
    by (rewrite B; unfold demo_recursion_limit; lia).
  destruct (critical_path_is_selected_chain demo_recursion_limit abc_world "u0" p Hp
              Hroom Hest)
    as (chains & path & H1 & H2 & H3 & _).
  exists p, chains, path. split; [reflexivity|]. split; [exact Hest|].
  split; [exact H1|]. split; [exact H2|exact H3].
Defined.

Lemma repeated_completion_keeps_date_witness :
  exists t,
    find_task one_task_world "u0" "u1" = Some t
    /\ task_status t <> COMPLETED
    /\ option_map task_completion_date
         (find_task
            (complete_again demo_clock "u0" "u1" 3
               (snd (update_task_status demo_clock "u0" "u1" COMPLETED one_task_world)))
            "u0" "u1")
       = Some (Some (demo_clock (S (clock_calls one_task_world)))).
Proof.
  assert (A : option_map task_status (find_task one_task_world "u0" "u1")
              = Some NOT_STARTED) by (vm_compute; reflexivity).
  destruct (find_task one_task_world "u0" "u1") as [t|] eqn:Ht; [|discriminate A].
  injection A as A.
  assert (Hs : task_status t <> COMPLETED) by (rewrite A; discriminate).
  exists t. split; [reflexivity|]. split; [exact Hs|].
  exact (proj2 (repeated_completion_keeps_date demo_clock one_task_world "u0" "u1")
           t Ht Hs 3%nat).
Defined.

Lemma constructors_accept_any_name_witness :
  (exists p id t,
     find_project empty_name_world "u0" = Some p
     /\ find_task
          (add_effect demo_uuid4 demo_clock empty_name_world "u0" "" "" MEDIUM
             (f_of_int 1) None None None None p) "u0" id = Some t
     /\ task_title t = "")
  /\ add_task_to_project demo_uuid4 demo_clock "ghost" "" "" MEDIUM (f_of_int 1)
       None None None None (@init binary64)
     = (Raise (project_not_found "ghost"), init).
Proof.
  split.
  - lookup_project empty_name_world "u0" p Hp.
    destruct (proj1 (proj2 (constructors_accept_any_name demo_uuid4 demo_clock))
                empty_name_world "u0" "" "" MEDIUM (f_of_int 1) None None None None p Hp)
      as (id & t & _ & Ht & Hti & _).
    exists p, id, t. auto.
  - apply (proj2 (proj2 (constructors_accept_any_name demo_uuid4 demo_clock))).
    reflexivity.
Defined.

Lemma cancelled_task_blocks_cascade_witness :
  exists p tc p',
    find_project cancelled_A_world "u0" = Some p
    /\ dict_get (project_tasks p) "u1" = Some tc
    /\ task_status tc = CANCELLED
    /\ find_project
         (run_updates demo_clock [("u0", "u2", COMPLETED); ("u0", "u3", COMPLETED)]
            cancelled_A_world) "u0" = Some p'
    /\ project_status p' = project_status p
    /\ project_completion_date p' = project_completion_date p.
Proof.
  lookup_project cancelled_A_world "u0" p Hp.
  assert (A : option_map task_status (find_task cancelled_A_world "u0" "u1")
              = Some CANCELLED) by (vm_compute; reflexivity).
  rewrite (find_task_found _ _ _ _ Hp) in A.
  destruct (dict_get (project_tasks p) "u1") as [tc|] eqn:Htc; [|discriminate A].
  injection A as A.
  assert (Hus : forall u : string * string * TaskStatus,
            In u [("u0", "u2", COMPLETED); ("u0", "u3", COMPLETED)] ->
            fst (fst u) = "u0" -> snd (fst u) = "u1" -> snd u = CANCELLED).
  { intros u [<-|[<-|[]]] _ Hc; discriminate Hc. }
  destruct (cancelled_task_blocks_cascade demo_clock
              [("u0", "u2", COMPLETED); ("u0", "u3", COMPLETED)]
              cancelled_A_world "u0" "u1" p tc Hp Htc A Hus) as (p' & H1 & H2 & H3 & _).
  exists p, tc, p'. split; [reflexivity|]. split; [exact Htc|]. split; [exact A|].
  split; [exact H1|]. split; [exact H2|exact H3].
Defined.

(** * Further properties of the code *)

(** ** Keys and identifiers *)

Section KeyFacts.
Context {V : Type}.
Implicit Types (d : dict V) (k : string) (v : V).

Lemma dict_get_none_not_in_keys d k : dict_get d k = None -> ~ In k (dict_keys d).
Proof.
  induction d as [|[k0 v0] d IH]; cbn; [tauto|].
  destruct (String.eqb_spec k k0); [discriminate|]. intros H [E|Hin]; [congruence|].
  now apply IH.
Qed.

Lemma dict_keys_set d k v :
  dict_keys (dict_set d k v)
  = if dict_mem d k then dict_keys d else (dict_keys d ++ [k])%list.
Proof.
  unfold dict_mem. destruct (dict_get d k) as [v0|] eqn:E.
  - now apply keys_dict_set_existing with v0.
  - rewrite dict_set_fresh by assumption. unfold dict_keys. now rewrite map_app.
Qed.

Lemma NoDup_dict_set d k v : NoDup (dict_keys d) -> NoDup (dict_keys (dict_set d k v)).
Proof.
  intros H. rewrite dict_keys_set. unfold dict_mem.
  destruct (dict_get d k) eqn:E; [exact H|].
  apply NoDup_app; [exact H|repeat constructor; intros []|].
  intros x Hx [<-|[]]. now apply dict_get_none_not_in_keys in E.
Qed.

Lemma In_NoDup_dict_get d k v : NoDup (dict_keys d) -> In (k, v) d -> dict_get d k = Some v.
Proof.
  induction d as [|[k0 v0] d IH]; cbn; [intros _ []|]. intros Hnd [E|Hin].
  - injection E as -> ->. now rewrite String.eqb_refl.
  - inversion Hnd as [|? ? Hk Hnd']; subst. destruct (String.eqb_spec k k0) as [->|_].
    + exfalso. apply Hk. now apply (in_map fst) in Hin.
    + now apply IH.
Qed.

Lemma In_values_dict_get d v : In v (dict_values d) -> exists k, In (k, v) d.
Proof.
  unfold dict_values. rewrite in_map_iff. intros [[k v'] [E H]]. cbn in E. subst.
  now exists k.
Qed.

End KeyFacts.

Section Keyed.
Context {F : PyFloat}.
Variable uuid4 : nat -> string.
Variable clock : nat -> datetime.

Lemma updated_task_static c st (t : ProjectTask) :
  task_static (updated_task clock c st t) = task_static t.
Proof. unfold updated_task. now destruct (entering_completed st t). Qed.

Lemma task_static_id (t t' : ProjectTask) : task_static t' = task_static t -> task_id t' = task_id t.
Proof. unfold task_static. congruence. Qed.

Lemma tasks_keyed_set (p : Project) tid t :
  tasks_keyed p -> task_id t = tid ->
  tasks_keyed (project_with_tasks (dict_set (project_tasks p) tid t) p).
Proof.
  intros [Hnd Hid] Ht. split; cbn [project_tasks project_with_tasks].
  - now apply NoDup_dict_set.
  - intros k t' Hin. apply In_dict_set in Hin as [[-> ->]|Hin]; auto.
Qed.

Lemma well_keyed_with_project (w : World) pid p :
  well_keyed w -> project_id p = pid -> tasks_keyed p -> well_keyed (with_project w pid p).
Proof.
  intros [Hnd Hid] Hp Hk. split; cbn.
  - now apply NoDup_dict_set.
  - intros k q Hin. apply In_dict_set in Hin as [[-> ->]|Hin]; auto.
Qed.

Lemma well_keyed_find (w : World) pid p :
  well_keyed w -> find_project w pid = Some p -> project_id p = pid /\ tasks_keyed p.
Proof. intros [_ Hid] Hp. apply Hid. now apply find_project_In. Qed.

Lemma tasks_keyed_get (p : Project) tid t :
  tasks_keyed p -> dict_get (project_tasks p) tid = Some t -> task_id t = tid.
Proof. intros [_ Hid] Ht. apply Hid. now apply dict_get_In. Qed.

Lemma well_keyed_step w w' : well_keyed w -> step uuid4 clock w w' -> well_keyed w'.
Proof.
  intros Hw Hstep.
  destruct Hstep as [|n d o pr sd dd b|pid ti d pr e deps ags dd tg p Hp
                    |pid tid st p t Hp Ht|pid tid h p t Hp Ht].
  - exact Hw.
  - apply well_keyed_with_project; [exact Hw|reflexivity|].
    split; [constructor|intros k t []].
  - destruct (well_keyed_find _ _ _ Hw Hp) as [Hid Hk].
    apply well_keyed_with_project; [exact Hw|exact Hid|].
    now apply (tasks_keyed_set p).
  - destruct (well_keyed_find _ _ _ Hw Hp) as [Hid Hk].
    assert (Hk' : tasks_keyed
                    (project_with_tasks
                       (dict_set (project_tasks p) tid
                          (updated_task clock (clock_calls w) st t)) p)).
    { apply tasks_keyed_set; [exact Hk|].
      rewrite (task_static_id _ _ (updated_task_static _ _ _)).
      now apply (tasks_keyed_get p). }
    unfold update_effect. destruct (all_completed _);
      (apply well_keyed_with_project; [exact Hw|exact Hid|exact Hk']).
  - destruct (well_keyed_find _ _ _ Hw Hp) as [Hid Hk].
    apply well_keyed_with_project; [exact Hw|exact Hid|].
    apply (tasks_keyed_set p); [exact Hk|]. cbn. now apply (tasks_keyed_get p).
Qed.

Lemma well_keyed_init : well_keyed (@init F).
Proof. split; [constructor|intros k p []]. Qed.

Lemma well_keyed_reachable (ops : list Op) : well_keyed (run uuid4 clock ops init).
Proof.
  apply (run_invariant uuid4 clock well_keyed);
    [apply well_keyed_step|apply well_keyed_init].
Qed.

(** X1. Every world reached from the empty manager files each project and
    each task under its own id, and no key occurs twice. *)
Theorem reachable_worlds_are_well_keyed (ops : list Op) :
  well_keyed (run uuid4 clock ops init).
Proof. apply well_keyed_reachable. Qed.

End Keyed.

(** ** The life cycle of a project *)

Section Lifecycle.
Context {F : PyFloat}.
Variable uuid4 : nat -> string.
Variable clock : nat -> datetime.

Lemma lifecycle_step w w' :
  lifecycle_invariant w -> step uuid4 clock w w' -> lifecycle_invariant w'.
Proof.
  intros [Hra Hw] Hstep.
  destruct Hstep as [|n d o pr sd dd b|pid ti d pr e deps ags dd tg p Hp
                    |pid tid st p t Hp Ht|pid tid h p t Hp Ht].
  - now split.
  - split; [exact Hra|]. intros pid' p' Hin.
    apply In_with_project in Hin as [[-> ->]|Hin]; [|eauto]. left. now split.
  - split; [exact Hra|]. intros pid' p' Hin.
    apply In_with_project in Hin as [[-> ->]|Hin]; [|eauto].
    destruct (Hw _ _ (find_project_In _ _ _ Hp)) as [[Hs Hd]|(Hs & Hd & _)].
    + left. now split.
    + right. split; [exact Hs|]. split; [exact Hd|]. apply dict_set_not_nil.
  - unfold update_effect. destruct (all_completed _).
    + split; [exact Hra|]. intros pid' p' Hin.
      apply In_with_project in Hin as [[-> ->]|Hin]; [|eauto].
      right. split; [reflexivity|]. split; [discriminate|]. apply dict_set_not_nil.
    + split; [exact Hra|]. intros pid' p' Hin.
      apply In_with_project in Hin as [[-> ->]|Hin]; [|eauto].
      destruct (Hw _ _ (find_project_In _ _ _ Hp)) as [[Hs Hd]|(Hs & Hd & _)].
      * left. now split.
      * right. split; [exact Hs|]. split; [exact Hd|]. apply dict_set_not_nil.
  - split; [exact Hra|]. intros pid' p' Hin.
    apply In_with_project in Hin as [[-> ->]|Hin]; [|eauto].
    destruct (Hw _ _ (find_project_In _ _ _ Hp)) as [[Hs Hd]|(Hs & Hd & _)].
    + left. now split.
    + right. split; [exact Hs|]. split; [exact Hd|]. apply dict_set_not_nil.
Qed.

Lemma lifecycle_reachable ops : lifecycle_invariant (run uuid4 clock ops init).
Proof.
  apply (run_invariant uuid4 clock lifecycle_invariant).
  - apply lifecycle_step.
  - split; [reflexivity|intros ? ? []].
Qed.

(** X2. In every world reached from the empty manager a project is PLANNING
    or COMPLETED (no operation assigns ACTIVE, ON_HOLD or CANCELLED), it
    has a completion_date exactly when it is COMPLETED, and a COMPLETED
    project has at least one task. *)
Theorem project_status_is_planning_or_completed (ops : list Op) (project_id : string)
  (p : Project) :
  find_project (run uuid4 clock ops init) project_id = Some p ->
  (project_status p = PLANNING \/ project_status p = PS_COMPLETED)
  /\ (project_completion_date p <> None <-> project_status p = PS_COMPLETED)
  /\ (project_status p = PS_COMPLETED -> project_tasks p <> []).
Proof.
  intros Hp. destruct (lifecycle_reachable ops) as [_ H].
  destruct (H _ _ (find_project_In _ _ _ Hp)) as [[Hs Hd]|(Hs & Hd & Hne)];
    rewrite Hs.
  - split; [now left|]. split; [|discriminate]. rewrite Hd. split; [congruence|discriminate].
  - split; [now right|]. split; [tauto|auto].
Qed.

(** X3. No operation appends to [resource_allocations]: the list is empty in
    every world reached from the empty manager. *)
Theorem resource_allocations_stay_empty (ops : list Op) :
  resource_allocations (self (run uuid4 clock ops init)) = [].
Proof. apply lifecycle_reachable. Qed.

End Lifecycle.

(** ** What no operation removes or rewrites *)

Section Persistence.
Context {F : PyFloat}.
Variable uuid4 : nat -> string.
Variable clock : nat -> datetime.

Lemma keys_issued_later (w w' : World) :
  (uuid_calls w <= uuid_calls w')%nat ->
  (forall k, In k (dict_keys (projects (self w'))) ->
     In k (dict_keys (projects (self w))) \/ issued uuid4 w' k) ->
  (forall pid p', In (pid, p') (projects (self w')) ->
     forall k, In k (dict_keys (project_tasks p')) ->
       issued uuid4 w' k
       \/ exists p, In (pid, p) (projects (self w)) /\ In k (dict_keys (project_tasks p))) ->
  keys_issued uuid4 w -> keys_issued uuid4 w'.
Proof.
  intros Hle Hps Hts [H1 H2]. split.
  - intros k Hk. destruct (Hps k Hk) as [Hold|Hnew]; [|exact Hnew].
    eapply issued_next; [exact Hle|auto].
  - intros pid p' Hin k Hk. destruct (Hts pid p' Hin k Hk) as [Hnew|(p & Hp & Hkp)];
      [exact Hnew|]. eapply issued_next; [exact Hle|eauto].
Qed.

Lemma keys_with_project (w : World) pid p k :
  In k (dict_keys (projects (self (with_project w pid p)))) ->
  In k (dict_keys (projects (self w))) \/ k = pid.
Proof.
  unfold with_project. cbn [self projects]. rewrite dict_keys_set.
  destruct (dict_mem _ _); [now left|].
  intros H. apply in_app_or in H as [H|[<-|[]]]; auto.
Qed.

Lemma task_keys_set (p : Project) tid (t : ProjectTask) k :
  In k (dict_keys (dict_set (project_tasks p) tid t)) ->
  In k (dict_keys (project_tasks p)) \/ k = tid.
Proof.
  rewrite dict_keys_set. destruct (dict_mem _ _); [now left|].
  intros H. apply in_app_or in H as [H|[<-|[]]]; auto.
Qed.

Lemma issued_now (w w' : World) :
  (uuid_calls w < uuid_calls w')%nat -> issued uuid4 w' (uuid4 (uuid_calls w)).
Proof. intros H. now exists (uuid_calls w). Qed.

Lemma keys_issued_step w w' :
  keys_issued uuid4 w -> step uuid4 clock w w' -> keys_issued uuid4 w'.
Proof.
  intros Hw Hstep.
  destruct Hstep as [|n d o pr sd dd b|pid ti d pr e deps ags dd tg p Hp
                    |pid tid st p t Hp Ht|pid tid h p t Hp Ht].
  - exact Hw.
  - apply (keys_issued_later w); [cbn; lia| | |exact Hw].
    + intros k Hk. apply keys_with_project in Hk as [Hk| ->]; [now left|right].
      apply issued_now. cbn. lia.
    + intros pid' p' Hin k Hk. apply In_with_project in Hin as [[-> ->]|Hin];
        [destruct Hk|]. right. now exists p'.
  - apply (keys_issued_later w); [cbn; lia| | |exact Hw].
    + intros k Hk. apply keys_with_project in Hk as [Hk| ->]; [now left|left].
      apply find_project_In in Hp. now apply (in_map fst) in Hp.
    + intros pid' p' Hin k Hk. apply In_with_project in Hin as [[-> ->]|Hin].
      * cbn in Hk. apply task_keys_set in Hk as [Hk| ->].
        -- right. exists p. split; [now apply find_project_In|exact Hk].
        -- left. apply issued_now. cbn. lia.
      * right. now exists p'.
  - assert (Hkeys : dict_keys (dict_set (project_tasks p) tid
                                 (updated_task clock (clock_calls w) st t))
                    = dict_keys (project_tasks p))
      by now apply keys_dict_set_existing with t.
    unfold update_effect. destruct (all_completed _).
    + apply (keys_issued_later w); [cbn; lia| | |exact Hw].
      * intros k Hk. apply keys_with_project in Hk as [Hk| ->]; [now left|left].
        apply find_project_In in Hp. now apply (in_map fst) in Hp.
      * intros pid' p' Hin k Hk. apply In_with_project in Hin as [[-> ->]|Hin].
        -- cbn [project_tasks project_with_tasks project_with_updated_at project_with_status
                   project_with_completion_date project_with_spent_hours] in Hk.
           rewrite Hkeys in Hk. right. exists p.
           split; [now apply find_project_In|exact Hk].
        -- right. now exists p'.
    + apply (keys_issued_later w); [cbn; lia| | |exact Hw].
      * intros k Hk. apply keys_with_project in Hk as [Hk| ->]; [now left|left].
        apply find_project_In in Hp. now apply (in_map fst) in Hp.
      * intros pid' p' Hin k Hk. apply In_with_project in Hin as [[-> ->]|Hin].
        -- cbn [project_tasks project_with_tasks project_with_updated_at project_with_status
                   project_with_completion_date project_with_spent_hours] in Hk.
           rewrite Hkeys in Hk. right. exists p.
           split; [now apply find_project_In|exact Hk].
        -- right. now exists p'.
  - apply (keys_issued_later w); [cbn; lia| | |exact Hw].
    + intros k Hk. apply keys_with_project in Hk as [Hk| ->]; [now left|left].
      apply find_project_In in Hp. now apply (in_map fst) in Hp.
    + intros pid' p' Hin k Hk. apply In_with_project in Hin as [[-> ->]|Hin].
      * cbn [project_tasks project_with_tasks project_with_updated_at project_with_status
                   project_with_completion_date project_with_spent_hours] in Hk.
           rewrite (keys_dict_set_existing _ _ t) in Hk by assumption.
        right. exists p. split; [now apply find_project_In|exact Hk].
      * right. now exists p'.
Qed.

Lemma keys_issued_init : keys_issued uuid4 (@init F).
Proof. split; [intros k []|intros pid p []]. Qed.

Lemma keys_issued_run ops w : keys_issued uuid4 w -> keys_issued uuid4 (run uuid4 clock ops w).
Proof. apply (run_invariant uuid4 clock (keys_issued uuid4)). apply keys_issued_step. Qed.

Lemma project_persists_refl (p : Project) : project_persists p p.
Proof. split; [reflexivity|]. split; [auto|]. intros tid t Ht. now exists t. Qed.

Lemma project_persists_trans (p q r : Project) :
  project_persists p q -> project_persists q r -> project_persists p r.
Proof.
  intros (H1 & H2 & H3) (K1 & K2 & K3). split; [congruence|]. split; [auto|].
  intros tid t Ht. destruct (H3 _ _ Ht) as (t1 & Ht1 & Hs1).
  destruct (K3 _ _ Ht1) as (t2 & Ht2 & Hs2). exists t2. split; [exact Ht2|congruence].
Qed.

Hypothesis uuid4_inj : forall i j, uuid4 i = uuid4 j -> i = j.

Lemma issued_not_next w k : issued uuid4 w k -> k <> uuid4 (uuid_calls w).
Proof. intros (i & Hi & ->) E. apply uuid4_inj in E. lia. Qed.

(** One step keeps every project and every task, with the attributes
    that the constructors set. *)
Lemma step_keeps_project w w' pid p :
  keys_issued uuid4 w -> step uuid4 clock w w' ->
  find_project w pid = Some p ->
  exists p', find_project w' pid = Some p' /\ project_persists p p'.
Proof.
  intros [Hps Hts] Hstep Hp.
  assert (Hpid : pid <> uuid4 (uuid_calls w)).
  { apply issued_not_next. apply Hps. apply find_project_In in Hp.
    now apply (in_map fst) in Hp. }
  assert (Htid : forall tid t, dict_get (project_tasks p) tid = Some t ->
                               tid <> uuid4 (uuid_calls w)).
  { intros tid t Ht. apply issued_not_next. apply (Hts pid p); [now apply find_project_In|].
    eapply dict_get_in_keys; eassumption. }
  destruct Hstep as [|n d o pr sd dd b|pid0 ti d pr e deps ags dd tg p0 Hp0
                    |pid0 tid0 st p0 t0 Hp0 Ht0|pid0 tid0 h p0 t0 Hp0 Ht0].
  - exists p. split; [exact Hp|apply project_persists_refl].
  - exists p. split; [|apply project_persists_refl].
    unfold create_effect. now rewrite find_with_project_other by congruence.
  - unfold add_effect. destruct (String.eqb_spec pid0 pid) as [->|Hne].
    + assert (p0 = p) as -> by congruence.
      rewrite find_with_project_same. eexists. split; [reflexivity|].
      split; [reflexivity|]. split; [auto|]. intros tid t Ht. exists t.
      split; [|reflexivity]. cbn [project_tasks project_with_tasks project_with_updated_at].
      rewrite dict_get_set_other; [exact Ht|]. intros E. now apply (Htid tid t).
    + exists p. split; [|apply project_persists_refl].
      now rewrite find_with_project_other by congruence.
  - destruct (String.eqb_spec pid0 pid) as [->|Hne].
    + assert (p0 = p) as -> by congruence.
      assert (Htasks : forall tid t,
                dict_get (project_tasks p) tid = Some t ->
                exists t',
                  dict_get (dict_set (project_tasks p) tid0
                              (updated_task clock (clock_calls w) st t0)) tid = Some t'
                  /\ task_static t' = task_static t).
      { intros tid t Ht. destruct (String.eqb_spec tid0 tid) as [->|Hn].
        - rewrite dict_get_set_same. eexists. split; [reflexivity|].
          assert (t0 = t) as -> by congruence. apply updated_task_static.
        - rewrite dict_get_set_other by assumption. now exists t. }
      unfold update_effect. destruct (all_completed _); rewrite find_with_project_same;
        (eexists; split; [reflexivity|]); (split; [reflexivity|]); (split; [|exact Htasks]);
        cbn; auto.
    + exists p. split; [|apply project_persists_refl].
      unfold update_effect. destruct (all_completed _);
        now rewrite find_with_project_other by congruence.
  - unfold log_effect. destruct (String.eqb_spec pid0 pid) as [->|Hne].
    + assert (p0 = p) as -> by congruence.
      rewrite find_with_project_same. eexists. split; [reflexivity|].
      split; [reflexivity|]. split; [auto|]. intros tid t Ht.
      cbn [project_tasks project_with_tasks project_with_updated_at
             project_with_spent_hours].
      destruct (String.eqb_spec tid0 tid) as [->|Hn].
      * rewrite dict_get_set_same. eexists. split; [reflexivity|].
        assert (t0 = t) as -> by congruence. reflexivity.
      * rewrite dict_get_set_other by assumption. now exists t.
    + exists p. split; [|apply project_persists_refl].
      now rewrite find_with_project_other by congruence.
Qed.

Lemma run_keeps_project ops : forall w pid p,
  keys_issued uuid4 w -> find_project w pid = Some p ->
  exists p', find_project (run uuid4 clock ops w) pid = Some p' /\ project_persists p p'.
Proof.
  induction ops as [|op ops IH]; intros w pid p Hw Hp.
  - exists p. split; [exact Hp|apply project_persists_refl].
  - cbn [run fold_left].
    destruct (step_keeps_project w (exec uuid4 clock op w) pid p Hw (exec_step _ _ _ _) Hp)
      as (p1 & Hp1 & H1).
    destruct (IH _ pid p1 (keys_issued_step _ _ Hw (exec_step _ _ _ _)) Hp1)
      as (p2 & Hp2 & H2).
    exists p2. split; [exact Hp2|]. now apply project_persists_trans with p1.
Qed.

(** X4. With collision-free identifiers, no sequence of operations removes a
    project or a task, or changes an attribute that the constructor set
    other than status, hours, completion_date and updated_at: a project
    keeps its id, name, description, priority, owner, start and due
    dates, budget, tags and created_at, and a task its id, title,
    description, priority, assigned agents, dependencies, estimated
    hours, start and due dates, tags, notes and created_at. *)
Theorem nothing_is_removed_or_rewritten (ops1 ops2 : list Op) (project_id : string)
  (p : Project) :
  find_project (run uuid4 clock ops1 init) project_id = Some p ->
  exists p',
    find_project (run uuid4 clock ops2 (run uuid4 clock ops1 init)) project_id = Some p'
    /\ project_static p' = project_static p
    /\ forall task_id t,
         dict_get (project_tasks p) task_id = Some t ->
         exists t', dict_get (project_tasks p') task_id = Some t'
                    /\ task_static t' = task_static t.
Proof.
  intros Hp.
  destruct (run_keeps_project ops2 _ _ p (keys_issued_run ops1 init keys_issued_init) Hp)
    as (p' & Hp' & Hs & _ & Ht).
  exists p'. auto.
Qed.

(** X5. With collision-free identifiers, a project that is COMPLETED stays
    COMPLETED under every further sequence of operations, also when a
    task of it is moved out of COMPLETED or a new task is added to it. *)
Theorem completed_project_stays_completed (ops1 ops2 : list Op) (project_id : string)
  (p : Project) :
  find_project (run uuid4 clock ops1 init) project_id = Some p ->
  project_status p = PS_COMPLETED ->
  exists p',
    find_project (run uuid4 clock ops2 (run uuid4 clock ops1 init)) project_id = Some p'
    /\ project_status p' = PS_COMPLETED.
Proof.
  intros Hp Hs.
  destruct (run_keeps_project ops2 _ _ p (keys_issued_run ops1 init keys_issued_init) Hp)
    as (p' & Hp' & _ & Hc & _).
  exists p'. auto.
Qed.

End Persistence.

(** ** What each mutating operation leaves alone *)

Section Frames.
Context {F : PyFloat}.
Variable uuid4 : nat -> string.
Variable clock : nat -> datetime.

(** X6. [add_task_to_project] does not look at the project's status: the
    status, the completion_date and the spent hours stay what they were
    and the new task is NOT_STARTED, so a COMPLETED project stays
    COMPLETED although one of its tasks is then not COMPLETED.  The other
    tasks and the other projects are untouched, and the project's
    updated_at is the third clock reading of the call. *)
Theorem add_task_keeps_project_status (w : World) (project_id title description : string)
  (priority : Priority) (estimated_hours : float)
  (dependencies assigned_agents : option (list string))
  (due_date : option datetime) (tags : option (list string)) (p : Project) :
  find_project w project_id = Some p ->
  let r := add_task_to_project uuid4 clock project_id title description priority
             estimated_hours dependencies assigned_agents due_date tags w in
  exists p' t',
    fst r = Ok (uuid4 (uuid_calls w))
    /\ find_project (snd r) project_id = Some p'
    /\ dict_get (project_tasks p') (uuid4 (uuid_calls w)) = Some t'
    /\ task_status t' = NOT_STARTED
    /\ project_status p' = project_status p
    /\ project_completion_date p' = project_completion_date p
    /\ project_spent_hours p' = project_spent_hours p
    /\ project_updated_at p' = clock (S (S (clock_calls w)))
    /\ (project_status p = PS_COMPLETED ->
        project_status p' = PS_COMPLETED /\ ~ every_task_completed p')
    /\ (forall tid, tid <> uuid4 (uuid_calls w) ->
          dict_get (project_tasks p') tid = dict_get (project_tasks p) tid)
    /\ (forall pid, pid <> project_id -> find_project (snd r) pid = find_project w pid).
Proof.
  intros Hp. cbv zeta.
  rewrite (add_task_to_project_found uuid4 clock _ _ _ _ _ _ _ _ _ _ _ Hp).
  cbn [fst snd]. unfold add_effect. rewrite find_with_project_same.
  eexists. eexists. split; [reflexivity|]. split; [reflexivity|].
  cbn [project_tasks project_with_tasks project_with_updated_at project_status
         project_completion_date project_spent_hours project_updated_at].
  split; [apply dict_get_set_same|]. split; [reflexivity|].
  split; [reflexivity|]. split; [reflexivity|]. split; [reflexivity|].
  split; [reflexivity|]. split; [|split].
  - intros Hs. split; [exact Hs|]. intros Hall.
    specialize (Hall _ (dict_get_In_values _ _ _ (dict_get_set_same _ _ _))).
    discriminate Hall.
  - intros tid Hne. apply dict_get_set_other. congruence.
  - intros pid Hne. now rewrite find_with_project_other by congruence.
Qed.

(** X7. A returning [update_task_status] assigns the task's status and
    updated_at (and its completion_date, as C4 states) and nothing else
    of the task: the hours and the constructor's attributes stay.  It
    leaves the other tasks, the order of the tasks, the project's hours
    and the project's updated_at as they were, and does not touch another
    project. *)
Theorem update_task_status_touches_one_task (w : World) (project_id task_id : string)
  (status : TaskStatus) (p : Project) (t : ProjectTask) :
  find_project w project_id = Some p ->
  dict_get (project_tasks p) task_id = Some t ->
  let w' := snd (update_task_status clock project_id task_id status w) in
  exists p' t',
    find_project w' project_id = Some p'
    /\ dict_get (project_tasks p') task_id = Some t'
    /\ task_status t' = status
    /\ task_updated_at t' = clock (clock_calls w)
    /\ task_static t' = task_static t
    /\ task_actual_hours t' = task_actual_hours t
    /\ (forall tid, tid <> task_id ->
          dict_get (project_tasks p') tid = dict_get (project_tasks p) tid)
    /\ dict_keys (project_tasks p') = dict_keys (project_tasks p)
    /\ project_static p' = project_static p
    /\ project_spent_hours p' = project_spent_hours p
    /\ project_updated_at p' = project_updated_at p
    /\ (forall pid, pid <> project_id -> find_project w' pid = find_project w pid)
    /\ uuid_calls w' = uuid_calls w.
Proof.
  intros Hp Ht. cbv zeta.
  rewrite (update_task_status_found clock _ _ _ _ _ _ Hp Ht). cbn [snd].
  assert (Hkeys : dict_keys (dict_set (project_tasks p) task_id
                               (updated_task clock (clock_calls w) status t))
                  = dict_keys (project_tasks p))
    by now apply keys_dict_set_existing with t.
  assert (Hupd : task_updated_at (updated_task clock (clock_calls w) status t)
                 = clock (clock_calls w)).
  { unfold updated_task. now destruct (entering_completed status t). }
  unfold update_effect. destruct (all_completed _); rewrite find_with_project_same;
    (eexists; eexists; split; [reflexivity|]);
    cbn [project_tasks project_with_tasks project_with_status
           project_with_completion_date project_spent_hours project_updated_at];
    (split; [apply dict_get_set_same|]);
    (split; [apply updated_task_status|]);
    (split; [exact Hupd|]);
    (split; [apply updated_task_static|]);
    (split; [apply updated_task_actual_hours|]);
    (split; [intros tid Hne; apply dict_get_set_other; congruence|]);
    (split; [exact Hkeys|]);
    (split; [reflexivity|]); (split; [reflexivity|]); (split; [reflexivity|]);
    (split; [intros pid Hne; now rewrite find_with_project_other by congruence|reflexivity]).
Qed.

(** X8. A returning [log_time] changes no status: the task keeps its status
    and its completion_date, the project its status and its
    completion_date, whatever the hours are, so logging time never
    completes a project.  Besides the two hour counters it assigns only
    the two updated_at stamps, to the first and to the second clock
    reading of the call; the other tasks and projects are untouched. *)
Theorem log_time_changes_no_status (w : World) (project_id task_id : string)
  (hours : float) (p : Project) (t : ProjectTask) :
  find_project w project_id = Some p ->
  dict_get (project_tasks p) task_id = Some t ->
  let w' := snd (log_time clock project_id task_id hours w) in
  exists p' t',
    find_project w' project_id = Some p'
    /\ dict_get (project_tasks p') task_id = Some t'
    /\ task_status t' = task_status t
    /\ task_completion_date t' = task_completion_date t
    /\ task_static t' = task_static t
    /\ task_updated_at t' = clock (clock_calls w)
    /\ project_status p' = project_status p
    /\ project_completion_date p' = project_completion_date p
    /\ project_static p' = project_static p
    /\ project_updated_at p' = clock (S (clock_calls w))
    /\ (forall tid, tid <> task_id ->
          dict_get (project_tasks p') tid = dict_get (project_tasks p) tid)
    /\ dict_keys (project_tasks p') = dict_keys (project_tasks p)
    /\ (forall pid, pid <> project_id -> find_project w' pid = find_project w pid)
    /\ uuid_calls w' = uuid_calls w.
Proof.
  intros Hp Ht. cbv zeta.
  rewrite (log_time_found clock _ _ _ _ _ _ Hp Ht). cbn [snd].
  unfold log_effect. rewrite find_with_project_same.
  eexists. eexists. split; [reflexivity|].
  cbn [project_tasks project_with_tasks project_with_updated_at project_with_spent_hours
         project_status project_completion_date project_updated_at].
  split; [apply dict_get_set_same|].
  split; [reflexivity|]. split; [reflexivity|]. split; [reflexivity|].
  split; [reflexivity|]. split; [reflexivity|]. split; [reflexivity|].
  split; [reflexivity|]. split; [reflexivity|].
  split; [intros tid Hne; apply dict_get_set_other; congruence|].
  split; [now apply keys_dict_set_existing with t|].
  split; [intros pid Hne; now rewrite find_with_project_other by congruence|reflexivity].
Qed.

End Frames.

(** ** Dependencies and availability *)

Section Dependencies.
Context {F : PyFloat}.
Variable clock : nat -> datetime.

Lemma collect_dependencies_In (tasks : dict ProjectTask) deps d :
  In d (collect_dependencies tasks deps)
  <-> exists dep_id, In dep_id deps /\ dict_get tasks dep_id = Some d.
Proof.
  induction deps as [|dep deps IH]; cbn [collect_dependencies].
  - split; [intros []|intros (x & [] & _)].
  - destruct (dict_get tasks dep) as [d0|] eqn:E.
    + cbn [In]. rewrite IH. split.
      * intros [<-|(x & Hx & Hd)]; [exists dep; split; [now left|exact E]|].
        exists x. split; [now right|exact Hd].
      * intros (x & [<-|Hx] & Hd); [left; congruence|right; now exists x].
    + rewrite IH. split.
      * intros (x & Hx & Hd). exists x. split; [now right|exact Hd].
      * intros (x & [<-|Hx] & Hd); [congruence|now exists x].
Qed.

Lemma collect_dependencies_ids (tasks : dict ProjectTask) deps :
  (forall k t, dict_get tasks k = Some t -> task_id t = k) ->
  map task_id (collect_dependencies tasks deps) = filter (dict_mem tasks) deps.
Proof.
  intros Hid. induction deps as [|dep deps IH]; [reflexivity|].
  cbn [collect_dependencies filter]. unfold dict_mem at 1.
  destruct (dict_get tasks dep) as [d0|] eqn:E; [|exact IH].
  cbn [map]. now rewrite IH, (Hid _ _ E).
Qed.

Lemma get_task_dependencies_found (w : World) pid tid p t :
  find_project w pid = Some p -> dict_get (project_tasks p) tid = Some t ->
  get_task_dependencies pid tid w
  = (Ok (collect_dependencies (project_tasks p) (task_dependencies t)), w).
Proof.
  intros Hp Ht. unfold get_task_dependencies.
  rewrite (bind_ok _ _ _ _ _ (project_missing_found _ _ _ Hp)).
  rewrite (bind_ok _ _ _ _ _ (task_missing_found _ _ _ _ _ Hp Ht)).
  rewrite (bind_ok _ _ _ _ _ (tasks_at_found _ _ _ _ _ Hp Ht)).
  now rewrite (bind_ok _ _ _ _ _ (projects_at_found _ _ _ Hp)).
Qed.

Lemma get_available_tasks_found (w : World) pid p :
  find_project w pid = Some p ->
  get_available_tasks pid w
  = (Ok (filter (is_available (project_tasks p)) (dict_values (project_tasks p))), w).
Proof.
  intros Hp. unfold get_available_tasks.
  rewrite (bind_ok _ _ _ _ _ (project_missing_found _ _ _ Hp)).
  rewrite (bind_ok _ _ _ _ _ (projects_at_found _ _ _ Hp)).
  apply available_loop_eq.
Qed.

(** X9. On an existing task [get_task_dependencies] returns, without changing
    anything, the tasks that the ids of the task's dependency list name
    in the same project: the direct dependencies only, in the order of
    the list, an id listed twice twice, an id that names no task of the
    project silently left out.  When the tasks are filed under their own
    ids, the ids of the returned tasks are the known ids of the list. *)
Theorem task_dependencies_are_the_known_ids (w : World) (pid tid : string)
  (p : Project) (t : ProjectTask) :
  find_project w pid = Some p ->
  dict_get (project_tasks p) tid = Some t ->
  exists deps,
    get_task_dependencies pid tid w = (Ok deps, w)
    /\ (forall d, In d deps
                  <-> exists dep_id, In dep_id (task_dependencies t)
                                     /\ dict_get (project_tasks p) dep_id = Some d)
    /\ (List.length deps <= List.length (task_dependencies t))%nat
    /\ (tasks_keyed p ->
        map task_id deps = filter (dict_mem (project_tasks p)) (task_dependencies t)).
Proof.
  intros Hp Ht. eexists. split; [exact (get_task_dependencies_found _ _ _ p t Hp Ht)|].
  split; [apply collect_dependencies_In|]. split.
  - induction (task_dependencies t) as [|dep deps IH]; cbn; [lia|].
    destruct (dict_get (project_tasks p) dep); cbn; lia.
  - intros Hk. apply collect_dependencies_ids. intros k d. now apply tasks_keyed_get.
Qed.

Lemma forallb_collect_dependencies (tasks : dict ProjectTask) deps :
  forallb (dependency_satisfied tasks) deps
  = forallb (fun d => TaskStatus_eqb (task_status d) COMPLETED)
      (collect_dependencies tasks deps).
Proof.
  induction deps as [|dep deps IH]; [reflexivity|].
  cbn [forallb collect_dependencies]. unfold dependency_satisfied at 1.
  destruct (dict_get tasks dep) as [d|]; cbn [forallb andb]; now rewrite IH.
Qed.

(** X10. The two views of the dependencies agree: a task of an existing
    project is among the tasks that [get_available_tasks] returns exactly
    when it is NOT_STARTED and every task that [get_task_dependencies]
    returns for it is COMPLETED. *)
Theorem available_iff_dependencies_completed (w : World) (pid tid : string)
  (p : Project) (t : ProjectTask) :
  find_project w pid = Some p ->
  dict_get (project_tasks p) tid = Some t ->
  exists deps available,
    get_task_dependencies pid tid w = (Ok deps, w)
    /\ get_available_tasks pid w = (Ok available, w)
    /\ (In t available
        <-> task_status t = NOT_STARTED
            /\ forall d, In d deps -> task_status d = COMPLETED).
Proof.
  intros Hp Ht. eexists. eexists.
  split; [exact (get_task_dependencies_found _ _ _ p t Hp Ht)|].
  split; [exact (get_available_tasks_found _ _ p Hp)|].
  rewrite filter_In. unfold is_available.
  rewrite andb_true_iff, TaskStatus_eqb_eq, forallb_collect_dependencies, forallb_forall.
  split.
  - intros (_ & Hs & Hd). split; [exact Hs|]. intros d Hin. now apply TaskStatus_eqb_eq, Hd.
  - intros (Hs & Hd). split; [eapply dict_get_In_values; eassumption|].
    split; [exact Hs|]. intros d Hin. now apply TaskStatus_eqb_eq, Hd.
Qed.

(** X11. Completing a task unlocks its dependents: after
    [update_task_status(p, d, COMPLETED)] returns, [get_available_tasks]
    returns every other NOT_STARTED task whose dependencies, apart from
    [d], were already satisfied (absent or COMPLETED); the completed task
    itself is not returned. *)
Theorem completing_a_dependency_unlocks (w : World) (pid d : string)
  (p : Project) (td : ProjectTask) :
  find_project w pid = Some p ->
  dict_get (project_tasks p) d = Some td ->
  let w' := snd (update_task_status clock pid d COMPLETED w) in
  exists available,
    get_available_tasks pid w' = (Ok available, w')
    /\ (forall tid t,
          tid <> d ->
          dict_get (project_tasks p) tid = Some t ->
          task_status t = NOT_STARTED ->
          (forall dep_id, In dep_id (task_dependencies t) ->
             dep_id = d \/ dependency_satisfied (project_tasks p) dep_id = true) ->
          In t available)
    /\ (forall t, In t available -> task_status t = NOT_STARTED)
    /\ exists td', find_task w' pid d = Some td' /\ ~ In td' available.
Proof.
  intros Hp Hd. cbv zeta.
  rewrite (update_task_status_found clock _ _ _ _ _ _ Hp Hd). cbn [snd].
  set (td' := updated_task clock (clock_calls w) COMPLETED td).
  set (tasks' := dict_set (project_tasks p) d td').
  assert (Hfind : exists p', find_project (update_effect clock w pid d COMPLETED p td) pid
                             = Some p' /\ project_tasks p' = tasks').
  { unfold update_effect. fold td'. fold tasks'.
    destruct (all_completed tasks'); rewrite find_with_project_same; eexists;
      (split; [reflexivity|reflexivity]). }
  destruct Hfind as (p' & Hp' & Htasks).
  eexists. split; [exact (get_available_tasks_found _ _ p' Hp')|]. rewrite Htasks.
  assert (Hs' : task_status td' = COMPLETED) by apply updated_task_status.
  split; [|split].
  - intros tid t Hne Ht Hs Hdeps. apply filter_In. split.
    + apply dict_get_In_values with tid. unfold tasks'.
      now rewrite dict_get_set_other by congruence.
    + unfold is_available. apply andb_true_iff. split; [now apply TaskStatus_eqb_eq|].
      apply forallb_forall. intros dep Hin. unfold dependency_satisfied, tasks'.
      destruct (String.eqb_spec d dep) as [<-|Hn].
      * rewrite dict_get_set_same. now apply TaskStatus_eqb_eq.
      * rewrite dict_get_set_other by assumption.
        destruct (Hdeps dep Hin) as [->|Hsat]; [congruence|exact Hsat].
  - intros t Hin. apply filter_In in Hin as [_ Hav]. unfold is_available in Hav.
    apply andb_true_iff in Hav as [Hs _]. now apply TaskStatus_eqb_eq.
  - exists td'. split.
    + rewrite (find_task_found _ _ _ _ Hp'), Htasks. apply dict_get_set_same.
    + intros Hin. apply filter_In in Hin as [_ Hav]. unfold is_available in Hav.
      rewrite Hs' in Hav. discriminate Hav.
Qed.

End Dependencies.

(** ** Project metrics *)

Section Metrics.
Context {F : PyFloat}.
Variable clock : nat -> datetime.

Lemma only_clock_read_refl (w : World) : only_clock_read w w.
Proof. repeat split. lia. Qed.

Lemma only_clock_read_trans (w1 w2 w3 : World) :
  only_clock_read w1 w2 -> only_clock_read w2 w3 -> only_clock_read w1 w3.
Proof. intros (A1 & A2 & A3) (B1 & B2 & B3). repeat split; try congruence. lia. Qed.

Lemma only_clock_read_tick (w : World) : only_clock_read w (tick w).
Proof. repeat split. cbn. lia. Qed.

Lemma only_clock_read_find (w w' : World) pid :
  only_clock_read w w' -> find_project w' pid = find_project w pid.
Proof. intros (H & _). unfold find_project. now rewrite H. Qed.

Lemma count_status_cons s (t : ProjectTask) l :
  count_status s (t :: l)
  = (if TaskStatus_eqb (task_status t) s then 1 else 0) + count_status s l.
Proof.
  unfold count_status. cbn [filter]. destruct (TaskStatus_eqb (task_status t) s);
    cbn [List.length]; lia.
Qed.

Lemma count_status_bounds s (l : list ProjectTask) :
  0 <= count_status s l <= Z.of_nat (List.length l).
Proof.
  unfold count_status. pose proof (filter_length_le (fun t => TaskStatus_eqb (task_status t) s) l).
  lia.
Qed.

Lemma count_status_disjoint s1 s2 (l : list ProjectTask) :
  s1 <> s2 -> count_status s1 l + count_status s2 l <= Z.of_nat (List.length l).
Proof.
  intros Hne. induction l as [|t l IH]; [cbn; lia|].
  rewrite !count_status_cons. cbn [List.length].
  destruct (TaskStatus_eqb (task_status t) s1) eqn:E1,
           (TaskStatus_eqb (task_status t) s2) eqn:E2; try lia.
  apply TaskStatus_eqb_eq in E1, E2. congruence.
Qed.

Lemma count_overdue_returns (tasks : list ProjectTask) : forall w,
  exists n w',
    count_overdue clock tasks w = (Ok n, w') /\ only_clock_read w w'
    /\ 0 <= n /\ n + count_status COMPLETED tasks <= Z.of_nat (List.length tasks).
Proof.
  induction tasks as [|t tasks IH]; intros w.
  - exists 0, w. split; [reflexivity|]. split; [apply only_clock_read_refl|]. cbn. lia.
  - cbn [count_overdue]. rewrite count_status_cons. cbn [List.length].
    destruct (task_due_date t) as [due|].
    + erewrite bind_ok; [|erewrite bind_ok; [|apply datetime_now_eq]; reflexivity].
      destruct (IH (tick w)) as (n & w' & E & Hr & H0 & Hle).
      rewrite (bind_ok _ _ _ _ _ E). unfold ret.
      eexists. exists w'. split; [reflexivity|].
      split; [eapply only_clock_read_trans; [apply only_clock_read_tick|exact Hr]|].
      destruct (TaskStatus_eqb (task_status t) COMPLETED);
        destruct (due <? clock (clock_calls w)); cbn [andb negb]; lia.
    + erewrite bind_ok; [|reflexivity].
      destruct (IH w) as (n & w' & E & Hr & H0 & Hle).
      rewrite (bind_ok _ _ _ _ _ E). unfold ret.
      exists n, w'. split; [reflexivity|]. split; [exact Hr|].
      destruct (TaskStatus_eqb (task_status t) COMPLETED); lia.
Qed.

Lemma _calculate_expected_progress_returns (p : Project) (w : World) :
  exists x w', _calculate_expected_progress clock p w = (Ok x, w') /\ only_clock_read w w'.
Proof.
  unfold _calculate_expected_progress.
  destruct (project_start_date p) as [sd|], (project_due_date p) as [dd|];
    try (eexists; exists w; split; [reflexivity|apply only_clock_read_refl]).
  rewrite (bind_ok _ _ _ _ _ (datetime_now_eq _ _)).
  destruct (f_leb _ _); eexists; exists (tick w);
    (split; [reflexivity|apply only_clock_read_tick]).
Qed.

Lemma get_project_metrics_found (w : World) pid p :
  find_project w pid = Some p ->
  exists m w',
    get_project_metrics clock pid w = (Ok m, w') /\ only_clock_read w w'
    /\ pm_project_id m = pid
    /\ tasks_total m = Z.of_nat (List.length (project_tasks p))
    /\ tasks_completed m = count_status COMPLETED (dict_values (project_tasks p))
    /\ blocked_tasks m = count_status BLOCKED (dict_values (project_tasks p))
    /\ 0 <= overdue_tasks m
    /\ overdue_tasks m + tasks_completed m <= tasks_total m
    /\ 0 <= days_remaining m
    /\ hours_spent m = project_spent_hours p
    /\ hours_estimated m = project_budget_hours p
    /\ (project_due_date p = None -> is_on_schedule m = true /\ days_remaining m = 0)
    /\ (project_tasks p = [] ->
        w' = w /\ completion_percentage m = f_zero /\ is_on_schedule m = true
        /\ days_remaining m = 0 /\ overdue_tasks m = 0).
Proof.
  intros Hp. unfold get_project_metrics.
  rewrite (bind_ok _ _ _ _ _ (project_missing_found _ _ _ Hp)).
  rewrite (bind_ok _ _ _ _ _ (projects_at_found _ _ _ Hp)).
  assert (Hlen : List.length (dict_values (project_tasks p)) = List.length (project_tasks p))
    by apply length_map.
  destruct (dict_values (project_tasks p)) as [|t ts] eqn:Hts.
  - eexists. exists w. split; [reflexivity|]. split; [apply only_clock_read_refl|].
    cbn. rewrite <- Hlen. cbn. repeat split; lia.
  - clear Hlen. rewrite <- Hts.
    assert (Hne : project_tasks p <> []).
    { intros E. rewrite E in Hts. discriminate. }
    destruct (count_overdue_returns (dict_values (project_tasks p)) w)
      as (n & w1 & E1 & Hr1 & Hn0 & Hnle).
    rewrite (bind_ok _ _ _ _ _ E1).
    assert (Hdays : exists dr w2,
              match project_due_date p with
              | Some due => bind (datetime_now clock)
                              (fun now => ret (Z.max 0 (days_between due now)))
              | None => ret 0
              end w1 = (Ok dr, w2)
              /\ only_clock_read w1 w2 /\ 0 <= dr
              /\ (project_due_date p = None -> dr = 0)).
    { destruct (project_due_date p) as [due|].
      - eexists. exists (tick w1). split; [reflexivity|].
        split; [apply only_clock_read_tick|]. split; [lia|discriminate].
      - exists 0, w1. split; [reflexivity|]. split; [apply only_clock_read_refl|].
        split; [lia|reflexivity]. }
    destruct Hdays as (dr & w2 & E2 & Hr2 & Hdr0 & Hdr).
    rewrite (bind_ok _ _ _ _ _ E2).
    match goal with
    | |- exists m w', bind ?sched _ w2 = _ /\ _ =>
        assert (Hsched : exists b w3, sched w2 = (Ok b, w3) /\ only_clock_read w2 w3
                                      /\ (project_due_date p = None -> b = true))
    end.
    { destruct (project_due_date p) as [due|].
      - destruct (f_ltb _ _).
        + destruct (_calculate_expected_progress_returns p w2) as (x & w3 & E3 & Hr3).
          rewrite (bind_ok _ _ _ _ _ E3). eexists. exists w3.
          split; [reflexivity|]. split; [exact Hr3|discriminate].
        + exists true, w2. split; [reflexivity|].
          split; [apply only_clock_read_refl|discriminate].
      - exists true, w2. split; [reflexivity|].
        split; [apply only_clock_read_refl|reflexivity]. }
    destruct Hsched as (b & w3 & E3 & Hr3 & Hb).
    rewrite (bind_ok _ _ _ _ _ E3). unfold ret.
    eexists. exists w3. split; [reflexivity|].
    split; [eauto using only_clock_read_trans|].
    cbn [pm_project_id tasks_total tasks_completed blocked_tasks overdue_tasks
           days_remaining hours_spent hours_estimated is_on_schedule
           completion_percentage].
    split; [reflexivity|]. split; [unfold dict_values; now rewrite length_map|].
    split; [reflexivity|]. split; [reflexivity|]. split; [exact Hn0|].
    split; [exact Hnle|]. split; [exact Hdr0|]. split; [reflexivity|].
    split; [reflexivity|]. split; [auto|]. intros Hnil. contradiction.
Qed.



End Metrics.

(** ** The expected progress *)

Section Progress.
Context {F : PyFloat} {O : PercentOrder F}.
Variable clock : nat -> datetime.


End Progress.

#[export] Instance binary64_PercentOrder : PercentOrder binary64.
Proof.
  split.
  - intros a b. cbn. unfold SFltb, SFleb. now destruct (SFcompare a b) as [[]|].
  - reflexivity.
  - reflexivity.
  - reflexivity.
Qed.

#[export] Instance exactQ_PercentOrder : PercentOrder exactQ.
Proof.
  split.
  - intros a b. cbn. unfold Qc_ltb, Qc_leb. now destruct (a ?= b)%Qc.
  - reflexivity.
  - reflexivity.
  - reflexivity.
Qed.

(** ** The shape of the critical path *)

Section PathShape.
Context {F : PyFloat}.

Lemma Forall2_In_r {A B} (R : A -> B -> Prop) l bs b :
  Forall2 R l bs -> In b bs -> exists a, In a l /\ R a b.
Proof.
  induction 1 as [|a b' l bs HR _ IH]; [intros []|].
  intros [<-|Hin]; [exists a; split; [now left|exact HR]|].
  destruct (IH Hin) as (a' & Ha' & HR'). exists a'. split; [now right|exact HR'].
Qed.

Lemma tasks_keyed_value (p : Project) (t : ProjectTask) :
  tasks_keyed p -> In t (dict_values (project_tasks p)) ->
  dict_get (project_tasks p) (task_id t) = Some t.
Proof.
  intros [Hnd Hid] Hin. apply In_values_dict_get in Hin as [k Hin].
  rewrite (Hid _ _ Hin). now apply In_NoDup_dict_get.
Qed.

Lemma chain_shape_nil (p : Project) tid visited : chain_shape p tid visited [].
Proof. split; [intros t []|]. split; [constructor|]. now split. Qed.

Lemma sequence_map_inv {A B} (f : A -> result B) l : forall bs,
  sequence (map f l) = Ok bs -> Forall2 (fun a b => f a = Ok b) l bs.
Proof.
  induction l as [|a l IH]; cbn [map sequence]; intros bs H.
  - injection H as <-. constructor.
  - destruct (f a) as [b|e] eqn:E; [|discriminate H].
    destruct (sequence (map f l)) as [bs'|e]; [|discriminate H].
    injection H as <-. constructor; [exact E|now apply IH].
Qed.

Lemma sequence_map_raise {A B} (f : A -> result B) l e :
  sequence (map f l) = Raise e -> exists a, In a l /\ f a = Raise e.
Proof.
  induction l as [|a l IH]; cbn [map sequence]; [discriminate|].
  destruct (f a) as [b|e'] eqn:E.
  - destruct (sequence (map f l)) as [bs'|e'']; [discriminate|].
    intros H. injection H as ->. destruct (IH eq_refl) as (a' & Ha' & Hf).
    exists a'. split; [now right|exact Hf].
  - intros H. injection H as ->. exists a. split; [now left|exact E].
Qed.

(** What [_get_task_chain] returns has the shape of a chain, whatever
    the estimated hours are. *)
Lemma _get_task_chain_shape (p : Project) :
  tasks_keyed p ->
  forall depth tid visited chain,
    _get_task_chain depth p tid visited = Ok chain -> chain_shape p tid visited chain.
Proof.
  intros Hk. induction depth as [|depth IH]; intros tid visited chain; [discriminate|].
  cbn [_get_task_chain]. unfold dict_mem.
  destruct (str_in tid visited) eqn:Hv; cbn [orb].
  { intros H. injection H as <-. apply chain_shape_nil. }
  destruct (dict_get (project_tasks p) tid) as [task|] eqn:Ht; cbn [negb].
  2:{ intros H. injection H as <-. apply chain_shape_nil. }
  fold (dependents p tid).
  destruct (sequence _) as [subs|e] eqn:Hseq; [|discriminate].
  intros H. injection H as <-. apply sequence_map_inv in Hseq.
  assert (Hid : task_id task = tid) by now apply (tasks_keyed_get p).
  assert (Hnv : ~ In tid visited).
  { intros H. apply str_in_iff in H. congruence. }
  destruct (longest_of_in subs) as [E|E].
  - rewrite E. split.
    + intros t [<-|[]]. split; [eapply dict_get_In_values; eassumption|now rewrite Hid].
    + split; [cbn; constructor; [intros []|constructor]|]. now split.
  - destruct (Forall2_In_r _ _ _ _ Hseq E) as (d & Hdin & Hd).
    destruct (IH _ _ _ Hd) as (Hin & Hnd & Hl & Hhead).
    split; [|split; [|split]].
    + intros t [<-|Hc].
      * split; [eapply dict_get_In_values; eassumption|now rewrite Hid].
      * destruct (Hin t Hc) as [H1 H2]. split; [exact H1|]. intros H. apply H2. now right.
    + cbn [map]. constructor; [|exact Hnd]. rewrite Hid. intros H.
      apply in_map_iff in H as (t & Heq & Hc). destruct (Hin t Hc) as [_ H2].
      apply H2. left. now symmetry.
    + cbn [linked]. destruct (longest_of subs) as [|b rest]; [exact I|].
      split; [|exact Hl]. apply filter_In in Hdin as [Hdv Hdep].
      rewrite (tasks_keyed_value p d Hk Hdv) in Hhead. injection Hhead as <-.
      rewrite Hid. now apply str_in_iff.
    + exact Ht.
Qed.

(** The only exception of [_get_task_chain] is [RecursionError]. *)
Lemma _get_task_chain_raises (p : Project) :
  forall depth tid visited e,
    _get_task_chain depth p tid visited = Raise e -> e = RecursionError.
Proof.
  induction depth as [|depth IH]; intros tid visited e.
  - intros H. now injection H as <-.
  - cbn [_get_task_chain]. unfold dict_mem.
    destruct (str_in tid visited); cbn [orb]; [discriminate|].
    destruct (dict_get (project_tasks p) tid) as [task|]; cbn [negb]; [|discriminate].
    destruct (sequence _) as [subs|e'] eqn:Hseq; [discriminate|].
    intros H. injection H as ->.
    apply sequence_map_raise in Hseq as (d & _ & Hd). exact (IH _ _ _ Hd).
Qed.

(** [_get_task_chain] returns when it may nest more calls than there
    are unvisited tasks. *)
Lemma _get_task_chain_room (p : Project) :
  forall depth tid visited,
    (unvisited (project_tasks p) visited < depth)%nat ->
    exists chain, _get_task_chain depth p tid visited = Ok chain.
Proof.
  induction depth as [|depth IH]; intros tid visited Hd; [lia|].
  cbn [_get_task_chain]. unfold dict_mem.
  destruct (str_in tid visited) eqn:Hv; cbn [orb]; [now exists []|].
  destruct (dict_get (project_tasks p) tid) as [task|] eqn:Ht; cbn [negb]; [|now exists []].
  destruct (sequence_map_ok
              (fun dep_task => _get_task_chain depth p (task_id dep_task) (tid :: visited))
              (fun _ _ => True) (dependents p tid)) as (subs & Hseq & _).
  { intros d _. destruct (IH (task_id d) (tid :: visited)) as (c & Hc).
    - pose proof (unvisited_decreases _ _ _ _ Hv Ht). lia.
    - now exists c. }
  unfold dependents in Hseq. rewrite Hseq. now eexists.
Qed.

Variable recursion_limit : nat.

Lemma get_critical_path_unfold (w : World) pid p :
  find_project w pid = Some p ->
  get_critical_path recursion_limit pid w
  = match start_tasks p with
    | [] => (Ok [], w)
    | _ :: _ =>
        match sequence (map (fun s => _get_task_chain recursion_limit p (task_id s) [])
                          (start_tasks p)) with
        | Ok chains => (Ok (longest_of chains), w)
        | Raise e => (Raise e, w)
        end
    end.
Proof.
  intros Hp. unfold get_critical_path.
  rewrite (bind_ok _ _ _ _ _ (project_missing_found _ _ _ Hp)).
  rewrite (bind_ok _ _ _ _ _ (projects_at_found _ _ _ Hp)).
  fold (start_tasks p). destruct (start_tasks p) as [|s ss]; [reflexivity|].
  destruct (sequence _); reflexivity.
Qed.

(** With fewer tasks than nested calls are allowed, the call returns. *)
Lemma get_critical_path_room (w : World) pid p :
  find_project w pid = Some p ->
  (List.length (project_tasks p) < recursion_limit)%nat ->
  exists path, get_critical_path recursion_limit pid w = (Ok path, w).
Proof.
  intros Hp Hroom. rewrite (get_critical_path_unfold w pid p Hp).
  destruct (sequence_map_ok
              (fun s => _get_task_chain recursion_limit p (task_id s) [])
              (fun _ _ => True) (start_tasks p)) as (chains & Hseq & _).
  { intros s _. destruct (_get_task_chain_room p recursion_limit (task_id s) [])
      as (c & Hc); [|now exists c].
    pose proof (unvisited_le (project_tasks p) []) as Hle.
    unfold dict_values in Hle. rewrite length_map in Hle. lia. }
  rewrite Hseq. destruct (start_tasks p); now eexists.
Qed.

(** What the call returns is a chain of dependencies. *)
Lemma get_critical_path_ok (w : World) pid p path w' :
  find_project w pid = Some p ->
  tasks_keyed p ->
  get_critical_path recursion_limit pid w = (Ok path, w') ->
  w' = w
  /\ (forall t, In t path -> In t (dict_values (project_tasks p)))
  /\ NoDup (map task_id path)
  /\ linked path
  /\ (forall t rest, path = t :: rest -> task_dependencies t = [])
  /\ (List.length path <= List.length (project_tasks p))%nat.
Proof.
  intros Hp Hk. rewrite (get_critical_path_unfold w pid p Hp).
  assert (Hshape : forall chains,
            Forall2 (fun s c => _get_task_chain recursion_limit p (task_id s) [] = Ok c)
              (start_tasks p) chains ->
            path = [] \/ In path chains ->
            (forall t, In t path -> In t (dict_values (project_tasks p)))
            /\ NoDup (map task_id path)
            /\ linked path
            /\ (forall t rest, path = t :: rest -> task_dependencies t = [])
            /\ (List.length path <= List.length (project_tasks p))%nat).
  { intros chains Hall [->|Hin].
    - split; [intros t []|]. split; [constructor|]. split; [exact I|].
      split; [discriminate|cbn; lia].
    - destruct (Forall2_In_r _ _ _ _ Hall Hin) as (s & Hs & Hrun).
      destruct (_get_task_chain_shape p Hk _ _ _ _ Hrun) as (Hc & Hnd & Hl & Hhead).
      assert (Hsub : forall t, In t path -> In t (dict_values (project_tasks p)))
        by (intros t Ht; now apply Hc).
      split; [exact Hsub|]. split; [exact Hnd|]. split; [exact Hl|]. split.
      + intros t rest ->. apply filter_In in Hs as [Hsv Hdeps].
        rewrite (tasks_keyed_value p s Hk Hsv) in Hhead. injection Hhead as <-.
        now destruct (task_dependencies s).
      + rewrite <- (length_map task_id path),
          <- (length_map snd (project_tasks p)),
          <- (length_map task_id (map snd (project_tasks p))).
        apply NoDup_incl_length; [exact Hnd|].
        intros k Hkin. apply in_map_iff in Hkin as (t & <- & Ht).
        apply in_map. now apply Hsub. }
  destruct (start_tasks p) as [|s ss] eqn:Hs.
  - intros H. injection H as <- <-. split; [reflexivity|].
    apply (Hshape []); [constructor|now left].
  - destruct (sequence _) as [chains|e] eqn:Hseq; [|discriminate].
    intros H. injection H as <- <-. split; [reflexivity|].
    apply (Hshape chains); [now apply sequence_map_inv|apply longest_of_in].
Qed.

(** The call raises [RecursionError] only, and only on a project with at
    least as many tasks as nested calls are allowed. *)
Lemma get_critical_path_raises (w : World) pid p e w' :
  find_project w pid = Some p ->
  get_critical_path recursion_limit pid w = (Raise e, w') ->
  e = RecursionError /\ w' = w
  /\ (recursion_limit <= List.length (project_tasks p))%nat.
Proof.
  intros Hp H.
  assert (Hfull : (recursion_limit <= List.length (project_tasks p))%nat).
  { destruct (Nat.le_gt_cases recursion_limit (List.length (project_tasks p)))
      as [Hle|Hlt]; [exact Hle|].
    destruct (get_critical_path_room w pid p Hp Hlt) as (path & E). congruence. }
  revert H. rewrite (get_critical_path_unfold w pid p Hp).
  destruct (start_tasks p) as [|s ss]; [discriminate|].
  destruct (sequence _) as [chains|e'] eqn:Hseq; [discriminate|].
  intros H. injection H as -> <-.
  apply sequence_map_raise in Hseq as (s' & _ & Hrun).
  split; [exact (_get_task_chain_raises p _ _ _ _ Hrun)|]. now split.
Qed.

(** The result of the call depends on the project only. *)
Lemma get_critical_path_transfer (w w' : World) pid p path :
  find_project w pid = Some p -> find_project w' pid = Some p ->
  get_critical_path recursion_limit pid w' = (Ok path, w') ->
  get_critical_path recursion_limit pid w = (Ok path, w).
Proof.
  intros Hp Hp'. rewrite (get_critical_path_unfold w pid p Hp),
    (get_critical_path_unfold w' pid p Hp').
  destruct (start_tasks p) as [|s ss]; [congruence|].
  destruct (sequence _) as [chains|e]; [|discriminate]. congruence.
Qed.

(** X15. On an existing project whose tasks are filed under their own ids
    (as they are in every reachable world) [get_critical_path] changes
    nothing.  It returns when the project has fewer tasks than the
    recursion limit allows nested calls of [_get_task_chain], whatever
    the estimated hours are, negative ones and NaN included; its only
    exception is [RecursionError].  Whenever it returns, the path is a
    chain of dependencies: its tasks are tasks of the project with
    pairwise different ids, each task after the first lists the task
    before it among its dependencies, and the first task has no
    dependencies; so the path is never longer than the project has
    tasks. *)
Theorem critical_path_is_a_dependency_chain (w : World) (pid : string) (p : Project) :
  find_project w pid = Some p ->
  tasks_keyed p ->
  ((List.length (project_tasks p) < recursion_limit)%nat ->
   exists path, get_critical_path recursion_limit pid w = (Ok path, w))
  /\ (forall path w',
        get_critical_path recursion_limit pid w = (Ok path, w') ->
        w' = w
        /\ (forall t, In t path -> In t (dict_values (project_tasks p)))
        /\ NoDup (map task_id path)
        /\ linked path
        /\ (forall t rest, path = t :: rest -> task_dependencies t = [])
        /\ (List.length path <= List.length (project_tasks p))%nat)
  /\ (forall e w',
        get_critical_path recursion_limit pid w = (Raise e, w') ->
        e = RecursionError /\ w' = w).
Proof.
  intros Hp Hk. split; [|split].
  - now apply get_critical_path_room.
  - intros path w'. now apply get_critical_path_ok.
  - intros e w' H. destruct (get_critical_path_raises w pid p e w' Hp H) as (H1 & H2 & _).
    now split.
Qed.

End PathShape.

(** ** Resource utilization *)

Section Utilization.
Context {F : PyFloat}.

Lemma utilization_at_found (u : dict AgentUtilization) a e (w : World) :
  dict_get u a = Some e -> utilization_at u a w = (Ok e, w).
Proof. unfold utilization_at. now intros ->. Qed.

(** One visit stores under the agent what [absorb] makes of the entry
    that was there, or of the empty one. *)
Lemma utilization_visit_eq (p : Project) (t : ProjectTask) u a (w : World) :
  utilization_visit p t u a w
  = (Ok (dict_set u a
           (absorb (match dict_get u a with Some e => e | None => no_entries end)
              (task_entry p t))), w).
Proof.
  unfold utilization_visit, dict_mem.
  assert (Hgen : forall u0 e0,
            dict_get u0 a = Some e0 ->
            bind (utilization_at u0 a)
              (fun e =>
                 bind (utilization_at
                         (dict_set u0 a
                            (au_with_total_hours
                               (f_add (au_total_hours e) (task_estimated_hours t)) e)) a)
                   (fun e1 =>
                      bind (utilization_at
                              (if negb (str_in (project_id p) (au_projects e1))
                               then dict_set
                                      (dict_set u0 a
                                         (au_with_total_hours
                                            (f_add (au_total_hours e)
                                               (task_estimated_hours t)) e)) a
                                      (au_with_projects
                                         (au_projects e1 ++ [project_id p]) e1)
                               else dict_set u0 a
                                      (au_with_total_hours
                                         (f_add (au_total_hours e)
                                            (task_estimated_hours t)) e)) a)
                        (fun e2 =>
                           ret (dict_set
                                  (if negb (str_in (project_id p) (au_projects e1))
                                   then dict_set
                                          (dict_set u0 a
                                             (au_with_total_hours
                                                (f_add (au_total_hours e)
                                                   (task_estimated_hours t)) e)) a
                                          (au_with_projects
                                             (au_projects e1 ++ [project_id p]) e1)
                                   else dict_set u0 a
                                          (au_with_total_hours
                                             (f_add (au_total_hours e)
                                                (task_estimated_hours t)) e)) a
                                  (au_with_tasks (au_tasks e2 ++ [task_entry p t]) e2)))))
              w
            = (Ok (dict_set u0 a (absorb e0 (task_entry p t))), w)).
  { intros u0 e0 H0.
    rewrite (bind_ok _ _ _ _ _ (utilization_at_found _ _ _ _ H0)).
    rewrite (bind_ok _ _ _ _ _ (utilization_at_found _ _ _ _ (dict_get_set_same _ _ _))).
    cbn [au_projects au_with_total_hours].
    destruct (str_in (project_id p) (au_projects e0)) eqn:E; cbn [negb].
    - rewrite (bind_ok _ _ _ _ _ (utilization_at_found _ _ _ _ (dict_get_set_same _ _ _))).
      unfold ret. rewrite dict_set_set. unfold absorb. cbn. now rewrite E.
    - rewrite (bind_ok _ _ _ _ _ (utilization_at_found _ _ _ _ (dict_get_set_same _ _ _))).
      unfold ret. rewrite !dict_set_set. unfold absorb. cbn. now rewrite E. }
  destruct (dict_get u a) as [e0|] eqn:E0; cbn [negb].
  - now apply Hgen.
  - rewrite (Hgen _ no_entries (dict_get_set_same _ _ _)). now rewrite dict_set_set.
Qed.

Lemma lookup_after_some (e : AgentUtilization) xs :
  lookup_after (Some e) xs = Some (fold_left absorb xs e).
Proof. now destruct xs. Qed.

Lemma lookup_after_app (o : option AgentUtilization) xs ys :
  lookup_after (lookup_after o xs) ys = lookup_after o (xs ++ ys)%list.
Proof.
  destruct xs as [|x xs]; [reflexivity|].
  cbn [lookup_after app]. rewrite lookup_after_some, <- fold_left_app. reflexivity.
Qed.

(** The entries that the agents of one task add for [a]. *)
Lemma utilization_agents_eq (p : Project) (t : ProjectTask) agents :
  forall u, exists u',
    (forall w : World, utilization_agents p t agents u w = (Ok u', w))
    /\ forall a, dict_get u' a
                 = lookup_after (dict_get u a)
                     (map (fun _ => task_entry p t) (filter (String.eqb a) agents)).
Proof.
  induction agents as [|ag agents IH]; intros u.
  - exists u. split; [reflexivity|]. intros a. reflexivity.
  - destruct (IH (dict_set u ag
                    (absorb (match dict_get u ag with Some e => e | None => no_entries end)
                       (task_entry p t)))) as (u' & E & H).
    exists u'. split.
    + intros w. cbn [utilization_agents].
      rewrite (bind_ok _ _ _ _ _ (utilization_visit_eq _ _ _ _ _)). apply E.
    + intros a. rewrite H. cbn [filter].
      destruct (String.eqb_spec a ag) as [->|Hne].
      * rewrite dict_get_set_same, lookup_after_some. reflexivity.
      * rewrite dict_get_set_other by congruence. reflexivity.
Qed.

Lemma utilization_tasks_eq (p : Project) tasks :
  forall u, exists u',
    (forall w : World, utilization_tasks p tasks u w = (Ok u', w))
    /\ forall a, dict_get u' a
                 = lookup_after (dict_get u a)
                     (flat_map
                        (fun t => map (fun _ => task_entry p t)
                                    (filter (String.eqb a) (task_assigned_agents t)))
                        tasks).
Proof.
  induction tasks as [|t tasks IH]; intros u.
  - exists u. split; [reflexivity|]. intros a. reflexivity.
  - destruct (utilization_agents_eq p t (task_assigned_agents t) u) as (u1 & E1 & H1).
    destruct (IH u1) as (u' & E & H). exists u'. split.
    + intros w. cbn [utilization_tasks]. rewrite (bind_ok _ _ _ _ _ (E1 w)). apply E.
    + intros a. rewrite H, H1. cbn [flat_map]. apply lookup_after_app.
Qed.

Lemma utilization_projects_eq ps :
  forall u, exists u',
    (forall w : World, utilization_projects ps u w = (Ok u', w))
    /\ forall a, dict_get u' a = lookup_after (dict_get u a) (assigned_to a ps).
Proof.
  induction ps as [|p ps IH]; intros u.
  - exists u. split; [reflexivity|]. intros a. reflexivity.
  - destruct (utilization_tasks_eq p (dict_values (project_tasks p)) u) as (u1 & E1 & H1).
    destruct (IH u1) as (u' & E & H). exists u'. split.
    + intros w. cbn [utilization_projects]. rewrite (bind_ok _ _ _ _ _ (E1 w)). apply E.
    + intros a. rewrite H, H1. unfold assigned_to. cbn [flat_map]. apply lookup_after_app.
Qed.

(** The result depends on the manager only, and every world with the
    same manager gives it. *)
Lemma get_resource_utilization_eq (w : World) :
  exists u,
    (forall w' : World, self w' = self w -> get_resource_utilization w' = (Ok u, w'))
    /\ forall a, dict_get u a
                 = lookup_after None (assigned_to a (dict_values (projects (self w)))).
Proof.
  destruct (utilization_projects_eq (dict_values (projects (self w))) []) as (u & E & H).
  exists u. split.
  - intros w' Hs. unfold get_resource_utilization.
    rewrite (bind_ok _ _ _ _ _ (eq_refl : get_self w' = (Ok (self w'), w'))).
    rewrite Hs. apply E.
  - intros a. now rewrite H.
Qed.

Lemma absorbed_tasks xs : forall e : AgentUtilization,
  au_tasks (fold_left absorb xs e) = (au_tasks e ++ xs)%list.
Proof.
  induction xs as [|x xs IH]; intros e; cbn [fold_left]; [now rewrite app_nil_r|].
  rewrite IH. cbn. now rewrite <- app_assoc.
Qed.

Lemma absorbed_total_hours xs : forall e : AgentUtilization,
  au_total_hours (fold_left absorb xs e)
  = fold_left f_add (map entry_hours xs) (au_total_hours e).
Proof. induction xs as [|x xs IH]; intros e; cbn [fold_left map]; [reflexivity|apply IH]. Qed.

Lemma absorbed_projects xs : forall e : AgentUtilization,
  NoDup (au_projects e) ->
  NoDup (au_projects (fold_left absorb xs e))
  /\ forall pid, In pid (au_projects (fold_left absorb xs e))
                 <-> In pid (au_projects e) \/ In pid (map entry_project_id xs).
Proof.
  induction xs as [|x xs IH]; intros e Hnd; cbn [fold_left map].
  - split; [exact Hnd|]. intros pid. cbn. tauto.
  - assert (Hnd' : NoDup (au_projects (absorb e x))).
    { cbn. destruct (str_in (entry_project_id x) (au_projects e)) eqn:E; [exact Hnd|].
      apply NoDup_app; [exact Hnd|repeat constructor; intros []|].
      intros y Hy [<-|[]]. apply str_in_iff in Hy. congruence. }
    destruct (IH _ Hnd') as [H1 H2]. split; [exact H1|].
    intros pid. rewrite H2. cbn [absorb au_projects In].
    destruct (str_in (entry_project_id x) (au_projects e)) eqn:E.
    + apply str_in_iff in E. split; [tauto|]. intros [H|[<-|H]]; tauto.
    + rewrite in_app_iff. cbn [In]. tauto.
Qed.

Lemma In_assigned_to a ps (x : TaskEntry) :
  In x (assigned_to a ps)
  <-> exists p t, In p ps /\ In t (dict_values (project_tasks p))
                  /\ In a (task_assigned_agents t) /\ x = task_entry p t.
Proof.
  unfold assigned_to. rewrite in_flat_map. split.
  - intros (p & Hp & Hx). apply in_flat_map in Hx as (t & Ht & Hx).
    apply in_map_iff in Hx as (a' & <- & Ha). apply filter_In in Ha as [Ha E].
    apply String.eqb_eq in E. subst a'. now exists p, t.
  - intros (p & t & Hp & Ht & Ha & ->). exists p. split; [exact Hp|].
    apply in_flat_map. exists t. split; [exact Ht|].
    apply in_map_iff. exists a. split; [reflexivity|].
    apply filter_In. split; [exact Ha|apply String.eqb_refl].
Qed.

(** X16. [get_resource_utilization] returns and changes nothing.  Exactly the
    agents assigned to some task have an entry.  An agent's ['tasks']
    list holds one entry for every occurrence of the agent among the
    assigned agents of a task, whatever the task's status, by project
    and task in dictionary order, and ['total_hours'] is the sum of the
    hours of these entries, which are the tasks' estimated hours. *)
Theorem utilization_lists_every_assignment (w : World) :
  exists u,
    get_resource_utilization w = (Ok u, w)
    /\ forall agent_id,
         (dict_get u agent_id = None
          <-> forall p t, In p (dict_values (projects (self w))) ->
                          In t (dict_values (project_tasks p)) ->
                          ~ In agent_id (task_assigned_agents t))
         /\ forall e,
              dict_get u agent_id = Some e ->
              au_tasks e = assigned_to agent_id (dict_values (projects (self w)))
              /\ au_total_hours e = f_sum (map entry_hours (au_tasks e))
              /\ forall x,
                   In x (au_tasks e)
                   <-> exists p t,
                         In p (dict_values (projects (self w)))
                         /\ In t (dict_values (project_tasks p))
                         /\ In agent_id (task_assigned_agents t)
                         /\ x = task_entry p t.
Proof.
  destruct (get_resource_utilization_eq w) as (u & E & H).
  exists u. split; [exact (E w eq_refl)|]. intros a. rewrite H.
  pose proof (In_assigned_to a (dict_values (projects (self w)))) as Hin.
  destruct (assigned_to a (dict_values (projects (self w)))) as [|x xs] eqn:Ha;
    cbn [lookup_after].
  - split.
    + split; [|reflexivity]. intros _ p t Hp Ht Hag.
      apply (proj2 (Hin (task_entry p t))). now exists p, t.
    + discriminate.
  - split.
    + split; [discriminate|]. intros Hno. exfalso.
      destruct (proj1 (Hin x) (or_introl eq_refl)) as (p & t & Hp & Ht & Hag & _).
      exact (Hno p t Hp Ht Hag).
    + intros e He. injection He as <-.
      change (fold_left absorb xs (absorb no_entries x))
        with (fold_left absorb (x :: xs) no_entries).
      assert (Ht : au_tasks (fold_left absorb (x :: xs) no_entries) = x :: xs)
        by now rewrite absorbed_tasks.
      rewrite Ht. split; [reflexivity|]. split; [apply absorbed_total_hours|exact Hin].
Qed.

(** X17. An agent's ['projects'] list names each project once: it has no
    duplicates and holds exactly the project ids that occur in the
    agent's ['tasks'] entries. *)
Theorem utilization_projects_are_distinct (w : World) :
  exists u,
    get_resource_utilization w = (Ok u, w)
    /\ forall agent_id e,
         dict_get u agent_id = Some e ->
         NoDup (au_projects e)
         /\ forall pid, In pid (au_projects e)
                        <-> In pid (map entry_project_id (au_tasks e)).
Proof.
  destruct (get_resource_utilization_eq w) as (u & E & H).
  exists u. split; [exact (E w eq_refl)|]. intros a e. rewrite H.
  destruct (assigned_to a (dict_values (projects (self w)))) as [|x xs];
    cbn [lookup_after]; [discriminate|].
  intros He. injection He as <-.
  change (fold_left absorb xs (absorb no_entries x))
    with (fold_left absorb (x :: xs) no_entries).
  destruct (absorbed_projects (x :: xs) no_entries (NoDup_nil _)) as [H1 H2].
  split; [exact H1|]. intros pid. rewrite H2, absorbed_tasks. cbn [no_entries au_projects
    au_tasks app In]. tauto.
Qed.

End Utilization.

(** ** The dashboard *)

Section Dashboard.
Context {F : PyFloat}.
Variable uuid4 : nat -> string.
Variable clock : nat -> datetime.

Lemma fold_left_Zadd (l : list Z) (a : Z) : fold_left Z.add l a = a + int_sum l.
Proof.
  unfold int_sum. revert a. induction l as [|x l IH]; intros a; cbn [fold_left]; [lia|].
  rewrite (IH (a + x)), (IH (0 + x)). lia.
Qed.

Lemma int_sum_cons (x : Z) (l : list Z) : int_sum (x :: l) = x + int_sum l.
Proof. unfold int_sum at 1. cbn [fold_left]. rewrite fold_left_Zadd. lia. Qed.

Lemma int_sum_le {A} (f g : A -> Z) (l : list A) :
  (forall x, In x l -> f x <= g x) -> int_sum (map f l) <= int_sum (map g l).
Proof.
  induction l as [|x l IH]; intros H; cbn [map]; [cbn; lia|].
  rewrite !int_sum_cons. pose proof (H x (or_introl eq_refl)).
  assert (int_sum (map f l) <= int_sum (map g l)) by (apply IH; intros; apply H; now right).
  lia.
Qed.

Lemma int_sum_nonneg {A} (f : A -> Z) (l : list A) :
  (forall x, In x l -> 0 <= f x) -> 0 <= int_sum (map f l).
Proof.
  induction l as [|x l IH]; intros H; cbn [map]; [cbn; lia|].
  rewrite int_sum_cons. pose proof (H x (or_introl eq_refl)).
  assert (0 <= int_sum (map f l)) by (apply IH; intros; apply H; now right). lia.
Qed.

Lemma filter_disjoint_length {A} (f g : A -> bool) (l : list A) :
  (forall x, f x = true -> g x = false) ->
  (List.length (filter f l) + List.length (filter g l) <= List.length l)%nat.
Proof.
  intros H. induction l as [|x l IH]; cbn; [lia|].
  destruct (f x) eqn:E; [rewrite (H x E)|destruct (g x)]; cbn; lia.
Qed.

Lemma Forall2_map_eq {A B C} (R : A -> B -> Prop) (f : B -> C) (g : A -> C) l bs :
  (forall a b, R a b -> f b = g a) -> Forall2 R l bs -> map f bs = map g l.
Proof.
  intros H. induction 1 as [|a b l bs HR _ IH]; [reflexivity|].
  cbn. now rewrite IH, (H a b HR).
Qed.

Lemma well_keyed_values (w : World) q :
  well_keyed w -> In q (dict_values (projects (self w))) ->
  dict_get (projects (self w)) (project_id q) = Some q /\ tasks_keyed q.
Proof.
  intros [Hnd Hid] Hin. apply In_values_dict_get in Hin as [k Hin].
  destruct (Hid _ _ Hin) as [-> Hk]. split; [now apply In_NoDup_dict_get|exact Hk].
Qed.

Variable recursion_limit : nat.

(** The first loop returns one entry per project, in order, unless a
    project has too many tasks for the recursion limit. *)
Lemma dashboard_projects_cases (w0 : World) (todo : list Project) : forall w,
  only_clock_read w0 w ->
  (forall q, In q todo ->
     dict_get (projects (self w)) (project_id q) = Some q /\ tasks_keyed q) ->
  (exists data w',
     dashboard_projects clock recursion_limit todo w = (Ok data, w')
     /\ only_clock_read w w'
     /\ Forall2 (entry_reports clock recursion_limit w0) todo data)
  \/ ((exists w',
        dashboard_projects clock recursion_limit todo w = (Raise RecursionError, w')
        /\ only_clock_read w w')
      /\ exists q, In q todo
                   /\ (recursion_limit <= List.length (project_tasks q))%nat).
Proof.
  induction todo as [|q todo IH]; intros w H0 Hw.
  - left. exists [], w. split; [reflexivity|]. split; [apply only_clock_read_refl|constructor].
  - destruct (Hw q (or_introl eq_refl)) as [Hq Hk].
    cbn [dashboard_projects].
    destruct (get_project_metrics_found clock w (project_id q) q Hq)
      as (m & w1 & E1 & Hr1 & Hid & Htot & Hc & _ ).
    rewrite (bind_ok _ _ _ _ _ E1).
    assert (Hq1 : find_project w1 (project_id q) = Some q)
      by now rewrite (only_clock_read_find _ _ _ Hr1).
    assert (Hq0 : find_project w0 (project_id q) = Some q).
    { unfold find_project. destruct H0 as (Hself & _). now rewrite <- Hself. }
    rewrite (bind_ok _ _ _ _ _ (get_available_tasks_found _ _ _ Hq1)).
    destruct (get_critical_path recursion_limit (project_id q) w1) as [[path|e] w2] eqn:E3.
    + destruct (get_critical_path_ok recursion_limit w1 _ q path w2 Hq1 Hk E3)
        as (-> & _ & _ & _ & _ & Hlen).
      rewrite (bind_ok _ _ _ _ _ E3).
      destruct (IH w1) as [(data & w' & E & Hr & Hall)|((w' & E & Hr) & q' & Hq' & Hfull)].
      { now apply only_clock_read_trans with w. }
      { intros q' Hq'. destruct Hr1 as (Hself & _). rewrite Hself. apply Hw. now right. }
      * left. rewrite (bind_ok _ _ _ _ _ E). unfold ret.
        eexists. exists w'. split; [reflexivity|].
        split; [now apply only_clock_read_trans with w1|].
        constructor; [|exact Hall]. unfold entry_reports.
        cbn [pd_project pd_metrics pd_available_tasks pd_next_tasks
               pd_critical_path_length].
        split; [reflexivity|]. split; [exists w, w1; split; [exact H0|exact E1]|].
        split; [exact Hid|]. split; [exact Htot|]. split; [exact Hc|].
        split; [reflexivity|]. split; [reflexivity|].
        exists path. split; [|split; [reflexivity|exact Hlen]].
        exact (get_critical_path_transfer recursion_limit w0 w1 _ q path Hq0 Hq1 E3).
      * right. rewrite (bind_raise _ _ _ _ _ E). split.
        -- exists w'. split; [reflexivity|now apply only_clock_read_trans with w1].
        -- exists q'. split; [now right|exact Hfull].
    + destruct (get_critical_path_raises recursion_limit w1 _ q e w2 Hq1 E3)
        as (-> & -> & Hfull).
      right. rewrite (bind_raise _ _ _ _ _ E3). split.
      * exists w1. split; [reflexivity|exact Hr1].
      * exists q. split; [now left|exact Hfull].
Qed.

(** What [get_dashboard_data] does on a well-keyed world. *)
Lemma get_dashboard_data_cases (w : World) :
  well_keyed w ->
  (exists d w',
     get_dashboard_data clock recursion_limit w = (Ok d, w')
     /\ only_clock_read w w'
     /\ Forall2 (entry_reports clock recursion_limit w)
          (dict_values (projects (self w))) (dd_projects d)
     /\ dd_summary d = dashboard_summary (projects (self w))
     /\ get_resource_utilization w = (Ok (dd_resource_utilization d), w))
  \/ ((exists w',
        get_dashboard_data clock recursion_limit w = (Raise RecursionError, w')
        /\ only_clock_read w w')
      /\ ~ room recursion_limit w).
Proof.
  intros Hw. unfold get_dashboard_data.
  rewrite (bind_ok _ _ _ _ _ (eq_refl : get_self w = (Ok (self w), w))).
  destruct (dashboard_projects_cases w (dict_values (projects (self w))) w)
    as [(data & w' & E & Hr & Hall)|((w' & E & Hr) & q & Hq & Hfull)].
  { apply only_clock_read_refl. }
  { intros q Hq. now apply well_keyed_values. }
  - left. rewrite (bind_ok _ _ _ _ _ E).
    rewrite (bind_ok _ _ _ _ _ (eq_refl : get_self w' = (Ok (self w'), w'))).
    destruct (get_resource_utilization_eq w) as (u & Eu & _).
    pose proof Hr as (Hself & Huuid & Hclock).
    rewrite (bind_ok _ _ _ _ _ (Eu w' Hself)). unfold ret. rewrite Hself.
    eexists. exists w'. split; [reflexivity|]. split; [exact Hr|].
    cbn [dd_projects dd_summary dd_resource_utilization].
    split; [exact Hall|]. split; [reflexivity|exact (Eu w eq_refl)].
  - right. rewrite (bind_raise _ _ _ _ _ E). split.
    + exists w'. split; [reflexivity|exact Hr].
    + intros Hroom. specialize (Hroom q Hq). lia.
Qed.

Lemma get_dashboard_data_room (w : World) :
  well_keyed w -> room recursion_limit w ->
  exists d w',
    get_dashboard_data clock recursion_limit w = (Ok d, w')
    /\ only_clock_read w w'
    /\ Forall2 (entry_reports clock recursion_limit w)
         (dict_values (projects (self w))) (dd_projects d)
    /\ dd_summary d = dashboard_summary (projects (self w))
    /\ get_resource_utilization w = (Ok (dd_resource_utilization d), w).
Proof.
  intros Hw Hroom. destruct (get_dashboard_data_cases w Hw) as [H|[_ H]];
    [exact H|contradiction].
Qed.

Lemma get_dashboard_data_ok (w : World) d w' :
  well_keyed w ->
  get_dashboard_data clock recursion_limit w = (Ok d, w') ->
  only_clock_read w w'
  /\ Forall2 (entry_reports clock recursion_limit w)
       (dict_values (projects (self w))) (dd_projects d)
  /\ dd_summary d = dashboard_summary (projects (self w))
  /\ get_resource_utilization w = (Ok (dd_resource_utilization d), w).
Proof.
  intros Hw E.
  destruct (get_dashboard_data_cases w Hw)
    as [(d0 & w0 & E0 & H)|((w0 & E0 & _) & _)]; [|congruence].
  rewrite E in E0. injection E0 as <- <-. exact H.
Qed.

Lemma get_dashboard_data_raises (w : World) e w' :
  well_keyed w ->
  get_dashboard_data clock recursion_limit w = (Raise e, w') ->
  e = RecursionError /\ only_clock_read w w' /\ ~ room recursion_limit w.
Proof.
  intros Hw E.
  destruct (get_dashboard_data_cases w Hw)
    as [(d0 & w0 & E0 & _)|((w0 & E0 & Hr) & Hfull)]; [congruence|].
  rewrite E in E0. injection E0 as -> ->.
  split; [reflexivity|]. split; [exact Hr|exact Hfull].
Qed.

Lemma entries_next_tasks_le (w : World) (ps : list Project) (data : list ProjectData) :
  Forall2 (entry_reports clock recursion_limit w) ps data ->
  forall e, In e data -> (List.length (pd_next_tasks e) <= 3)%nat.
Proof.
  intros Hall e He. induction Hall as [|p e' ps es HR _ IH]; [destruct He|].
  destruct He as [<-|He]; [|auto].
  destruct HR as (_ & _ & _ & _ & _ & _ & -> & _). apply firstn_le_length.
Qed.

(** Room is decided project by project. *)
Lemma room_checked (w : World) :
  forallb (fun p => (List.length (project_tasks p) <? recursion_limit)%nat)
    (dict_values (projects (self w))) = true ->
  room recursion_limit w.
Proof.
  intros H p Hp. apply Nat.ltb_lt.
  exact (proj1 (forallb_forall _ _) H p Hp).
Qed.


Lemma dashboard_summary_facts (w : World) (d : DashboardData) :
  Forall2 (entry_reports clock recursion_limit w)
    (dict_values (projects (self w))) (dd_projects d) ->
  dd_summary d = dashboard_summary (projects (self w)) ->
  total_projects (dd_summary d) = Z.of_nat (List.length (dd_projects d))
  /\ 0 <= active_projects (dd_summary d)
  /\ 0 <= completed_projects (dd_summary d)
  /\ active_projects (dd_summary d) + completed_projects (dd_summary d)
     <= total_projects (dd_summary d)
  /\ total_tasks (dd_summary d)
     = int_sum (map (fun e => tasks_total (pd_metrics e)) (dd_projects d))
  /\ completed_tasks (dd_summary d)
     = int_sum (map (fun e => tasks_completed (pd_metrics e)) (dd_projects d))
  /\ 0 <= completed_tasks (dd_summary d) <= total_tasks (dd_summary d)
  /\ (total_tasks (dd_summary d) = 0 -> completion_rate (dd_summary d) = f_zero).
Proof.
  intros Hall ->. unfold dashboard_summary.
  cbn [total_projects active_projects completed_projects
         total_tasks completed_tasks completion_rate].
  set (ps := dict_values (projects (self w))) in *.
  split.
  { rewrite <- (Forall2_length Hall). unfold ps, dict_values. now rewrite length_map. }
  split; [lia|]. split; [lia|]. split.
  { pose proof (filter_disjoint_length
                  (fun p : Project => ProjectStatus_eqb (project_status p) ACTIVE)
                  (fun p : Project => ProjectStatus_eqb (project_status p) PS_COMPLETED)
                  ps) as H.
    assert (Hlen : List.length ps = List.length (projects (self w)))
      by (unfold ps, dict_values; now rewrite length_map).
    rewrite <- Hlen.
    assert (Hd : forall x : Project,
               ProjectStatus_eqb (project_status x) ACTIVE = true ->
               ProjectStatus_eqb (project_status x) PS_COMPLETED = false)
      by (intros x; now destruct (project_status x)).
    specialize (H Hd). lia. }
  split.
  { f_equal. symmetry.
    apply (Forall2_map_eq (entry_reports clock recursion_limit w)); [|exact Hall].
    intros p e He. apply He. }
  split.
  { f_equal. symmetry.
    apply (Forall2_map_eq (entry_reports clock recursion_limit w)); [|exact Hall].
    intros p e He. apply He. }
  split.
  { split.
    - apply int_sum_nonneg. intros p _. apply count_status_bounds.
    - apply int_sum_le. intros p _.
      pose proof (count_status_bounds COMPLETED (dict_values (project_tasks p))) as B.
      assert (Hl : List.length (dict_values (project_tasks p))
                   = List.length (project_tasks p)) by apply length_map.
      rewrite Hl in B. lia. }
  intros H0. now rewrite H0.
Qed.



End Dashboard.

(** ** When the cascade does not fire, and new tasks *)

Section CascadeAndNewTasks.
Context {F : PyFloat}.
Variable uuid4 : nat -> string.
Variable clock : nat -> datetime.

(** X21. The cascade of [update_task_status] fires only when every task is
    COMPLETED: when the call returns and some task of the project is not
    COMPLETED afterwards, the project's status and completion_date are
    what they were before the call, and the call has read the clock once,
    or twice when it moved the task into COMPLETED. *)
Theorem cascade_needs_every_task_completed (w : World) (pid tid : string)
  (status : TaskStatus) (p : Project) (t : ProjectTask) :
  find_project w pid = Some p ->
  dict_get (project_tasks p) tid = Some t ->
  let w' := snd (update_task_status clock pid tid status w) in
  exists p',
    find_project w' pid = Some p'
    /\ (~ every_task_completed p' ->
        project_status p' = project_status p
        /\ project_completion_date p' = project_completion_date p
        /\ clock_calls w'
           = if TaskStatus_eqb status COMPLETED
                && negb (TaskStatus_eqb (task_status t) COMPLETED)
             then S (S (clock_calls w)) else S (clock_calls w)).
Proof.
  intros Hp Ht. cbv zeta.
  rewrite (update_task_status_found clock _ _ _ _ _ _ Hp Ht). cbn [snd].
  unfold update_effect. fold (entering_completed status t).
  destruct (all_completed _) eqn:E; rewrite find_with_project_same;
    (eexists; split; [reflexivity|]); intros Hnot.
  - exfalso. apply Hnot. intros t' Hin. now apply (proj1 (all_completed_iff _) E).
  - cbn. destruct (entering_completed status t); now repeat split.
Qed.

(** X22. [add_task_to_project] does not check the dependency ids, and an id
    that names no task of the project does not block: when the new id is
    fresh and not among its own dependencies, the new task is returned
    by [get_available_tasks] right after the call exactly when each of
    its dependencies is absent from the project or names a COMPLETED
    task. *)
Theorem new_task_is_available_unless_blocked (w : World) (pid title description : string)
  (priority : Priority) (estimated_hours : float)
  (dependencies assigned_agents : option (list string))
  (due_date : option datetime) (tags : option (list string)) (p : Project) :
  find_project w pid = Some p ->
  dict_get (project_tasks p) (uuid4 (uuid_calls w)) = None ->
  ~ In (uuid4 (uuid_calls w)) (or_empty dependencies) ->
  let w' := snd (add_task_to_project uuid4 clock pid title description priority
                   estimated_hours dependencies assigned_agents due_date tags w) in
  exists t available,
    find_task w' pid (uuid4 (uuid_calls w)) = Some t
    /\ task_dependencies t = or_empty dependencies
    /\ get_available_tasks pid w' = (Ok available, w')
    /\ (In t available
        <-> forall dep_id, In dep_id (or_empty dependencies) ->
              dict_get (project_tasks p) dep_id = None
              \/ exists d, dict_get (project_tasks p) dep_id = Some d
                           /\ task_status d = COMPLETED).
Proof.
  intros Hp Hfresh Hself. cbv zeta.
  rewrite (add_task_to_project_found uuid4 clock _ _ _ _ _ _ _ _ _ _ _ Hp). cbn [snd].
  unfold add_effect.
  set (tid := uuid4 (uuid_calls w)) in *.
  set (t := new_task tid title description priority estimated_hours dependencies
              assigned_agents due_date tags (clock (clock_calls w))
              (clock (S (clock_calls w)))).
  set (p' := project_with_updated_at (clock (S (S (clock_calls w))))
               (project_with_tasks (dict_set (project_tasks p) tid t) p)).
  set (w' := with_project _ pid p').
  assert (Hp' : find_project w' pid = Some p') by apply find_with_project_same.
  exists t. eexists. split.
  { rewrite (find_task_found _ _ _ _ Hp'). apply dict_get_set_same. }
  split; [reflexivity|]. split; [exact (get_available_tasks_found _ _ p' Hp')|].
  rewrite filter_In, is_available_iff.
  assert (Hin : In t (dict_values (project_tasks p'))).
  { apply dict_get_In_values with tid. apply dict_get_set_same. }
  assert (Hget : forall dep, In dep (or_empty dependencies) ->
                             dict_get (project_tasks p') dep = dict_get (project_tasks p) dep).
  { intros dep Hd. cbn. apply dict_get_set_other. intros E. apply Hself. now rewrite E. }
  split.
  - intros (_ & _ & Hdeps) dep Hd. rewrite <- (Hget dep Hd). now apply Hdeps.
  - intros Hdeps. split; [exact Hin|]. split; [reflexivity|].
    intros dep Hd. rewrite (Hget dep Hd). now apply Hdeps.
Qed.

End CascadeAndNewTasks.

(** ** Time stamps *)

Section Stamps.
Context {F : PyFloat}.
Variable uuid4 : nat -> string.
Variable clock : nat -> datetime.

Lemma stamped_since_later (w w' : World) i d :
  (clock_calls w <= clock_calls w')%nat ->
  stamped_since clock w i d -> stamped_since clock w' i d.
Proof. intros Hle (k & Hk & ->). exists k. split; [lia|reflexivity]. Qed.

Lemma stamped_since_now (w' : World) i k :
  (i <= k < clock_calls w')%nat -> stamped_since clock w' i (clock k).
Proof. intros H. now exists k. Qed.

Lemma task_stamps_later (w w' : World) t :
  (clock_calls w <= clock_calls w')%nat -> task_stamps clock w t -> task_stamps clock w' t.
Proof.
  intros Hle (i & Hc & Hu & Hd). exists i. split; [exact Hc|].
  split; [now apply stamped_since_later with w|].
  intros d E. apply stamped_since_later with w; auto.
Qed.

Lemma project_stamps_later (w w' : World) p :
  (clock_calls w <= clock_calls w')%nat ->
  project_stamps clock w p -> project_stamps clock w' p.
Proof.
  intros Hle [(i & Hc & Hu & Hd) Ht]. split.
  - exists i. split; [exact Hc|]. split; [now apply stamped_since_later with w|].
    intros d E. apply stamped_since_later with w; auto.
  - intros k t Hin. apply task_stamps_later with w; eauto.
Qed.

Lemma stamped_since_index (w : World) i d :
  stamped_since clock w i d -> (i < clock_calls w)%nat.
Proof. intros (k & Hk & _). lia. Qed.

Lemma step_clock_calls w w' : step uuid4 clock w w' -> (clock_calls w <= clock_calls w')%nat.
Proof.
  intros [| | | |]; cbn; try lia.
  unfold update_effect. destruct (entering_completed _ _), (all_completed _); cbn; lia.
Qed.

Lemma updated_task_stamps (w w' : World) st t :
  (clock_calls w + (if entering_completed st t then 2 else 1) <= clock_calls w')%nat ->
  task_stamps clock w t ->
  task_stamps clock w' (updated_task clock (clock_calls w) st t).
Proof.
  intros Hle (i & Hc & Hu & Hd). pose proof (stamped_since_index _ _ _ Hu) as Hi.
  exists i. unfold updated_task.
  destruct (entering_completed st t); cbn.
  - split; [exact Hc|]. split; [apply stamped_since_now; lia|].
    intros d E. injection E as <-. apply stamped_since_now. lia.
  - split; [exact Hc|]. split; [apply stamped_since_now; lia|].
    intros d E. apply stamped_since_later with w; [lia|auto].
Qed.

Lemma project_stamps_step w w' :
  every_project (project_stamps clock) w -> step uuid4 clock w w' ->
  every_project (project_stamps clock) w'.
Proof.
  intros Hw Hstep pid' p' Hin.
  pose proof (step_clock_calls _ _ Hstep) as Hle.
  assert (Hold : forall q, In (pid', q) (projects (self w)) -> project_stamps clock w' q).
  { intros q Hq. apply project_stamps_later with w; [exact Hle|eauto]. }
  destruct Hstep as [|n d o pr sd dd b|pid ti d pr e deps ags dd tg p Hp
                    |pid tid st p t Hp Ht|pid tid h p t Hp Ht].
  - auto.
  - apply In_with_project in Hin as [[-> ->]|Hin]; [|auto]. split.
    + exists (clock_calls w). cbn. split; [reflexivity|].
      split; [apply stamped_since_now; cbn; lia|discriminate].
    + intros k t [].
  - apply In_with_project in Hin as [[-> ->]|Hin]; [|auto].
    destruct (Hw _ _ (find_project_In _ _ _ Hp)) as [(i & Hc & Hu & Hd) Hts].
    pose proof (stamped_since_index _ _ _ Hu) as Hi. split.
    + exists i. cbn. split; [exact Hc|]. split; [apply stamped_since_now; cbn; lia|].
      intros d0 E. eapply stamped_since_later; [|eauto]. cbn. lia.
    + intros k t Hk. cbn in Hk. apply In_dict_set in Hk as [[_ ->]|Hk].
      * exists (clock_calls w). cbn. split; [reflexivity|].
        split; [apply stamped_since_now; cbn; lia|discriminate].
      * eapply task_stamps_later; [|eauto]. cbn. lia.
  - destruct (Hw _ _ (find_project_In _ _ _ Hp)) as [(i & Hc & Hu & Hd) Hts].
    pose proof (stamped_since_index _ _ _ Hu) as Hi.
    assert (Htasks : forall w1,
              (clock_calls w + (if entering_completed st t then 2 else 1)
               <= clock_calls w1)%nat ->
              forall k t',
                In (k, t') (dict_set (project_tasks p) tid
                              (updated_task clock (clock_calls w) st t)) ->
                task_stamps clock w1 t').
    { intros w1 H1 k t' Hk. apply In_dict_set in Hk as [[_ ->]|Hk].
      - apply updated_task_stamps; [exact H1|]. eapply Hts. eapply dict_get_In; eassumption.
      - eapply task_stamps_later; [|eauto]. destruct (entering_completed st t); lia. }
    revert Hin Hold Hle. unfold update_effect.
    destruct (all_completed _); intros Hin Hold Hle;
      (apply In_with_project in Hin as [[-> ->]|Hin]; [|auto]).
    + split.
      * exists i. cbn. split; [exact Hc|].
        split; [eapply stamped_since_later; [|eauto];
                destruct (entering_completed st t); cbn; lia|].
        intros d0 E. injection E as <-. apply stamped_since_now.
        destruct (entering_completed st t); cbn; lia.
      * apply Htasks. destruct (entering_completed st t); cbn; lia.
    + split.
      * exists i. cbn. split; [exact Hc|].
        split; [eapply stamped_since_later; [|eauto];
                destruct (entering_completed st t); cbn; lia|].
        intros d0 E. eapply stamped_since_later; [|eauto].
        destruct (entering_completed st t); cbn; lia.
      * apply Htasks. destruct (entering_completed st t); cbn; lia.
  - apply In_with_project in Hin as [[-> ->]|Hin]; [|auto].
    destruct (Hw _ _ (find_project_In _ _ _ Hp)) as [(i & Hc & Hu & Hd) Hts].
    pose proof (stamped_since_index _ _ _ Hu) as Hi. split.
    + exists i. cbn. split; [exact Hc|]. split; [apply stamped_since_now; cbn; lia|].
      intros d0 E. eapply stamped_since_later; [|eauto]. cbn. lia.
    + intros k t' Hk. cbn in Hk. apply In_dict_set in Hk as [[_ ->]|Hk].
      * destruct (Hts _ _ (dict_get_In _ _ _ Ht)) as (j & Hcj & Huj & Hdj).
        pose proof (stamped_since_index _ _ _ Huj) as Hj.
        exists j. cbn. split; [exact Hcj|]. split; [apply stamped_since_now; cbn; lia|].
        intros d0 E. eapply stamped_since_later; [|eauto]. cbn. lia.
      * eapply task_stamps_later; [|eauto]. cbn. lia.
Qed.

Lemma project_stamps_reachable ops :
  every_project (project_stamps clock) (run uuid4 clock ops init).
Proof.
  apply (run_invariant uuid4 clock (every_project (project_stamps clock))).
  - apply project_stamps_step.
  - intros ? ? [].
Qed.

Hypothesis clock_monotone : forall i j, (i <= j)%nat -> clock i <= clock j.

Lemma stamped_since_le (w : World) i d : stamped_since clock w i d -> clock i <= d.
Proof. intros (k & Hk & ->). apply clock_monotone. lia. Qed.

(** X23. With a clock that never runs backwards, in every world reached from
    the empty manager no project and no task has an updated_at or a
    completion_date before its created_at. *)
Theorem stamps_are_not_before_creation (ops : list Op) (pid : string) (p : Project) :
  find_project (run uuid4 clock ops init) pid = Some p ->
  project_created_at p <= project_updated_at p
  /\ (forall d, project_completion_date p = Some d -> project_created_at p <= d)
  /\ forall tid t,
       dict_get (project_tasks p) tid = Some t ->
       task_created_at t <= task_updated_at t
       /\ forall d, task_completion_date t = Some d -> task_created_at t <= d.
Proof.
  intros Hp.
  destruct (project_stamps_reachable ops _ _ (find_project_In _ _ _ Hp))
    as [(i & Hc & Hu & Hd) Hts].
  rewrite Hc. split; [now apply stamped_since_le with (run uuid4 clock ops init)|].
  split; [intros d E; apply stamped_since_le with (run uuid4 clock ops init); auto|].
  intros tid t Ht. destruct (Hts _ _ (dict_get_In _ _ _ Ht)) as (j & Hcj & Huj & Hdj).
  rewrite Hcj. split; [now apply stamped_since_le with (run uuid4 clock ops init)|].
  intros d E. apply stamped_since_le with (run uuid4 clock ops init). auto.
Qed.

End Stamps.

(** ** The further properties at concrete inputs *)

(** For ann the staffed world lists A, B and twice C, 15 hours in all,
    in the projects [u0] and [u3]; bob is the only other agent. *)
Example utilization_of_ann :
  entry_titles (fst (get_resource_utilization staffed_world)) "ann"
  = Some (["u0"; "u3"], ["A"; "B"; "C"; "C"])
  /\ match fst (get_resource_utilization staffed_world) with
     | Ok u => option_map au_total_hours (dict_get u "ann")
     | Raise _ => None
     end = Some (S754_finite false 8444249301319680 (-49))
  /\ match fst (get_resource_utilization staffed_world) with
     | Ok u => dict_keys u
     | Raise _ => []
     end = ["ann"; "bob"].
Proof. repeat split; vm_compute; reflexivity. Qed.

Lemma project_status_is_planning_or_completed_witness :
  exists p,
    find_project (run demo_uuid4 demo_clock completed_project init) "u0" = Some p
    /\ (project_status p = PLANNING \/ project_status p = PS_COMPLETED)
    /\ (project_completion_date p <> None <-> project_status p = PS_COMPLETED).
Proof.
  lookup_project (run demo_uuid4 demo_clock completed_project init) "u0" p Hp.
  destruct (project_status_is_planning_or_completed demo_uuid4 demo_clock
              completed_project "u0" p Hp) as (H1 & H2 & _).
  exists p. split; [reflexivity|]. split; [exact H1|exact H2].
Defined.

Lemma nothing_is_removed_or_rewritten_witness :
  exists p p',
    find_project one_task_world "u0" = Some p
    /\ find_project
         (run demo_uuid4 demo_clock
            [UpdateTaskStatus "u0" "u1" COMPLETED; LogTime "u0" "u1" (f_of_int 2)]
            one_task_world) "u0" = Some p'
    /\ project_static p' = project_static p.
Proof.
  lookup_project one_task_world "u0" p Hp.
  destruct (nothing_is_removed_or_rewritten demo_uuid4 demo_clock demo_uuid4_inj
              (one_task_project "T1" 5)
              [UpdateTaskStatus "u0" "u1" COMPLETED; LogTime "u0" "u1" (f_of_int 2)]
              "u0" p Hp) as (p' & Hp' & Hs & _).
  exists p, p'. split; [reflexivity|]. split; [exact Hp'|exact Hs].
Defined.

Lemma completed_project_stays_completed_witness :
  exists p p',
    find_project completed_world "u0" = Some p
    /\ project_status p = PS_COMPLETED
    /\ find_project
         (run demo_uuid4 demo_clock
            [UpdateTaskStatus "u0" "u1" IN_PROGRESS;
             AddTaskToProject "u0" "T2" "" MEDIUM (f_of_int 1) None None None None]
            completed_world) "u0" = Some p'
    /\ project_status p' = PS_COMPLETED.
Proof.
  assert (A : option_map project_status (find_project completed_world "u0")
              = Some PS_COMPLETED) by (vm_compute; reflexivity).
  destruct (find_project completed_world "u0") as [p|] eqn:Hp; [|discriminate A].
  injection A as A.
  destruct (completed_project_stays_completed demo_uuid4 demo_clock demo_uuid4_inj
              completed_project
              [UpdateTaskStatus "u0" "u1" IN_PROGRESS;
               AddTaskToProject "u0" "T2" "" MEDIUM (f_of_int 1) None None None None]
              "u0" p Hp A) as (p' & Hp' & Hs).
  exists p, p'. split; [reflexivity|]. split; [exact A|]. split; [exact Hp'|exact Hs].
Defined.

Lemma add_task_keeps_project_status_witness :
  exists p p',
    find_project completed_world "u0" = Some p
    /\ project_status p = PS_COMPLETED
    /\ find_project
         (snd (add_task_to_project demo_uuid4 demo_clock "u0" "T2" "" MEDIUM
                 (f_of_int 1) None None None None completed_world)) "u0" = Some p'
    /\ project_status p' = PS_COMPLETED
    /\ ~ every_task_completed p'.
Proof.
  assert (A : option_map project_status (find_project completed_world "u0")
              = Some PS_COMPLETED) by (vm_compute; reflexivity).
  destruct (find_project completed_world "u0") as [p|] eqn:Hp; [|discriminate A].
  injection A as A.
  pose proof (add_task_keeps_project_status demo_uuid4 demo_clock completed_world
                "u0" "T2" "" MEDIUM (f_of_int 1) None None None None p Hp) as H.
  cbv zeta in H. destruct H as (p' & t' & _ & Hp' & _ & _ & _ & _ & _ & _ & Hc & _).
  exists p, p'. split; [reflexivity|]. split; [exact A|]. split; [exact Hp'|].
  exact (Hc A).
Defined.

Lemma update_task_status_touches_one_task_witness :
  exists p t p' t',
    find_project one_task_world "u0" = Some p
    /\ dict_get (project_tasks p) "u1" = Some t
    /\ find_project (snd (update_task_status demo_clock "u0" "u1" BLOCKED one_task_world))
         "u0" = Some p'
    /\ dict_get (project_tasks p') "u1" = Some t'
    /\ task_status t' = BLOCKED
    /\ task_static t' = task_static t
    /\ task_actual_hours t' = task_actual_hours t
    /\ project_updated_at p' = project_updated_at p.
Proof.
  lookup_project one_task_world "u0" p Hp.
  lookup_task one_task_world "u0" "u1" p Hp t Ht.
  pose proof (update_task_status_touches_one_task demo_clock one_task_world
                "u0" "u1" BLOCKED p t Hp Ht) as H.
  cbv zeta in H.
  destruct H as (p' & t' & H1 & H2 & H3 & _ & H5 & H6 & _ & _ & _ & _ & H11 & _).
  exists p, t, p', t'. split; [reflexivity|]. split; [exact Ht|]. split; [exact H1|].
  split; [exact H2|]. split; [exact H3|]. split; [exact H5|]. split; [exact H6|exact H11].
Defined.

Lemma log_time_changes_no_status_witness :
  exists p t p' t',
    find_project one_task_world "u0" = Some p
    /\ dict_get (project_tasks p) "u1" = Some t
    /\ find_project (snd (log_time demo_clock "u0" "u1" (f_of_int 5) one_task_world))
         "u0" = Some p'
    /\ dict_get (project_tasks p') "u1" = Some t'
    /\ task_status t' = task_status t
    /\ project_status p' = project_status p
    /\ project_completion_date p' = project_completion_date p.
Proof.
  lookup_project one_task_world "u0" p Hp.
  lookup_task one_task_world "u0" "u1" p Hp t Ht.
  pose proof (log_time_changes_no_status demo_clock one_task_world
                "u0" "u1" (f_of_int 5) p t Hp Ht) as H.
  cbv zeta in H.
  destruct H as (p' & t' & H1 & H2 & H3 & _ & _ & _ & H7 & H8 & _).
  exists p, t, p', t'. split; [reflexivity|]. split; [exact Ht|]. split; [exact H1|].
  split; [exact H2|]. split; [exact H3|]. split; [exact H7|exact H8].
Defined.

Lemma task_dependencies_are_the_known_ids_witness :
  exists (p : @Project binary64) t deps,
    find_project abc_world "u0" = Some p
    /\ dict_get (project_tasks p) "u2" = Some t
    /\ get_task_dependencies "u0" "u2" abc_world = (Ok deps, abc_world)
    /\ (List.length deps <= List.length (task_dependencies t))%nat.
Proof.
  lookup_project abc_world "u0" p Hp.
  lookup_task abc_world "u0" "u2" p Hp t Ht.
  destruct (task_dependencies_are_the_known_ids abc_world "u0" "u2" p t Hp Ht)
    as (deps & H1 & _ & H3 & _).
  exists p, t, deps. split; [reflexivity|]. split; [exact Ht|]. split; [exact H1|exact H3].
Defined.

Lemma available_iff_dependencies_completed_witness :
  exists (p : @Project binary64) t deps available,
    find_project abc_world "u0" = Some p
    /\ dict_get (project_tasks p) "u2" = Some t
    /\ get_task_dependencies "u0" "u2" abc_world = (Ok deps, abc_world)
    /\ get_available_tasks "u0" abc_world = (Ok available, abc_world)
    /\ (In t available
        <-> task_status t = NOT_STARTED
            /\ forall d, In d deps -> task_status d = COMPLETED).
Proof.
  lookup_project abc_world "u0" p Hp.
  lookup_task abc_world "u0" "u2" p Hp t Ht.
  destruct (available_iff_dependencies_completed abc_world "u0" "u2" p t Hp Ht)
    as (deps & available & H1 & H2 & H3).
  exists p, t, deps, available. split; [reflexivity|]. split; [exact Ht|].
  split; [exact H1|]. split; [exact H2|exact H3].
Defined.

Lemma completing_a_dependency_unlocks_witness :
  exists (p : @Project binary64) td tb available,
    find_project abc_world "u0" = Some p
    /\ dict_get (project_tasks p) "u1" = Some td
    /\ dict_get (project_tasks p) "u2" = Some tb
    /\ fst (get_available_tasks "u0"
              (snd (update_task_status demo_clock "u0" "u1" COMPLETED abc_world)))
       = Ok available
    /\ In tb available.
Proof.
  lookup_project abc_world "u0" p Hp.
  lookup_task abc_world "u0" "u1" p Hp td Htd.
  assert (A : option_map (fun t : @ProjectTask binary64 =>
                            (task_status t, task_dependencies t))
                (find_task abc_world "u0" "u2") = Some (NOT_STARTED, ["u1"]))
    by (vm_compute; reflexivity).
  rewrite (find_task_found _ _ _ _ Hp) in A.
  destruct (dict_get (project_tasks p) "u2") as [tb|] eqn:Htb; [|discriminate A].
  injection A as Hs Hdeps.
  pose proof (completing_a_dependency_unlocks demo_clock abc_world "u0" "u1" p td Hp Htd)
    as H.
  cbv zeta in H. destruct H as (available & H1 & H2 & _).
  exists p, td, tb, available. split; [reflexivity|]. split; [exact Htd|].
  split; [exact Htb|]. split; [now rewrite H1|].
  apply (H2 "u2" tb); [discriminate|exact Htb|exact Hs|].
  intros dep Hin. rewrite Hdeps in Hin. destruct Hin as [<-|[]]. now left.
Defined.




Lemma critical_path_is_a_dependency_chain_witness :
  exists (p : @Project binary64) path,
    find_project (run demo_uuid4 demo_clock (@tasks_A_B_C binary64) init) "u0" = Some p
    /\ tasks_keyed p
    /\ get_critical_path demo_recursion_limit "u0"
         (run demo_uuid4 demo_clock (@tasks_A_B_C binary64) init)
       = (Ok path, run demo_uuid4 demo_clock (@tasks_A_B_C binary64) init)
    /\ NoDup (map task_id path)
    /\ linked path.
Proof.
  assert (B : option_map (fun p : @Project binary64 => List.length (project_tasks p))
                (find_project (run demo_uuid4 demo_clock (@tasks_A_B_C binary64) init) "u0")
              = Some 3%nat) by (vm_compute; reflexivity).
  lookup_project (run demo_uuid4 demo_clock (@tasks_A_B_C binary64) init) "u0" p Hp.
  injection B as B.
  assert (Hroom : (List.length (project_tasks p) < demo_recursion_limit)%nat)
    by (rewrite B; unfold demo_recursion_limit; lia).
  assert (Hk : tasks_keyed p).
  { apply (well_keyed_find (run demo_uuid4 demo_clock (@tasks_A_B_C binary64) init) "u0" p);
      [|exact Hp].
    exact (well_keyed_reachable demo_uuid4 demo_clock (@tasks_A_B_C binary64)). }
  destruct (critical_path_is_a_dependency_chain demo_recursion_limit
              (run demo_uuid4 demo_clock (@tasks_A_B_C binary64) init) "u0" p Hp Hk)
    as (H1 & H2 & _).
  destruct (H1 Hroom) as (path & E).
  destruct (H2 path _ E) as (_ & _ & H3 & H4 & _).
  exists p, path. split; [reflexivity|]. split; [exact Hk|]. split; [exact E|].
  split; [exact H3|exact H4].
Defined.

Lemma utilization_lists_every_assignment_witness :
  exists u e,
    get_resource_utilization staffed_world = (Ok u, staffed_world)
    /\ dict_get u "ann" = Some e
    /\ dict_get u "eve" = None
    /\ au_tasks e = assigned_to "ann" (dict_values (projects (self staffed_world)))
    /\ au_total_hours e = f_sum (map entry_hours (au_tasks e)).
Proof.
  destruct (utilization_lists_every_assignment staffed_world) as (u & E & H).
  assert (A : entry_titles (fst (get_resource_utilization staffed_world)) "ann"
              = Some (["u0"; "u3"], ["A"; "B"; "C"; "C"])) by (vm_compute; reflexivity).
  assert (B : entry_titles (fst (get_resource_utilization staffed_world)) "eve" = None)
    by (vm_compute; reflexivity).
  rewrite E in A, B. cbn [fst entry_titles] in A, B.
  destruct (dict_get u "ann") as [e|] eqn:He; [|discriminate A].
  destruct (dict_get u "eve") as [e'|] eqn:He'; [discriminate B|].
  destruct (H "ann") as (_ & Hann). destruct (Hann e He) as (H1 & H2 & _).
  exists u, e. split; [exact E|]. split; [exact He|]. split; [exact He'|].
  split; [exact H1|exact H2].
Defined.

Lemma utilization_projects_are_distinct_witness :
  exists u e,
    get_resource_utilization staffed_world = (Ok u, staffed_world)
    /\ dict_get u "ann" = Some e
    /\ NoDup (au_projects e)
    /\ forall pid, In pid (au_projects e) <-> In pid (map entry_project_id (au_tasks e)).
Proof.
  destruct (utilization_projects_are_distinct staffed_world) as (u & E & H).
  assert (A : entry_titles (fst (get_resource_utilization staffed_world)) "ann"
              = Some (["u0"; "u3"], ["A"; "B"; "C"; "C"])) by (vm_compute; reflexivity).
  rewrite E in A. cbn [fst entry_titles] in A.
  destruct (dict_get u "ann") as [e|] eqn:He; [|discriminate A].
  destruct (H "ann" e He) as (H1 & H2).
  exists u, e. split; [exact E|]. split; [exact He|]. split; [exact H1|exact H2].
Defined.




Lemma cascade_needs_every_task_completed_witness :
  exists (p : @Project binary64) t p',
    find_project abc_world "u0" = Some p
    /\ dict_get (project_tasks p) "u1" = Some t
    /\ find_project (snd (update_task_status demo_clock "u0" "u1" COMPLETED abc_world))
         "u0" = Some p'
    /\ ~ every_task_completed p'
    /\ project_status p' = project_status p
    /\ project_completion_date p' = project_completion_date p.
Proof.
  lookup_project abc_world "u0" p Hp.
  lookup_task abc_world "u0" "u1" p Hp t Ht.
  pose proof (cascade_needs_every_task_completed demo_clock abc_world "u0" "u1"
                COMPLETED p t Hp Ht) as H.
  cbv zeta in H. destruct H as (p' & Hp' & H).
  assert (A : option_map (fun q : @Project binary64 => all_completed (project_tasks q))
                (find_project
                   (snd (update_task_status demo_clock "u0" "u1" COMPLETED abc_world))
                   "u0") = Some false) by (vm_compute; reflexivity).
  rewrite Hp' in A. injection A as A.
  assert (Hnot : ~ every_task_completed p').
  { intros Hall. apply (proj2 (all_completed_iff (project_tasks p'))) in Hall. congruence. }
  destruct (H Hnot) as (H1 & H2 & _).
  exists p, t, p'. split; [reflexivity|]. split; [exact Ht|]. split; [exact Hp'|].
  split; [exact Hnot|]. split; [exact H1|exact H2].
Defined.

Lemma new_task_is_available_unless_blocked_witness :
  exists (p : @Project binary64) t available,
    find_project abc_world "u0" = Some p
    /\ dict_get (project_tasks p) (demo_uuid4 (uuid_calls abc_world)) = None
    /\ find_task
         (snd (add_task_to_project demo_uuid4 demo_clock "u0" "D" "" MEDIUM (f_of_int 1)
                 (Some ["ghost"]) None None None abc_world))
         "u0" (demo_uuid4 (uuid_calls abc_world)) = Some t
    /\ task_dependencies t = ["ghost"]
    /\ fst (get_available_tasks "u0"
              (snd (add_task_to_project demo_uuid4 demo_clock "u0" "D" "" MEDIUM
                      (f_of_int 1) (Some ["ghost"]) None None None abc_world)))
       = Ok available
    /\ In t available.
Proof.
  lookup_project abc_world "u0" p Hp.
  assert (A : option_map (fun q : @Project binary64 =>
                            (dict_mem (project_tasks q) (demo_uuid4 (uuid_calls abc_world)),
                             dict_mem (project_tasks q) "ghost"))
                (find_project abc_world "u0") = Some (false, false))
    by (vm_compute; reflexivity).
  rewrite Hp in A. cbn [option_map] in A. injection A as A B.
  assert (Hfresh : dict_get (project_tasks p) (demo_uuid4 (uuid_calls abc_world)) = None).
  { unfold dict_mem in A. destruct (dict_get _ _); [discriminate A|reflexivity]. }
  assert (Hghost : dict_get (project_tasks p) "ghost" = None).
  { unfold dict_mem in B. destruct (dict_get _ _); [discriminate B|reflexivity]. }
  assert (Hself : ~ In (demo_uuid4 (uuid_calls abc_world)) (or_empty (Some ["ghost"]))).
  { intros [H|[]]. revert H. vm_compute. discriminate. }
  pose proof (new_task_is_available_unless_blocked demo_uuid4 demo_clock abc_world
                "u0" "D" "" MEDIUM (f_of_int 1) (Some ["ghost"]) None None None p
                Hp Hfresh Hself) as H.
  cbv zeta in H. destruct H as (t & available & H1 & H2 & H3 & H4).
  exists p, t, available. split; [reflexivity|]. split; [exact Hfresh|].
  split; [exact H1|]. split; [exact H2|]. split; [now rewrite H3|].
  apply H4. intros dep [<-|[]]. now left.
Defined.

Lemma stamps_are_not_before_creation_witness :
  exists p,
    (forall i j, (i <= j)%nat -> demo_clock i <= demo_clock j)
    /\ find_project completed_world "u0" = Some p
    /\ project_created_at p <= project_updated_at p
    /\ forall d, project_completion_date p = Some d -> project_created_at p <= d.
Proof.
  assert (Hmono : forall i j, (i <= j)%nat -> demo_clock i <= demo_clock j)
    by (intros i j H; unfold demo_clock; lia).
  lookup_project (run demo_uuid4 demo_clock completed_project (@init binary64)) "u0" p Hp.
  destruct (stamps_are_not_before_creation demo_uuid4 demo_clock Hmono completed_project
              "u0" p Hp) as (H1 & H2 & _).
  exists p. split; [exact Hmono|]. split; [reflexivity|]. split; [exact H1|exact H2].
Defined.
